(** * doc-processor: extraction and analysis pipeline

    A shallow embedding of [src/utils/document_extractor.py],
    [src/utils/image_utils.py], [src/utils/symbol_utils.py],
    [src/models/document_analyzer.py], [src/export_mistral_jsonl.py] and the
    upload filter of [src/backend/app.py]; the properties of these modules
    stated in the specification, and further properties of the code.

    Conventions of the embedding.
    - A Python [str] is a [string]; the characters are the one-byte code
      points, so [isalpha], [lower] and the like are the ASCII ones.  Only
      [extract_unicode_symbols], whose subject is the characters outside
      ASCII, takes a text as the list of its code points, of any size.
    - A Python [int] is a [Z] (or a [nat] where it is a length or an index),
      a Python [float] is an exact rational [Q]: the rounding error of binary
      floating point is not modelled, the formulas and comparisons are.
    - A call that can raise returns a [result]; [try ... except] is
      [try_except].  Third-party libraries (PyPDF2, pdfminer, python-docx,
      textract, PyMuPDF, NLTK, spaCy, scikit-learn, transformers) and the file
      system are fields of an environment record.
    - A Python [dict] returned to the caller is a [gmap string pyval]; a
      [dict] whose insertion order is observable is an association list. *)

From Stdlib Require Import ZArith QArith Qround Lqa Ascii String List Permutation Sorted Lia.
From stdpp Require Import base option list strings gmap.

#[local] Set Warnings "-clear-no-such-hyp".

Local Open Scope string_scope.
Local Open Scope Z_scope.

(* ===================================================================== *)
(** * Python values, exceptions *)
(* ===================================================================== *)

Inductive exn_class :=
  | Exception | ValueError | UnicodeDecodeError | FileNotFoundError
  | ZeroDivisionError | IndexError | KeyError.

#[global] Instance exn_class_eq_dec : EqDecision exn_class.
Proof. solve_decision. Defined.

Record exn := mk_exn { exn_cls : exn_class; exn_msg : string }.

Inductive result (A : Type) :=
  | Ok (a : A)
  | Raise (e : exn).
Arguments Ok {A} a.
Arguments Raise {A} e.

#[global] Instance result_ret : MRet result := fun A a => Ok a.
#[global] Instance result_fmap : FMap result := fun A B f m =>
  match m with
  | Ok a => Ok (f a)
  | Raise e => Raise e
  end.
#[global] Instance result_bind : MBind result := fun A B f m =>
  match m with
  | Ok a => f a
  | Raise e => Raise e
  end.

(** [try: c except Exception as e: h e] *)
Definition try_except {A} (c : result A) (h : exn → result A) : result A :=
  match c with
  | Ok a => Ok a
  | Raise e => h e
  end.

(** [try: c except cls: h], other exceptions propagate *)
Definition try_except_cls {A} (cls : exn_class) (c : result A) (h : exn → result A)
  : result A :=
  match c with
  | Ok a => Ok a
  | Raise e => if decide (exn_cls e = cls) then h e else Raise e
  end.

Definition returns {A} (c : result A) : Prop := ∃ a, c = Ok a.

(** [str(e)] *)
Definition str_exn (e : exn) : string := exn_msg e.

#[warnings="-register-all"]
Inductive pyval :=
  | PNone
  | PBool (b : bool)
  | PInt (z : Z)
  | PFloat (q : Q)
  | PStr (s : string)
  | PList (l : list pyval)
  | PDict (d : list (string * pyval)).

(* ===================================================================== *)
(** * The string methods the program uses *)
(* ===================================================================== *)

Module PyStr.

Definition code (c : ascii) : nat := nat_of_ascii c.

(** [c.isspace()] on the one-byte code points *)
Definition is_space (c : ascii) : bool :=
  let n := code c in
  ((9 <=? n) && (n <=? 13) || (28 <=? n) && (n <=? 32))%nat.

Definition is_upper (c : ascii) : bool :=
  let n := code c in ((65 <=? n) && (n <=? 90))%nat.
Definition is_lower (c : ascii) : bool :=
  let n := code c in ((97 <=? n) && (n <=? 122))%nat.
Definition is_digit (c : ascii) : bool :=
  let n := code c in ((48 <=? n) && (n <=? 57))%nat.
Definition is_alpha (c : ascii) : bool := is_upper c || is_lower c.
Definition is_alnum (c : ascii) : bool := is_alpha c || is_digit c.

Definition lower_char (c : ascii) : ascii :=
  if is_upper c then ascii_of_nat (code c + 32) else c.

Fixpoint map_str (f : ascii → ascii) (s : string) : string :=
  match s with
  | EmptyString => EmptyString
  | String c s' => String (f c) (map_str f s')
  end.

Fixpoint filter_str (p : ascii → bool) (s : string) : string :=
  match s with
  | EmptyString => EmptyString
  | String c s' => if p c then String c (filter_str p s') else filter_str p s'
  end.

Fixpoint forall_str (p : ascii → bool) (s : string) : bool :=
  match s with
  | EmptyString => true
  | String c s' => p c && forall_str p s'
  end.

Fixpoint exists_str (p : ascii → bool) (s : string) : bool :=
  match s with
  | EmptyString => false
  | String c s' => p c || exists_str p s'
  end.

(** [s.lower()] *)
Definition lower (s : string) : string := map_str lower_char s.

Definition is_empty (s : string) : bool :=
  match s with EmptyString => true | _ => false end.

(** [s.isalnum()]: non-empty and every character alphanumeric *)
Definition isalnum (s : string) : bool := negb (is_empty s) && forall_str is_alnum s.

(** [c in s] for a character [c] *)
Definition char_in (c : ascii) (s : string) : bool :=
  exists_str (Ascii.eqb c) s.

Fixpoint lstrip (s : string) : string :=
  match s with
  | EmptyString => EmptyString
  | String c s' => if is_space c then lstrip s' else s
  end.

Fixpoint rstrip (s : string) : string :=
  match s with
  | EmptyString => EmptyString
  | String c s' =>
      let r := rstrip s' in
      if is_space c && is_empty r then EmptyString else String c r
  end.

(** [s.strip()] *)
Definition strip (s : string) : string := rstrip (lstrip s).

(** [s.split()]: the maximal runs of non-whitespace characters *)
Fixpoint split (s : string) : list string :=
  match s with
  | EmptyString => []
  | String c s' =>
      if is_space c then split s'
      else match s' with
           | EmptyString => [String c EmptyString]
           | String c' _ =>
               if is_space c' then String c EmptyString :: split s'
               else match split s' with
                    | w :: ws => String c w :: ws
                    | [] => [String c EmptyString]
                    end
           end
  end.

(** [s.split(sep)] for a one-character separator *)
Fixpoint split_on (sep : ascii) (s : string) : list string :=
  match s with
  | EmptyString => [EmptyString]
  | String c s' =>
      if Ascii.eqb c sep then EmptyString :: split_on sep s'
      else match split_on sep s' with
           | w :: ws => String c w :: ws
           | [] => [String c EmptyString]
           end
  end.

(** [sep.join(l)] *)
Fixpoint join (sep : string) (l : list string) : string :=
  match l with
  | [] => EmptyString
  | [w] => w
  | w :: ws => w +:+ sep +:+ join sep ws
  end.

(** [s.endswith(suffix)] *)
Definition endswith (s suffix : string) : bool :=
  let n := String.length s in
  let k := String.length suffix in
  (k <=? n)%nat && String.eqb (String.substring (n - k) k s) suffix.

(** [s[-k]], for [1 <= k <= len(s)] *)
Definition from_end (s : string) (k : nat) : option ascii :=
  if (k <=? String.length s)%nat && (1 <=? k)%nat
  then String.get (String.length s - k) s else None.

(** The strings ["\n"] and ["\n\n"] *)
Definition nl : string := String "010" EmptyString.
Definition nl2 : string := String "010" (String "010" EmptyString).

(** [w in l] for a list of strings *)
Definition mem (w : string) (l : list string) : bool :=
  existsb (String.eqb w) l.

End PyStr.

(* ===================================================================== *)
(** * The syllable estimator ([DocumentAnalyzer._count_syllables]) *)
(* ===================================================================== *)

Module Syllables.
Import PyStr.

Definition vowels : string := "aeiouy".

Definition special_cases : list string := ["the"; "me"; "she"; "he"; "be"; "we"].

(** [re.sub(r'[^a-zA-Z]', '', w)] *)
Definition strip_non_letters (w : string) : string := filter_str is_alpha w.

(** The [for char in word] loop, with its two variables [count] and
    [prev_is_vowel] as the state. *)
Fixpoint vowel_group_loop (word : string) (count : Z) (prev_is_vowel : bool) : Z :=
  match word with
  | EmptyString => count
  | String char rest =>
      let is_vowel := char_in char vowels in
      let count := if is_vowel && negb prev_is_vowel then count + 1 else count in
      vowel_group_loop rest count is_vowel
  end.

Definition _count_syllables (word : string) : Z :=
  let word := strip_non_letters (lower word) in
  if is_empty word then 0
  else if mem word special_cases then 1
  else
    let count := vowel_group_loop word 0 false in
    let count := if endswith word "e" then count - 1 else count in
    let count :=
      if endswith word "le" && (2 <? String.length word)%nat
         && negb (match from_end word 3 with
                  | Some c => char_in c vowels
                  | None => false
                  end)
      then count + 1 else count in
    Z.max count 1.

(** ** The estimator in the words of the specification *)

Definition is_vowel (c : ascii) : bool := char_in c vowels.

Definition vowel_at (w : string) (i : nat) : bool :=
  match String.get i w with Some c => is_vowel c | None => false end.

(** Position [i] starts a vowel group: a vowel that does not follow a
    vowel. *)
Definition starts_group (w : string) (i : nat) : bool :=
  vowel_at w i && negb (match i with O => false | S j => vowel_at w j end).

(** The same for a word that follows a character that is a vowel or not,
    as [prev] says: what the loop has counted from any point on. *)
Definition starts_group_from (prev : bool) (w : string) (i : nat) : bool :=
  vowel_at w i && negb (match i with O => prev | S j => vowel_at w j end).

Definition vowel_groups (w : string) : Z :=
  Z.of_nat (List.length (List.filter (starts_group w) (seq 0 (String.length w)))).

Definition ends_in_e (w : string) : bool :=
  match from_end w 1 with Some c => Ascii.eqb c "e" | None => false end.

Definition ends_in_consonant_le (w : string) : bool :=
  (3 <=? String.length w)%nat
  && match from_end w 1, from_end w 2, from_end w 3 with
     | Some e, Some l, Some c => Ascii.eqb e "e" && Ascii.eqb l "l" && negb (is_vowel c)
     | _, _, _ => false
     end.

Definition syllables_spec (w : string) : Z :=
  if mem w special_cases then 1
  else Z.max 1 (vowel_groups w
                - (if ends_in_e w then 1 else 0)
                + (if ends_in_consonant_le w then 1 else 0)).

Definition lowercase_word (w : string) : Prop :=
  forall_str is_lower w = true ∧ w ≠ EmptyString.

End Syllables.

(* ===================================================================== *)
(** * Insertion-ordered dictionaries, numbers, sorting *)
(* ===================================================================== *)

(** A Python [dict] keeps its keys in insertion order, and assigning to a
    key that is present keeps the key where it is. *)
Section ODict.
Context {K V : Type} `{EqDecision K}.

Fixpoint od_get (d : list (K * V)) (k : K) : option V :=
  match d with
  | [] => None
  | (k', v) :: d' => if decide (k' = k) then Some v else od_get d' k
  end.

Fixpoint od_set (d : list (K * V)) (k : K) (v : V) : list (K * V) :=
  match d with
  | [] => [(k, v)]
  | (k', v') :: d' =>
      if decide (k' = k) then (k', v) :: d' else (k', v') :: od_set d' k v
  end.

(** [k in d] *)
Definition od_mem (d : list (K * V)) (k : K) : bool :=
  match od_get d k with Some _ => true | None => false end.

Definition od_keys (d : list (K * V)) : list K := List.map fst d.
Definition od_values (d : list (K * V)) : list V := List.map snd d.
End ODict.

(** [d[k] = v if k not in d else d[k] + v], the accumulation step of the
    scoring loops, and the sum of the contributions to a key. *)
Section Accumulate.
Context {K : Type} `{EqDecision K}.

Definition od_add (d : list (K * Q)) (c : K * Q) : list (K * Q) :=
  match od_get d (fst c) with
  | Some s => od_set d (fst c) (s + snd c)%Q
  | None => od_set d (fst c) (snd c)
  end.

Definition total (k : K) (cs : list (K * Q)) : Q :=
  fold_right Qplus 0%Q
    (List.map snd (List.filter (λ c, bool_decide (fst c = k)) cs)).
End Accumulate.

Module PyNum.

Definition Qltb (a b : Q) : bool := negb (Qle_bool b a).

(** [a / b] on numbers *)
Definition py_div (a b : Q) : result Q :=
  if Qeq_bool b 0 then Raise (mk_exn ZeroDivisionError "division by zero")
  else Ok (a / b)%Q.

Definition of_nat (n : nat) : Q := inject_Z (Z.of_nat n).

(** The integer nearest to [x], ties to the even one. *)
Definition round_half_even (x : Q) : Z :=
  let f := Qfloor x in
  match ((x - inject_Z f) ?= (1 # 2))%Q with
  | Lt => f
  | Gt => f + 1
  | Eq => if Z.even f then f else f + 1
  end.

(** [round(x, ndigits)] *)
Definition py_round (x : Q) (ndigits : nat) : Q :=
  let scale := inject_Z (10 ^ Z.of_nat ndigits) in
  (inject_Z (round_half_even (x * scale)) / scale)%Q.

(** [sum(l)]: left to right from 0 *)
Definition py_sum (l : list Q) : Q := fold_left Qplus l 0%Q.

End PyNum.

(** [sorted(l, key=key, reverse=True)]: descending by key, elements with
    equal keys in their original order. *)
Section SortDesc.
Context {A : Type} (key : A → Q).

Fixpoint insert_desc (x : A) (l : list A) : list A :=
  match l with
  | [] => [x]
  | y :: l' => if PyNum.Qltb (key x) (key y) then y :: insert_desc x l' else x :: l
  end.

Definition sorted_desc (l : list A) : list A := fold_right insert_desc [] l.

End SortDesc.

(** [l.sort()] on a list of indices *)
Fixpoint insert_asc (x : nat) (l : list nat) : list nat :=
  match l with
  | [] => [x]
  | y :: l' => if (y <? x)%nat then y :: insert_asc x l' else x :: l
  end.

Definition sort_asc (l : list nat) : list nat := fold_right insert_asc [] l.

(* ===================================================================== *)
(** * The extraction engine ([utils/document_extractor.py],
      [utils/image_utils.py], [utils/ocr_utils.py]) *)
(* ===================================================================== *)

Module Extractor.
Import PyStr PyNum.

(** ** [os.path] on POSIX paths *)

(** [os.path.basename(p)]: what follows the last slash *)
Fixpoint basename (p : string) : string :=
  match p with
  | EmptyString => EmptyString
  | String c p' =>
      if exists_str (Ascii.eqb "/") p' then basename p'
      else if Ascii.eqb c "/" then p' else p
  end.

(** Split [s] at its last dot: what is before it, and the rest from the
    dot on. *)
Fixpoint split_last_dot (s : string) : option (string * string) :=
  match s with
  | EmptyString => None
  | String c s' =>
      match split_last_dot s' with
      | Some (pre, ext) => Some (String c pre, ext)
      | None => if Ascii.eqb c "." then Some (EmptyString, s) else None
      end
  end.

(** The second component of [os.path.splitext(p)]: the part of the last
    path component from its last dot on, unless only dots precede it. *)
Definition splitext_ext (p : string) : string :=
  match split_last_dot (basename p) with
  | Some (pre, ext) => if forall_str (Ascii.eqb ".") pre then EmptyString else ext
  | None => EmptyString
  end.

(** [needle in s] *)
Fixpoint contains (needle s : string) : bool :=
  String.prefix needle s
  || match s with
     | EmptyString => false
     | String _ s' => contains needle s'
     end.

(** ** The libraries and the file system *)

(** A [PyPDF2.PdfReader]: [reader.metadata], and [page.extract_text()] for
    each page of [reader.pages]. *)
Record pdf_reader := {
  pdf_metadata : result (option (list (string * string)));
  pdf_pages : result (list (result string));
}.

(** A [docx.Document]: core properties ([None] when unset, the two dates
    as [str] renders them), paragraph texts, the cell texts of each row of
    each table, and the relationships of the document part. *)
Record docx_rel := {
  target_ref : string;
  (** [target_part.blob] and [target_part.content_type] *)
  target_part : result (string * string);
}.

Record docx_document := {
  docx_title : option string;
  docx_author : option string;
  docx_subject : option string;
  docx_created : option string;
  docx_modified : option string;
  docx_paragraphs : list string;
  docx_tables : list (list (list string));
  docx_rels : list (string * docx_rel);
}.

(** A [fitz] document: for each page the xrefs of [page.get_images()], and
    [doc.extract_image(xref)] as the pair of [image] and [ext]. *)
Record fitz_document := {
  fitz_pages : list (result (list Z));
  fitz_extract_image : Z → result (string * string);
}.

(** [pytesseract.image_to_data(..., output_type=DICT)]: the columns [text]
    and [conf]. *)
Record ocr_data := {
  ocr_texts : list string;
  ocr_confs : list string;
}.

Record Env := {
  path_exists : string → bool;
  getsize : string → result Z;
  (** [open(path, 'r', encoding=...)] and [file.read()] *)
  read_utf8 : string → result string;
  read_latin1 : string → result string;
  (** [open(path, 'rb')] and [PyPDF2.PdfReader(file)] *)
  PdfReader : string → result pdf_reader;
  pdfminer_extract_text : string → result string;
  docx_Document : string → result docx_document;
  (** [textract.process(path).decode('utf-8')] *)
  textract_process : string → result string;
  fitz_open : string → result fitz_document;
  b64encode : string → string;
  (** [Image.open(io.BytesIO(base64.b64decode(b64)))], then
      [pytesseract.image_to_data] *)
  image_to_data : string → result ocr_data;
  (** [str(imagehash.phash(Image.open(...)))] *)
  phash : string → result string;
}.

Section WithEnv.
Context (env : Env).

(** ** Images *)

(** [c.isdigit()] *)
Definition isdigit (s : string) : bool := negb (is_empty s) && forall_str is_digit s.

(** [int(s)] for a string of digits *)
Definition int_of_digits (s : string) : Z :=
  fold_left (λ acc c, 10 * acc + Z.of_nat (code c - 48))
    (list_ascii_of_string s) 0.

Definition ocr_image_from_base64 (b64_image : string) : result (string * pyval) :=
  ocr_result ← image_to_data env b64_image;
  let text :=
    join " " (List.filter (λ t, negb (is_empty (strip t))) (ocr_texts ocr_result)) in
  let conf := List.map int_of_digits (List.filter isdigit (ocr_confs ocr_result)) in
  avg_conf ←
    (match conf with
     | [] => Ok (PInt 0)
     | _ => PFloat <$> py_div (inject_Z (fold_left Z.add conf 0))
                          (of_nat (List.length conf))
     end);
  Ok (text, avg_conf).

Definition image_perceptual_hash (b64_image : string) : result string :=
  phash env b64_image.

Definition image_sample (b64 img_format : string) (position : list (string * pyval))
  : result pyval :=
  ocr ← ocr_image_from_base64 b64;
  h ← image_perceptual_hash b64;
  Ok (PDict [("type", PStr "symbol_image");
             ("content", PStr b64);
             ("format", PStr img_format);
             ("meta", PDict (position ++ [("ocr_text", PStr (fst ocr));
                                          ("ocr_confidence", snd ocr);
                                          ("phash", PStr h)])%list)]).

(** The inner loop [for img_index, img in enumerate(img_list)] *)
Fixpoint page_images (doc : fitz_document) (page_num : nat)
    (img_list : list (nat * Z)) (images : list pyval) : result (list pyval) :=
  match img_list with
  | [] => Ok images
  | (img_index, xref) :: rest =>
      base_image ← fitz_extract_image doc xref;
      let '(image_bytes, img_format) := base_image in
      let b64 := b64encode env image_bytes in
      sample ← image_sample b64 img_format
                 [("page", PInt (Z.of_nat page_num + 1));
                  ("index", PInt (Z.of_nat img_index))];
      page_images doc page_num rest (images ++ [sample])%list
  end.

(** The outer loop [for page_num in range(len(doc))] *)
Fixpoint doc_images (doc : fitz_document) (pages : list (nat * result (list Z)))
    (images : list pyval) : result (list pyval) :=
  match pages with
  | [] => Ok images
  | (page_num, page) :: rest =>
      img_list ← page;
      images ← page_images doc page_num
                 (combine (seq 0 (List.length img_list)) img_list) images;
      doc_images doc rest images
  end.

Definition extract_images_from_pdf (file_path : string) : result (list pyval) :=
  doc ← fitz_open env file_path;
  doc_images doc (combine (seq 0 (List.length (fitz_pages doc))) (fitz_pages doc)) [].

(** [s.split("/")[-1]] *)
Definition after_last_slash (s : string) : string :=
  List.last (split_on "/" s) EmptyString.

Fixpoint rel_images (rels : list (string * docx_rel)) (images : list pyval)
  : result (list pyval) :=
  match rels with
  | [] => Ok images
  | (rel, rel_obj) :: rest =>
      if contains "image" (target_ref rel_obj) then
        image_part ← target_part rel_obj;
        let '(image_bytes, content_type) := image_part in
        let img_format := after_last_slash content_type in
        let b64 := b64encode env image_bytes in
        sample ← image_sample b64 img_format [("relationship_id", PStr rel)];
        rel_images rest (images ++ [sample])%list
      else rel_images rest images
  end.

Definition extract_images_from_docx (file_path : string) : result (list pyval) :=
  doc ← docx_Document env file_path;
  rel_images (docx_rels doc) [].

(** ** Text *)

(** [metadata.get(key, '')] *)
Definition meta_get (metadata : list (string * string)) (key : string) : pyval :=
  PStr (default EmptyString (od_get metadata key)).

(** The loop over [reader.pages], with [(pages, full_text)] as state. *)
Fixpoint read_pages (reader_pages : list (result string))
    (pages : list string) (full_text : string) : result (list string * string) :=
  match reader_pages with
  | [] => Ok (pages, full_text)
  | page :: rest =>
      text ← page;
      if is_empty text then read_pages rest pages full_text
      else read_pages rest (pages ++ [text])%list
             (full_text +:+ text +:+ nl2)
  end.

Definition _extract_from_pdf_with_pypdf2 (file_path : string)
  : result (gmap string pyval) :=
  reader ← PdfReader env file_path;
  metadata ← pdf_metadata reader;
  let metadata_dict :=
    match metadata with
    | Some ((_ :: _) as metadata) =>
        [("title", meta_get metadata "/Title");
         ("author", meta_get metadata "/Author");
         ("subject", meta_get metadata "/Subject");
         ("creator", meta_get metadata "/Creator");
         ("producer", meta_get metadata "/Producer")]
    | _ => []
    end in
  reader_pages ← pdf_pages reader;
  '(pages, full_text) ← read_pages reader_pages [] EmptyString;
  Ok {[ "text" := PStr (strip full_text);
        "metadata" := PDict metadata_dict;
        "pages" := PList (List.map PStr pages);
        "page_count" := PInt (Z.of_nat (List.length reader_pages)) ]}.

Definition _extract_from_pdf_with_pdfminer (file_path : string)
  : result (gmap string pyval) :=
  full_text ← pdfminer_extract_text env file_path;
  let pages := split_on "012" full_text in
  let pages :=
    List.map strip (List.filter (λ p, negb (is_empty (strip p))) pages) in
  Ok {[ "text" := PStr (strip full_text);
        "metadata" := PDict [];
        "pages" := PList (List.map PStr pages);
        "page_count" := PInt (Z.of_nat (List.length pages)) ]}.

Definition _extract_from_pdf (file_path : string) : result (gmap string pyval) :=
  try_except (_extract_from_pdf_with_pypdf2 file_path)
    (λ e, _extract_from_pdf_with_pdfminer file_path).

(** [x or ''] *)
Definition or_empty (x : option string) : string := default EmptyString x.

Definition _extract_from_docx (file_path : string) : result (gmap string pyval) :=
  doc ← docx_Document env file_path;
  let metadata :=
    [("title", PStr (or_empty (docx_title doc)));
     ("author", PStr (or_empty (docx_author doc)));
     ("subject", PStr (or_empty (docx_subject doc)));
     ("created", PStr (or_empty (docx_created doc)));
     ("modified", PStr (or_empty (docx_modified doc)))] in
  let '(paragraphs, full_text) :=
    fold_left
      (λ '(paragraphs, full_text) para,
         if is_empty para then (paragraphs, full_text)
         else ((paragraphs ++ [para])%list, full_text +:+ para +:+ nl))
      (docx_paragraphs doc) ([], EmptyString) in
  let full_text :=
    fold_left
      (λ full_text row,
         let row_text :=
           join " | " (List.filter (λ cell, negb (is_empty cell)) row) in
         if is_empty row_text then full_text
         else full_text +:+ row_text +:+ nl)
      (concat (docx_tables doc)) full_text in
  Ok {[ "text" := PStr (strip full_text);
        "metadata" := PDict metadata;
        "paragraphs" := PList (List.map PStr paragraphs) ]}.

Definition _extract_from_doc (file_path : string) : result (gmap string pyval) :=
  try_except
    (text ← textract_process env file_path;
     Ok {[ "text" := PStr (strip text); "metadata" := PDict [] ]})
    (λ e, Ok {[ "error" := PStr ("DOC extraction failed: " +:+ str_exn e) ]}).

Definition _extract_from_txt (file_path : string) : result (gmap string pyval) :=
  try_except_cls UnicodeDecodeError
    (text ← read_utf8 env file_path;
     let lines := split_on "010" text in
     size ← getsize env file_path;
     Ok {[ "text" := PStr (strip text);
           "metadata" := PDict [("filename", PStr (basename file_path));
                                ("size", PInt size)];
           "lines" := PList (List.map PStr lines) ]})
    (λ _,
       try_except
         (text ← read_latin1 env file_path;
          let lines := split_on "010" text in
          size ← getsize env file_path;
          Ok {[ "text" := PStr (strip text);
                "metadata" := PDict [("filename", PStr (basename file_path));
                                     ("size", PInt size);
                                     ("encoding", PStr "latin-1")];
                "lines" := PList (List.map PStr lines) ]})
         (λ e, Ok {[ "error" := PStr ("Text extraction failed: " +:+ str_exn e) ]})).

Definition _extract_with_textract (file_path : string) : result (gmap string pyval) :=
  try_except
    (text ← textract_process env file_path;
     size ← getsize env file_path;
     Ok {[ "text" := PStr (strip text);
           "metadata" := PDict [("filename", PStr (basename file_path));
                                ("size", PInt size)] ]})
    (λ e, Ok {[ "error" := PStr ("Unsupported file type extraction failed: "
                                 +:+ str_exn e) ]}).

(** [self.supported_extensions]: the handler of an extension *)
Definition supported_extensions (ext : string)
  : option (string → result (gmap string pyval)) :=
  if String.eqb ext ".pdf" then Some _extract_from_pdf
  else if String.eqb ext ".docx" then Some _extract_from_docx
  else if String.eqb ext ".doc" then Some _extract_from_doc
  else if String.eqb ext ".txt" then Some _extract_from_txt
  else None.

Definition extract (file_path : string) : result (gmap string pyval) :=
  if negb (path_exists env file_path) then
    Ok {[ "error" := PStr ("File not found: " +:+ file_path) ]}
  else
    let ext := splitext_ext (lower file_path) in
    match supported_extensions ext with
    | None => _extract_with_textract file_path
    | Some handler =>
        try_except (handler file_path)
          (λ e, Ok {[ "error" := PStr ("Extraction failed: " +:+ str_exn e) ]})
    end.

Definition extract_with_images (file_path : string) : result (gmap string pyval) :=
  base ← extract file_path;
  let ext := splitext_ext (lower file_path) in
  let images := [] in
  images ←
    (if String.eqb ext ".pdf" then extract_images_from_pdf file_path
     else if String.eqb ext ".docx" then extract_images_from_docx file_path
     else Ok images);
  Ok (<[ "images" := PList images ]> base).

End WithEnv.
End Extractor.

(* ===================================================================== *)
(** * The math tagger ([utils/symbol_utils.py]) *)
(* ===================================================================== *)

Module Symbols.

(** The regular expressions of [math_patterns] are sequences of literal
    characters and of [.*?], which under [re.DOTALL] is the lazy repetition
    of any character, newline included. *)
Inductive atom :=
  | Lit (c : ascii)
  | AnyLazy.

(** The backtracking matcher of [re]: the number of characters that the
    pattern consumes at the start of [s], if it matches there.  A lazy
    repetition first tries the rest of the pattern, and takes one more
    character when that fails. *)
Fixpoint match_here (p : list atom) : string → option nat :=
  match p with
  | [] => λ _, Some 0%nat
  | Lit c :: p' =>
      λ s, match s with
           | String d s' => if Ascii.eqb c d then S <$> match_here p' s' else None
           | EmptyString => None
           end
  | AnyLazy :: p' =>
      fix lazy (s : string) : option nat :=
        match match_here p' s with
        | Some n => Some n
        | None =>
            match s with
            | String _ s' => S <$> lazy s'
            | EmptyString => None
            end
        end
  end.

(** [re.finditer(p, text, re.DOTALL)] as the list of [(m.start(), m.end())]:
    scan from the left; after a match the scan resumes at its end.  [pos]
    is the offset of [s] in the text, [skip] the number of characters of
    [s] that the last match covers. *)
Fixpoint finditer_from (p : list atom) (s : string) (pos skip : nat)
  : list (nat * nat) :=
  match s with
  | EmptyString =>
      match skip, match_here p EmptyString with
      | O, Some _ => [(pos, pos)]
      | _, _ => []
      end
  | String _ s' =>
      match skip with
      | S k => finditer_from p s' (S pos) k
      | O =>
          match match_here p s with
          | Some n => (pos, (pos + n)%nat) :: finditer_from p s' (S pos) (n - 1)
          | None => finditer_from p s' (S pos) 0
          end
      end
  end.

Definition finditer (p : list atom) (text : string) : list (nat * nat) :=
  finditer_from p text 0 0.

(** [r'\$.*?\$'], [r'\\\(.*?\\\)'], [r'\\\[.*?\\\]'] *)
Definition dollar_pattern : list atom := [Lit "$"; AnyLazy; Lit "$"].
Definition paren_pattern : list atom :=
  [Lit "\"; Lit "("; AnyLazy; Lit "\"; Lit ")"].
Definition bracket_pattern : list atom :=
  [Lit "\"; Lit "["; AnyLazy; Lit "\"; Lit "]"].

Definition math_patterns : list (list atom) :=
  [dollar_pattern; paren_pattern; bracket_pattern].

(** [{"type": "math", "content": ..., "meta": {"start": ..., "end": ...}}] *)
Record math_sample := {
  content : string;
  start : nat;
  end_ : nat;
}.

(** [m.group(0)] with [m.start()] and [m.end()] *)
Definition sample_of (text : string) (m : nat * nat) : math_sample :=
  {| content := String.substring (fst m) (snd m - fst m) text;
     start := fst m;
     end_ := snd m |}.

(** The samples of one pattern. *)
Definition pattern_samples (text : string) (pat : list atom) : list math_sample :=
  List.map (sample_of text) (finditer pat text).

Definition extract_math_expressions (text : string) : list math_sample :=
  fold_left (λ matches pat, (matches ++ pattern_samples text pat)%list)
    math_patterns [].

(** ** In the words of the specification *)





End Symbols.

(* ===================================================================== *)
(** * The analysis engine ([models/document_analyzer.py]) *)
(* ===================================================================== *)

Module Analyzer.
Import PyStr PyNum.

(** What [TfidfVectorizer(stop_words='english').fit_transform] yields: the
    vocabulary ([get_feature_names_out()]) and the weight matrix, read as
    [tfidf_matrix[i, idx]]. *)
Record tfidf_model := {
  feature_names : list string;
  tfidf_matrix : nat → nat → Q;
}.

(** The result of the zero-shot classifier. *)
Record zero_shot := {
  zs_labels : list string;
  zs_scores : list Q;
}.

(** One classification of the sentiment pipeline: [{label, score}]. *)
Record classification := {
  cl_label : string;
  cl_score : Q;
}.

(** The libraries the analyzer calls. *)
Record Env := {
  word_tokenize : string → list string;
  sent_tokenize : string → list string;
  (** [set(stopwords.words('english'))] *)
  stop_words : list string;
  (** [WordNetLemmatizer().lemmatize] *)
  lemmatize : string → string;
  (** the order in which [for token in set(l)] visits the elements *)
  set_iter : list string → list string;
  (** [self.nlp(text).ents] as pairs [(ent.text, ent.label_)] *)
  spacy_ents : string → result (list (string * string));
  tfidf_fit_transform : list string → result tfidf_model;
  (** [pipeline("summarization", ...)], then the call
      [summarizer(text, max_length, min_length, do_sample=False)], a list
      of dictionaries *)
  summarization_pipeline :
    result (string → Z → Z → result (list (list (string * string))));
  (** [pipeline("zero-shot-classification", ...)] *)
  zero_shot_pipeline : result (string → list string → result zero_shot);
  (** [pipeline("sentiment-analysis")] *)
  sentiment_pipeline : result (string → result (list classification));
}.


(** [l[0]] *)
Definition index0 {A} (l : list A) : result A :=
  match l with
  | x :: _ => Ok x
  | [] => Raise (mk_exn IndexError "list index out of range")
  end.

(** [l[i]] *)
Definition getitem {A} (l : list A) (i : nat) : result A :=
  match nth_error l i with
  | Some x => Ok x
  | None => Raise (mk_exn IndexError "list index out of range")
  end.

(** [d[k]] *)
Definition getkey {V} (d : list (string * V)) (k : string) : result V :=
  match od_get d k with
  | Some v => Ok v
  | None => Raise (mk_exn KeyError k)
  end.

Section WithEnv.
Context (env : Env).

(** ** Readability *)

(** [any(c.isalpha() for c in word)] *)
Definition has_letter (word : string) : bool := exists_str is_alpha word.

(** The loop over [words], with [(syllable_count, complex_words)] as its
    state. *)
Definition syllable_loop (words : list string) : Z * Z :=
  fold_left
    (λ '(syllable_count, complex_words) word,
       let word := lower word in
       let syllables := Syllables._count_syllables word in
       let syllable_count := syllable_count + syllables in
       let complex_words :=
         if 3 <=? syllables then complex_words + 1 else complex_words in
       (syllable_count, complex_words))
    words (0, 0).

(** [round(v, ndigits)] of an [int] or a [float] *)
Definition round_val (v : pyval) (ndigits : nat) : pyval :=
  match v with
  | PFloat q => PFloat (py_round q ndigits)
  | _ => v
  end.

Definition calculate_readability (text : string)
  : result (list (string * pyval)) :=
  let sentences := sent_tokenize env text in
  let words := word_tokenize env text in
  let words := List.filter has_letter words in
  if (match words with [] => true | _ => false end)
     || (match sentences with [] => true | _ => false end)
  then
    Ok [("flesch_reading_ease", PInt 0);
        ("flesch_kincaid_grade", PInt 0);
        ("complex_word_ratio", PInt 0)]
  else
    let word_count := Z.of_nat (List.length words) in
    let sentence_count := Z.of_nat (List.length sentences) in
    let '(syllable_count, complex_words) := syllable_loop words in
    flesch_reading_ease ←
      (if (sentence_count =? 0) || (word_count =? 0) then Ok (PInt 0)
       else
         wps ← py_div (inject_Z word_count) (inject_Z sentence_count);
         spw ← py_div (inject_Z syllable_count) (inject_Z word_count);
         Ok (PFloat ((206835 # 1000) - (1015 # 1000) * wps - (846 # 10) * spw)%Q));
    flesch_kincaid_grade ←
      (if (sentence_count =? 0) || (word_count =? 0) then Ok (PInt 0)
       else
         wps ← py_div (inject_Z word_count) (inject_Z sentence_count);
         spw ← py_div (inject_Z syllable_count) (inject_Z word_count);
         Ok (PFloat ((39 # 100) * wps + (118 # 10) * spw - (1559 # 100))%Q));
    complex_word_ratio ←
      (if 0 <? word_count
       then PFloat <$> py_div (inject_Z complex_words) (inject_Z word_count)
       else Ok (PInt 0));
    avg_words_per_sentence ←
      (if 0 <? sentence_count
       then r ← py_div (inject_Z word_count) (inject_Z sentence_count);
            Ok (round_val (PFloat r) 2)
       else Ok (PInt 0));
    avg_syllables_per_word ←
      (if 0 <? word_count
       then r ← py_div (inject_Z syllable_count) (inject_Z word_count);
            Ok (round_val (PFloat r) 2)
       else Ok (PInt 0));
    Ok [("flesch_reading_ease", round_val flesch_reading_ease 2);
        ("flesch_kincaid_grade", round_val flesch_kincaid_grade 2);
        ("complex_word_ratio", round_val complex_word_ratio 3);
        ("avg_words_per_sentence", avg_words_per_sentence);
        ("avg_syllables_per_word", avg_syllables_per_word)].

(** ** Sentiment *)

(** The loop that packs consecutive sentences into chunks, with
    [(chunks, current_chunk)] as its state, and the flush after it. *)
Definition pack_step (max_token_count : nat)
    (st : list string * string) (sentence : string) : list string * string :=
  let '(chunks, current_chunk) := st in
  if (List.length (split current_chunk) + List.length (split sentence)
      <? max_token_count)%nat
  then (chunks, current_chunk +:+ " " +:+ sentence)
  else
    let chunks :=
      if is_empty current_chunk then chunks
      else (chunks ++ [strip current_chunk])%list in
    (chunks, sentence).

Definition pack_chunks (max_token_count : nat) (sentences : list string)
  : list string :=
  let '(chunks, current_chunk) :=
    fold_left (pack_step max_token_count) sentences ([], EmptyString) in
  if is_empty current_chunk then chunks else (chunks ++ [strip current_chunk])%list.

(** [for chunk in chunks: if chunk: results.append(analyzer(chunk)[0])] *)
Fixpoint classify_chunks (sentiment_analyzer : string → result (list classification))
    (chunks : list string) (results : list classification)
  : result (list classification) :=
  match chunks with
  | [] => Ok results
  | chunk :: chunks' =>
      if is_empty chunk then classify_chunks sentiment_analyzer chunks' results
      else
        r ← sentiment_analyzer chunk;
        result ← index0 r;
        classify_chunks sentiment_analyzer chunks' (results ++ [result])%list
  end.

(** [r['score'] for r in results if r['label'] == label] *)
Definition scores_of (label : string) (results : list classification) : list Q :=
  List.map cl_score (List.filter (λ r, String.eqb (cl_label r) label) results).

(** [sum(1 for r in results if r['label'] == label)] *)
Definition count_of (label : string) (results : list classification) : Z :=
  fold_left (λ acc r, if String.eqb (cl_label r) label then acc + 1 else acc)
    results 0.

(** The part of [analyze_sentiment] below the comment "Aggregate
    results". *)
Definition aggregate_results (results : list classification)
  : result (list (string * pyval)) :=
  match results with
  | [] => Ok [("label", PStr "NEUTRAL"); ("score", PFloat (1 # 2))]
  | _ =>
      let positive_score := py_sum (scores_of "POSITIVE" results) in
      let negative_score := py_sum (scores_of "NEGATIVE" results) in
      let positive_count := count_of "POSITIVE" results in
      let negative_count := count_of "NEGATIVE" results in
      let n := of_nat (List.length results) in
      '(label, score) ←
        (if negative_count <? positive_count then
           score ← py_div positive_score n; Ok ("POSITIVE", score)
         else if positive_count <? negative_count then
           score ← py_div negative_score n; Ok ("NEGATIVE", score)
         else if Qle_bool negative_score positive_score then
           score ← py_div positive_score n; Ok ("POSITIVE", score)
         else
           score ← py_div negative_score n; Ok ("NEGATIVE", score));
      positive_ratio ← py_div (inject_Z positive_count) n;
      negative_ratio ← py_div (inject_Z negative_count) n;
      Ok [("label", PStr label);
          ("score", PFloat score);
          ("positive_ratio", PFloat positive_ratio);
          ("negative_ratio", PFloat negative_ratio)]
  end.

Definition analyze_sentiment (text : string) : result (list (string * pyval)) :=
  try_except
    (sentiment_analyzer ← sentiment_pipeline env;
     let max_token_count := 512%nat in
     let sentences := sent_tokenize env text in
     let chunks := pack_chunks max_token_count sentences in
     results ← classify_chunks sentiment_analyzer chunks [];
     aggregate_results results)
    (λ e, Ok [("label", PStr "NEUTRAL"); ("score", PFloat (1 # 2));
              ("error", PStr (str_exn e))]).

(** ** Summary *)

(** [for word in word_tokenize(sentence.lower())] of the first loop:
    count the content words. *)
Definition count_word (word_frequencies : list (string * Z)) (word : string)
  : list (string * Z) :=
  if negb (mem word (stop_words env)) && isalnum word then
    match od_get word_frequencies word with
    | None => od_set word_frequencies word 1
    | Some n => od_set word_frequencies word (n + 1)
    end
  else word_frequencies.

(** The first loop of [_extractive_summarize]: [word_frequencies] as
    counts. *)
Definition count_words (sentences : list string) : list (string * Z) :=
  fold_left
    (λ wf sentence, fold_left count_word (word_tokenize env (lower sentence)) wf)
    sentences [].

(** [max(l)] of a non-empty list of integers *)
Definition py_max (l : list Z) : Z :=
  match l with
  | [] => 0
  | x :: l' => fold_left Z.max l' x
  end.

(** The second loop: [word_frequencies[word] / max_frequency].  The
    divisor is at least 1, see [max_frequency_pos]. *)
Definition normalize (word_frequencies : list (string * Z)) : list (string * Q) :=
  let max_frequency :=
    match word_frequencies with
    | [] => 1
    | _ => py_max (od_values word_frequencies)
    end in
  List.map (λ '(word, n), (word, (inject_Z n / inject_Z max_frequency)%Q))
    word_frequencies.

(** The body of the inner loop of the third loop: add the frequency of
    [word] to the score of sentence [i]. *)
Definition score_word (word_frequencies : list (string * Q)) (i : nat)
    (sentence_scores : list (nat * Q)) (word : string) : list (nat * Q) :=
  match od_get word_frequencies word with
  | Some f =>
      match od_get sentence_scores i with
      | None => od_set sentence_scores i f
      | Some s => od_set sentence_scores i (s + f)%Q
      end
  | None => sentence_scores
  end.

(** [enumerate(l)] *)
Definition enumerate {A} (l : list A) : list (nat * A) :=
  combine (seq 0 (List.length l)) l.

(** The third loop of [_extractive_summarize]: [sentence_scores]. *)
Definition score_sentences (word_frequencies : list (string * Q))
    (sentences : list string) : list (nat * Q) :=
  fold_left
    (λ scores '(i, sentence),
       fold_left (score_word word_frequencies i)
         (word_tokenize env (lower sentence)) scores)
    (enumerate sentences) [].

Definition _extractive_summarize (text : string) (sentences_count : nat) : string :=
  let sentences := sent_tokenize env text in
  if (List.length sentences <=? sentences_count)%nat then text
  else
    let word_frequencies := normalize (count_words sentences) in
    let sentence_scores := score_sentences word_frequencies sentences in
    let ranked_sentences := sorted_desc snd sentence_scores in
    let top_sentence_indices :=
      List.map fst (firstn sentences_count ranked_sentences) in
    let top_sentence_indices := sort_asc top_sentence_indices in
    join " " (List.map (λ i, nth i sentences EmptyString) top_sentence_indices).

(** The text that the [except] clause sees is the one assigned last in
    the [try] block: the original one when loading the model fails, the
    truncated one when the model fails. *)
Definition summarize (text : string) (max_length min_length : Z) : result string :=
  if Z.of_nat (List.length (split text)) <? min_length then Ok text
  else
    match summarization_pipeline env with
    | Raise e => Ok (_extractive_summarize text 3)
    | Ok summarizer =>
        let max_token_count := 1024%nat in
        let words := split text in
        let text :=
          if (max_token_count <? List.length words)%nat
          then join " " (firstn max_token_count words) else text in
        try_except
          (summary ← summarizer text max_length min_length;
           first ← index0 summary;
           getkey first "summary_text")
          (λ e, Ok (_extractive_summarize text 3))
    end.

(** ** Keywords *)

(** One entry [{"keyword": kw, "score": score}] of the result. *)
Record keyword_score := {
  keyword : string;
  score : Q;
}.

(** [FreqDist(tokens)]: a counter *)
Definition FreqDist (tokens : list string) : list (string * Z) :=
  fold_left
    (λ fd token,
       match od_get fd token with
       | None => od_set fd token 1
       | Some n => od_set fd token (n + 1)
       end)
    tokens [].

(** [list(l).index(x)], for an [x] that is in [l] *)
Fixpoint list_index (x : string) (l : list string) : nat :=
  match l with
  | [] => 0
  | y :: l' => if String.eqb y x then 0%nat else S (list_index x l')
  end.

(** The body of [for token in set(sentence_tokens)] *)
Definition score_token (model : tfidf_model) (i : nat)
    (tfidf_scores : list (string * Q)) (token : string) : list (string * Q) :=
  if mem token (stop_words env) then tfidf_scores
  else
    let lemma := lemmatize env token in
    if mem lemma (feature_names model) then
      let idx := list_index lemma (feature_names model) in
      let score := tfidf_matrix model i idx in
      match od_get tfidf_scores lemma with
      | Some s => od_set tfidf_scores lemma (s + score)%Q
      | None => od_set tfidf_scores lemma score
      end
    else tfidf_scores.

(** [sentence_tokens] of the scoring loop of [extract_keywords] *)
Definition sentence_tokens (sentence : string) : list string :=
  List.filter isalnum (word_tokenize env (lower sentence)).

(** The loop [for i, sentence in enumerate(sentences)] of
    [extract_keywords]: [tfidf_scores]. *)
Definition score_terms (model : tfidf_model) (sentences : list string)
  : list (string * Q) :=
  fold_left
    (λ tfidf_scores '(i, sentence),
       fold_left (score_token model i)
         (set_iter env (sentence_tokens sentence)) tfidf_scores)
    (enumerate sentences) [].

(** [for term in tfidf_scores: if term in freq_dist: ... *= freq_dist[term]] *)
Definition boost (freq_dist : list (string * Z)) (tfidf_scores : list (string * Q))
  : list (string * Q) :=
  List.map
    (λ '(term, s),
       match od_get freq_dist term with
       | Some n => (term, (s * inject_Z n)%Q)
       | None => (term, s)
       end)
    tfidf_scores.

(** The four assignments to [tokens] at the start of
    [extract_keywords]. *)
Definition keyword_tokens (text : string) : list string :=
  let tokens := word_tokenize env (lower text) in
  let tokens := List.filter isalnum tokens in
  let tokens := List.filter (λ token, negb (mem token (stop_words env))) tokens in
  List.map (lemmatize env) tokens.

Definition extract_keywords (text : string) (top_n : nat)
  : result (list keyword_score) :=
  let tokens := keyword_tokens text in
  let freq_dist := FreqDist tokens in
  let sentences := sent_tokenize env text in
  model ← tfidf_fit_transform env sentences;
  let tfidf_scores := score_terms model sentences in
  let tfidf_scores := boost freq_dist tfidf_scores in
  let sorted_keywords := sorted_desc snd tfidf_scores in
  Ok (List.map (λ '(kw, s), {| keyword := kw; score := s |})
        (firstn top_n sorted_keywords)).

(** ** Entities *)

(** The body of [for ent in doc.ents] *)
Definition add_entity (entities : list (string * list string))
    (ent : string * string) : list (string * list string) :=
  let '(ent_text, ent_label) := ent in
  let entities :=
    if od_mem entities ent_label then entities else od_set entities ent_label [] in
  match od_get entities ent_label with
  | Some l => if mem ent_text l then entities
              else od_set entities ent_label (l ++ [ent_text])%list
  | None => entities
  end.

Definition extract_entities (text : string)
  : result (list (string * list string)) :=
  ents ← spacy_ents env text;
  Ok (fold_left add_entity ents []).

(** ** Topics *)

Definition candidate_topics : list string :=
  ["business"; "technology"; "politics"; "health"; "science";
   "education"; "entertainment"; "sports"; "environment";
   "finance"; "law"; "medicine"; "art"; "history"; "literature"].

(** One entry [{"topic": label, "confidence": score}]. *)
Record topic := {
  topic_label : string;
  topic_confidence : Q;
}.

(** [for i in range(min(num_topics, len(result['labels'])))] *)
Fixpoint collect_topics (r : zero_shot) (indices : list nat) (topics : list topic)
  : result (list topic) :=
  match indices with
  | [] => Ok topics
  | i :: rest =>
      label ← getitem (zs_labels r) i;
      conf ← getitem (zs_scores r) i;
      collect_topics r rest
        (topics ++ [{| topic_label := label; topic_confidence := conf |}])%list
  end.

Definition extract_topics (text : string) (num_topics : nat) : result (list topic) :=
  try_except
    (classifier ← zero_shot_pipeline env;
     let max_token_count := 1024%nat in
     let words := split text in
     let text :=
       if (max_token_count <? List.length words)%nat
       then join " " (firstn max_token_count words) else text in
     r ← classifier text candidate_topics;
     collect_topics r (seq 0 (Nat.min num_topics (List.length (zs_labels r)))) [])
    (λ e, Ok []).

(** ** [analyze] *)

(** The sections as the values that [analyze] stores in [results]. *)
Definition keywords_val (l : list keyword_score) : pyval :=
  PList (List.map (λ k, PDict [("keyword", PStr (keyword k));
                               ("score", PFloat (score k))]) l).

Definition entities_val (d : list (string * list string)) : pyval :=
  PDict (List.map (λ '(label, l), (label, PList (List.map PStr l))) d).

Definition topics_val (l : list topic) : pyval :=
  PList (List.map (λ t, PDict [("topic", PStr (topic_label t));
                               ("confidence", PFloat (topic_confidence t))]) l).

Definition default_options : gmap string bool :=
  {[ "keywords" := true; "entities" := true; "summary" := true;
     "topics" := true; "sentiment" := false; "readability" := true ]}.

(** [options.get(key, default)] *)
Definition option_get (options : gmap string bool) (key : string) (dflt : bool)
  : bool :=
  default dflt (options !! key).

(** [not text or not text.strip()] *)
Definition is_blank (text : string) : bool :=
  is_empty text || is_empty (strip text).

Definition analyze (text : string) (options : option (gmap string bool))
  : result (gmap string pyval) :=
  if is_blank text then
    Ok {[ "error" := PStr "Empty text provided for analysis" ]}
  else
    let options :=
      match options with
      | None => default_options
      | Some options => options
      end in
    let results : gmap string pyval :=
      {[ "text_length" := PInt (Z.of_nat (String.length text));
         "word_count" := PInt (Z.of_nat (List.length (word_tokenize env text))) ]} in
    let sentences := sent_tokenize env text in
    let results :=
      <[ "sentence_count" := PInt (Z.of_nat (List.length sentences)) ]> results in
    results ←
      (if option_get options "keywords" true
       then v ← extract_keywords text 10; Ok (<[ "keywords" := keywords_val v ]> results)
       else Ok results);
    results ←
      (if option_get options "entities" true
       then v ← extract_entities text; Ok (<[ "entities" := entities_val v ]> results)
       else Ok results);
    results ←
      (if option_get options "summary" true
       then v ← summarize text 150 40; Ok (<[ "summary" := PStr v ]> results)
       else Ok results);
    results ←
      (if option_get options "topics" true
       then v ← extract_topics text 3; Ok (<[ "topics" := topics_val v ]> results)
       else Ok results);
    results ←
      (if option_get options "sentiment" false
       then v ← analyze_sentiment text; Ok (<[ "sentiment" := PDict v ]> results)
       else Ok results);
    results ←
      (if option_get options "readability" true
       then v ← calculate_readability text; Ok (<[ "readability" := PDict v ]> results)
       else Ok results);
    Ok results.

End WithEnv.
End Analyzer.

(* ===================================================================== *)
(** * The analysis engine in the words of the specification *)
(* ===================================================================== *)

Module AnalyzerSpec.
Import PyStr PyNum Analyzer.

(** ** Readability *)

Definition syllables_of (word : string) : Z :=
  Syllables._count_syllables (lower word).

Definition total_syllables (words : list string) : Z :=
  fold_right Z.add 0 (List.map syllables_of words).

(** the words with three or more syllables *)
Definition complex_count (words : list string) : Z :=
  Z.of_nat (List.length (List.filter (λ w, 3 <=? syllables_of w) words)).

Definition flesch_reading_ease (words sentences syllables : Z) : Q :=
  ((206835 # 1000)
   - (1015 # 1000) * (inject_Z words / inject_Z sentences)
   - (846 # 10) * (inject_Z syllables / inject_Z words))%Q.

Definition flesch_kincaid_grade (words sentences syllables : Z) : Q :=
  ((39 # 100) * (inject_Z words / inject_Z sentences)
   + (118 # 10) * (inject_Z syllables / inject_Z words)
   - (1559 # 100))%Q.

Definition zero_metrics : list (string * pyval) :=
  [("flesch_reading_ease", PInt 0);
   ("flesch_kincaid_grade", PInt 0);
   ("complex_word_ratio", PInt 0)].

Definition readability_metrics (words : list string) (sentences : list string)
  : list (string * pyval) :=
  let w := Z.of_nat (List.length words) in
  let s := Z.of_nat (List.length sentences) in
  let y := total_syllables words in
  [("flesch_reading_ease", PFloat (py_round (flesch_reading_ease w s y) 2));
   ("flesch_kincaid_grade", PFloat (py_round (flesch_kincaid_grade w s y) 2));
   ("complex_word_ratio",
     PFloat (py_round (inject_Z (complex_count words) / inject_Z w) 3));
   ("avg_words_per_sentence", PFloat (py_round (inject_Z w / inject_Z s) 2));
   ("avg_syllables_per_word", PFloat (py_round (inject_Z y / inject_Z w) 2))].

Definition is_nil {A} (l : list A) : bool :=
  match l with [] => true | _ => false end.

(** ** Sentiment *)

(** the chunks classified as [label] *)
Definition voters (label : string) (results : list classification)
  : list classification :=
  List.filter (λ r, String.eqb (cl_label r) label) results.

Definition votes (label : string) (results : list classification) : Z :=
  Z.of_nat (List.length (voters label results)).

(** the summed confidence of the class [label] *)
Definition confidence (label : string) (results : list classification) : Q :=
  fold_right Qplus 0%Q (List.map cl_score (voters label results)).

(** Majority vote; a tie goes to the class with the higher summed
    confidence. *)
Definition winner (results : list classification) : string :=
  if votes "NEGATIVE" results <? votes "POSITIVE" results then "POSITIVE"
  else if votes "POSITIVE" results <? votes "NEGATIVE" results then "NEGATIVE"
  else if Qle_bool (confidence "NEGATIVE" results) (confidence "POSITIVE" results)
       then "POSITIVE" else "NEGATIVE".

Definition neutral : list (string * pyval) :=
  [("label", PStr "NEUTRAL"); ("score", PFloat (1 # 2))].

(** [d] is the aggregate of a non-empty list of classifications. *)
Definition is_aggregate (results : list classification) (d : list (string * pyval))
  : Prop :=
  let n := of_nat (List.length results) in
  ∃ score positive_ratio negative_ratio,
    d = [("label", PStr (winner results));
         ("score", PFloat score);
         ("positive_ratio", PFloat positive_ratio);
         ("negative_ratio", PFloat negative_ratio)]
    ∧ (score == confidence (winner results) results / n)%Q
    ∧ (positive_ratio == inject_Z (votes "POSITIVE" results) / n)%Q
    ∧ (negative_ratio == inject_Z (votes "NEGATIVE" results) / n)%Q.

(** ** [analyze]: options and sections *)

(** The default of an option that is not given. *)
Definition option_default (key : string) : bool :=
  if String.eqb key "sentiment" then false else true.

(** An option is enabled when it is given as true, or not given and true
    by default. *)
Definition enabled (options : option (gmap string bool)) (key : string) : bool :=
  match options with
  | None => option_default key
  | Some options =>
      match options !! key with
      | Some b => b
      | None => option_default key
      end
  end.

Definition six_keys : list string :=
  ["keywords"; "entities"; "summary"; "topics"; "sentiment"; "readability"].

Definition base_keys : gset string :=
  {[ "text_length"; "word_count"; "sentence_count" ]}.

Definition section_key (options : option (gmap string bool)) (key : string)
  : gset string :=
  if enabled options key then {[ key ]} else ∅.

Definition section_keys (options : option (gmap string bool)) : gset string :=
  section_key options "keywords" ∪ section_key options "entities"
  ∪ section_key options "summary" ∪ section_key options "topics"
  ∪ section_key options "sentiment" ∪ section_key options "readability".

(** Every option is given, as false. *)
Definition all_disabled : gmap string bool :=
  {[ "keywords" := false; "entities" := false; "summary" := false;
     "topics" := false; "sentiment" := false; "readability" := false ]}.


(** ** Extractive summary *)

Section Summary.
Context (env : Env).

Definition sentence_words (sentence : string) : list string :=
  word_tokenize env (lower sentence).

(** a content word: alphanumeric and not a stop word *)
Definition content_word (w : string) : bool :=
  negb (mem w (stop_words env)) && isalnum w.

(** the content words of the document, with repetitions *)
Definition document_words (sentences : list string) : list string :=
  List.filter content_word (flat_map sentence_words sentences).

Definition occurrences (sentences : list string) (w : string) : Z :=
  Z.of_nat (count_occ string_dec (document_words sentences) w).

(** the maximum count of any content word *)
Definition max_occurrences (sentences : list string) : Z :=
  fold_right Z.max 0
    (List.map (occurrences sentences) (document_words sentences)).




End Summary.


(** ** The contributions that the scoring loops accumulate *)


(** ** Keywords *)

Section Keywords.
Context (env : Env).










(** *** The claim read literally: every lemma of the frequency table is
    scored, with the weight of the lemma in each sentence that contains
    it counted once. *)




End Keywords.


End AnalyzerSpec.

(* ===================================================================== *)
(** * The extraction engine in the words of the specification *)
(* ===================================================================== *)

Module ExtractorSpec.
Import PyStr Extractor.

(** The image stage of [extract_with_images]: PDF and DOCX files only. *)
Definition image_stage (env : Env) (file_path : string) : result (list pyval) :=
  let ext := splitext_ext (lower file_path) in
  if String.eqb ext ".pdf" then extract_images_from_pdf env file_path
  else if String.eqb ext ".docx" then extract_images_from_docx env file_path
  else Ok [].

(** The field [key] holds a non-empty string. *)
Definition populated (r : gmap string pyval) (key : string) : Prop :=
  ∃ s, r !! key = Some (PStr s) ∧ s ≠ EmptyString.

(** The field [key] holds a string, possibly empty. *)
Definition has_string (r : gmap string pyval) (key : string) : Prop :=
  ∃ s, r !! key = Some (PStr s).

(** A result with a text and no error, or with an error description and no
    text. *)
Definition text_or_error (r : gmap string pyval) : Prop :=
  (has_string r "text" ∧ r !! "error" = None)
  ∨ (r !! "text" = None ∧ populated r "error").

End ExtractorSpec.

(* ===================================================================== *)
(** * Sample environments *)
(* ===================================================================== *)

Module Demo.
Import PyStr.

(** ** Files *)

Definition not_found (file_path : string) : exn :=
  mk_exn FileNotFoundError ("No such file or directory: '" +:+ file_path +:+ "'").

Definition absent {A} (file_path : string) : result A := Raise (not_found file_path).

(** What [fitz.open] raises for a path without a file. *)
Definition fitz_not_found (file_path : string) : exn :=
  mk_exn FileNotFoundError ("no such file: '" +:+ file_path +:+ "'").

Definition no_pdf : Extractor.pdf_reader :=
  {| Extractor.pdf_metadata := Ok None; Extractor.pdf_pages := Ok [] |}.

(** A file system without any file. *)
Definition no_files : Extractor.Env :=
  {| Extractor.path_exists := λ _, false;
     Extractor.getsize := absent;
     Extractor.read_utf8 := absent;
     Extractor.read_latin1 := absent;
     Extractor.PdfReader := absent;
     Extractor.pdfminer_extract_text := absent;
     Extractor.docx_Document := absent;
     Extractor.textract_process := absent;
     Extractor.fitz_open := λ p, Raise (fitz_not_found p);
     Extractor.b64encode := λ b, b;
     Extractor.image_to_data := λ _, Raise (mk_exn Exception "cannot identify image file");
     Extractor.phash := λ _, Raise (mk_exn Exception "cannot identify image file") |}.

(** A file system with one text file. *)
Definition one_text_file (name content : string) : Extractor.Env :=
  let only {A} (f : string → result A) (p : string) : result A :=
    if String.eqb p name then f p else absent p in
  {| Extractor.path_exists := λ p, String.eqb p name;
     Extractor.getsize := only (λ _, Ok (Z.of_nat (String.length content)));
     Extractor.read_utf8 := only (λ _, Ok content);
     Extractor.read_latin1 := only (λ _, Ok content);
     Extractor.PdfReader :=
       only (λ _, Raise (mk_exn Exception "EOF marker not found"));
     Extractor.pdfminer_extract_text :=
       only (λ _, Raise (mk_exn Exception "No /Root object! - Is this really a PDF?"));
     Extractor.docx_Document :=
       only (λ _, Raise (mk_exn Exception "File is not a zip file"));
     Extractor.textract_process := only (λ _, Ok content);
     Extractor.fitz_open :=
       only (λ _, Raise (mk_exn Exception "Failed to open file"));
     Extractor.b64encode := λ b, b;
     Extractor.image_to_data := λ _, Raise (mk_exn Exception "cannot identify image file");
     Extractor.phash := λ _, Raise (mk_exn Exception "cannot identify image file") |}.


(** ** Language tools *)

(** Separate a trailing punctuation mark from a word. *)
Definition split_punct (w : string) : list string :=
  match from_end w 1 with
  | Some c =>
      if char_in c ".,!?" && (1 <? String.length w)%nat
      then [String.substring 0 (String.length w - 1) w; String c EmptyString]
      else [w]
  | None => []
  end.

(** Words and punctuation marks, as [nltk.word_tokenize] splits the sample
    texts. *)
Definition word_tokenize (text : string) : list string :=
  flat_map split_punct (split text).

Definition ends_sentence (w : string) : bool :=
  match from_end w 1 with
  | Some c => char_in c ".!?"
  | None => false
  end.

Fixpoint group_sentences (words current : list string) : list string :=
  match words with
  | [] => match current with [] => [] | _ => [join " " current] end
  | w :: words' =>
      if ends_sentence w then join " " (current ++ [w]) :: group_sentences words' []
      else group_sentences words' (current ++ [w])
  end.

(** Sentences end with a word that ends in a full stop, an exclamation or
    a question mark, as [nltk.sent_tokenize] splits the sample texts. *)
Definition sent_tokenize (text : string) : list string :=
  group_sentences (split text) [].

(** [stopwords.words('english')] *)
Definition stop_words : list string :=
  ["i"; "me"; "my"; "myself"; "we"; "our"; "ours"; "ourselves"; "you"; "you're";
   "you've"; "you'll"; "you'd"; "your"; "yours"; "yourself"; "yourselves"; "he";
   "him"; "his"; "himself"; "she"; "she's"; "her"; "hers"; "herself"; "it";
   "it's"; "its"; "itself"; "they"; "them"; "their"; "theirs"; "themselves";
   "what"; "which"; "who"; "whom"; "this"; "that"; "that'll"; "these"; "those";
   "am"; "is"; "are"; "was"; "were"; "be"; "been"; "being"; "have"; "has"; "had";
   "having"; "do"; "does"; "did"; "doing"; "a"; "an"; "the"; "and"; "but"; "if";
   "or"; "because"; "as"; "until"; "while"; "of"; "at"; "by"; "for"; "with";
   "about"; "against"; "between"; "into"; "through"; "during"; "before"; "after";
   "above"; "below"; "to"; "from"; "up"; "down"; "in"; "out"; "on"; "off"; "over";
   "under"; "again"; "further"; "then"; "once"; "here"; "there"; "when"; "where";
   "why"; "how"; "all"; "any"; "both"; "each"; "few"; "more"; "most"; "other";
   "some"; "such"; "no"; "nor"; "not"; "only"; "own"; "same"; "so"; "than"; "too";
   "very"; "s"; "t"; "can"; "will"; "just"; "don"; "don't"; "should"; "should've";
   "now"; "d"; "ll"; "m"; "o"; "re"; "ve"; "y"; "ain"; "aren"; "aren't"; "couldn";
   "couldn't"; "didn"; "didn't"; "doesn"; "doesn't"; "hadn"; "hadn't"; "hasn";
   "hasn't"; "haven"; "haven't"; "isn"; "isn't"; "ma"; "mightn"; "mightn't";
   "mustn"; "mustn't"; "needn"; "needn't"; "shan"; "shan't"; "shouldn";
   "shouldn't"; "wasn"; "wasn't"; "weren"; "weren't"; "won"; "won't"; "wouldn";
   "wouldn't"].

(** The noun lemmas of the words of the sample texts. *)
Definition lemmatize (w : string) : string :=
  if mem w ["cats"; "toys"; "dogs"]
  then String.substring 0 (String.length w - 1) w else w.

(** The vectorizer on the sentence ["cats chase cat toys"]: the vocabulary
    is [cat, cats, chase, toys], every term occurs once and in the only
    sentence, so every inverse document frequency is 1 and the normalized
    row is (1/2, 1/2, 1/2, 1/2). *)
Definition cats_model : Analyzer.tfidf_model :=
  {| Analyzer.feature_names := ["cat"; "cats"; "chase"; "toys"];
     Analyzer.tfidf_matrix :=
       λ i idx, if (i =? 0)%nat && (idx <? 4)%nat then 1 # 2 else 0%Q |}.

(** The vectorizer on the sample texts.  A text without a term (stop words
    only) has an empty vocabulary, for which [fit_transform] raises. *)
Definition tfidf_fit_transform (sentences : list string)
  : result Analyzer.tfidf_model :=
  if decide (sentences = ["cats chase cat toys"]) then Ok cats_model
  else Raise (mk_exn ValueError
                "empty vocabulary; perhaps the documents only contain stop words").

Definition unavailable {A} : result A :=
  Raise (mk_exn Exception "model is not available").

(** NLTK as above, no entity found, and no pretrained model at hand. *)
Definition analyzer_env : Analyzer.Env :=
  {| Analyzer.word_tokenize := word_tokenize;
     Analyzer.sent_tokenize := sent_tokenize;
     Analyzer.stop_words := stop_words;
     Analyzer.lemmatize := lemmatize;
     Analyzer.set_iter := nodup string_dec;
     Analyzer.spacy_ents := λ _, Ok [];
     Analyzer.tfidf_fit_transform := tfidf_fit_transform;
     Analyzer.summarization_pipeline := unavailable;
     Analyzer.zero_shot_pipeline := unavailable;
     Analyzer.sentiment_pipeline := unavailable |}.

(** A sentiment pipeline that answers from a table of chunks. *)
Definition with_sentiment (table : list (string * Analyzer.classification))
  : Analyzer.Env :=
  {| Analyzer.word_tokenize := word_tokenize;
     Analyzer.sent_tokenize := sent_tokenize;
     Analyzer.stop_words := stop_words;
     Analyzer.lemmatize := lemmatize;
     Analyzer.set_iter := nodup string_dec;
     Analyzer.spacy_ents := λ _, Ok [];
     Analyzer.tfidf_fit_transform := tfidf_fit_transform;
     Analyzer.summarization_pipeline := unavailable;
     Analyzer.zero_shot_pipeline := unavailable;
     Analyzer.sentiment_pipeline :=
       Ok (λ chunk, match od_get table chunk with
                    | Some c => Ok [c]
                    | None => Raise (mk_exn Exception "no answer")
                    end) |}.

Definition cats_text : string := "cats chase cat toys".

(** Four sentences and forty-one words; the two long sentences consist of stop
    words. *)
Definition pets_text : string :=
  "Cats purr. It is what it is and that is all that there is to it for you and me now. He was not the same as she was and they were not here with them then or now. Dogs bark.".

End Demo.

(* ===================================================================== *)
(** * The symbol tagger ([utils/symbol_utils.py]) *)
(* ===================================================================== *)

Module UnicodeSymbols.
Import PyStr.

(** A [str] as the list of its code points, of any size. *)
Definition ustr := list N.

(** The code points of a string of one-byte characters. *)
Definition codepoints (s : string) : ustr :=
  List.map N_of_ascii (list_ascii_of_string s).

(** One digit of [format(n, "X")] *)
Definition hex_digit (d : N) : ascii :=
  if (d <? 10)%N then ascii_of_N (48 + d) else ascii_of_N (55 + d).

(** [format(n, "X")]: the digits of [n] in base 16, the last one first,
    put before [acc]. *)
Fixpoint hex_digits (fuel : nat) (n : N) (acc : string) : string :=
  match fuel with
  | O => acc
  | S fuel' =>
      let acc := String (hex_digit (n mod 16)) acc in
      if (n / 16 =? 0)%N then acc else hex_digits fuel' (n / 16) acc
  end.

Definition hex (n : N) : string :=
  hex_digits (S (N.to_nat (N.log2 n))) n EmptyString.

Fixpoint zeros (k : nat) : string :=
  match k with
  | O => EmptyString
  | S k' => String "0" (zeros k')
  end.

(** [f"{n:04X}"]: at least four digits, padded with zeros *)
Definition hex04 (n : N) : string :=
  let h := hex n in
  zeros (4 - String.length h) +:+ h.

(** [{"type": "symbol", "content": char,
      "meta": {"unicode": ..., "desc": ..., "position": idx}}] *)
Record symbol_sample := {
  content : N;
  unicode : string;
  desc : string;
  position : nat;
}.

Section WithNames.
(** [unicodedata.name(char)]; [None] stands for the [ValueError] of a
    character without a name. *)
Context (name : N → option string).

(** The loop [for idx, char in enumerate(text)], from index [idx] on. *)
Fixpoint symbols_from (idx : nat) (text : ustr) (symbols : list symbol_sample)
  : list symbol_sample :=
  match text with
  | [] => symbols
  | char :: rest =>
      if (127 <? char)%N then
        let desc :=
          match name char with
          | Some desc => desc
          | None => "UNKNOWN"
          end in
        symbols_from (S idx) rest
          (symbols ++ [{| content := char;
                          unicode := "U+" +:+ hex04 char;
                          desc := desc;
                          position := idx |}])%list
      else symbols_from (S idx) rest symbols
  end.

Definition extract_unicode_symbols (text : ustr) : list symbol_sample :=
  symbols_from 0 text [].

End WithNames.
End UnicodeSymbols.

(* ===================================================================== *)
(** * The upload filter ([backend/app.py]) *)
(* ===================================================================== *)

Module App.
Import PyStr.

(** [app.config['ALLOWED_EXTENSIONS']], a set, used for membership only *)
Definition ALLOWED_EXTENSIONS : list string := ["pdf"; "docx"; "doc"; "txt"; "rtf"].

(** [s.rsplit('.', 1)] for a string with a dot: what stands before the last
    dot and what after it; [None] for a string without a dot. *)
Fixpoint rsplit_dot (s : string) : option (string * string) :=
  match s with
  | EmptyString => None
  | String c s' =>
      match rsplit_dot s' with
      | Some (before, after) => Some (String c before, after)
      | None => if Ascii.eqb c "." then Some (EmptyString, s') else None
      end
  end.

Definition allowed_file (filename : string) : bool :=
  char_in "." filename
  && match rsplit_dot filename with
     | Some (_, ext) => mem (lower ext) ALLOWED_EXTENSIONS
     | None => false
     end.

End App.

(* ===================================================================== *)
(** * The export of training samples ([export_mistral_jsonl.py]) *)
(* ===================================================================== *)

Module Mistral.
Import PyStr.

(** The truth value of a Python value. *)
Definition truthy (v : pyval) : bool :=
  match v with
  | PNone => false
  | PBool b => b
  | PInt z => negb (z =? 0)
  | PFloat q => negb (Qeq_bool q 0)
  | PStr s => negb (is_empty s)
  | PList l => match l with [] => false | _ => true end
  | PDict d => match d with [] => false | _ => true end
  end.

Record Env := {
  extractor : Extractor.Env;
  (** [unicodedata.name] *)
  unicode_name : N → option string;
  (** The [TypeError] that Python raises where a value of this type is
      iterated, or searched by [re], but cannot be. *)
  type_error : pyval → exn;
  (** [json.dumps(sample, ensure_ascii=False)] *)
  dumps : pyval → string;
  (** [open(path, "w", encoding="utf-8")] *)
  open_write : string → result unit;
}.

Section WithEnv.
Context (env : Env).

(** [for x in v] *)
Definition iterate (v : pyval) : result (list pyval) :=
  match v with
  | PList l => Ok l
  | PStr s => Ok (List.map (λ c, PStr (String c EmptyString)) (list_ascii_of_string s))
  | PDict d => Ok (List.map (λ kv, PStr (fst kv)) d)
  | _ => Raise (type_error env v)
  end.

(** [for i, x in enumerate(v): text_chunks.append((x, {tag: i+1}))] *)
Definition tagged (tag : string) (items : list pyval)
  : list (pyval * list (string * pyval)) :=
  List.map (λ ix, (snd ix, [(tag, PInt (Z.of_nat (fst ix) + 1))]))
    (combine (seq 0 (List.length items)) items).

(** [key in result and result[key]], for the [result] of the extraction *)
Definition present (extraction : gmap string pyval) (key : string) : option pyval :=
  match extraction !! key with
  | Some v => if truthy v then Some v else None
  | None => None
  end.

Definition text_chunks (extraction : gmap string pyval)
  : result (list (pyval * list (string * pyval))) :=
  match present extraction "pages" with
  | Some pages => items ← iterate pages; Ok (tagged "page" items)
  | None =>
      match present extraction "paragraphs" with
      | Some paragraphs => items ← iterate paragraphs; Ok (tagged "paragraph" items)
      | None =>
          match present extraction "text" with
          | Some text => Ok [(text, [])]
          | None => Ok []
          end
      end
  end.

(** [d.update(meta)] *)
Definition update (d meta : list (string * pyval)) : list (string * pyval) :=
  fold_left (λ d kv, od_set d (fst kv) (snd kv)) meta d.

Definition text_sample (chunk : pyval) (meta : list (string * pyval)) : pyval :=
  PDict [("type", PStr "text"); ("content", chunk); ("meta", PDict meta)].

Definition symbol_sample (meta : list (string * pyval))
    (symbol : UnicodeSymbols.symbol_sample) : pyval :=
  PDict [("type", PStr "symbol");
         ("content",
           PStr (String (ascii_of_N (UnicodeSymbols.content symbol)) EmptyString));
         ("meta",
           PDict (update
                    [("unicode", PStr (UnicodeSymbols.unicode symbol));
                     ("desc", PStr (UnicodeSymbols.desc symbol));
                     ("position", PInt (Z.of_nat (UnicodeSymbols.position symbol)))]
                    meta))].

Definition math_sample (meta : list (string * pyval)) (math : Symbols.math_sample)
  : pyval :=
  PDict [("type", PStr "math");
         ("content", PStr (Symbols.content math));
         ("meta",
           PDict (update
                    [("start", PInt (Z.of_nat (Symbols.start math)));
                     ("end", PInt (Z.of_nat (Symbols.end_ math)))]
                    meta))].

(** The body of the loop over the chunks: the samples of one chunk.  A
    chunk that is no [str] ends in a [TypeError], of [enumerate], of
    [ord] or of [re.finditer]. *)
Definition chunk_samples (chunk : pyval) (meta : list (string * pyval))
  : result (list pyval) :=
  match chunk with
  | PStr s =>
      Ok (text_sample chunk meta
          :: List.map (symbol_sample meta)
               (UnicodeSymbols.extract_unicode_symbols (unicode_name env)
                  (UnicodeSymbols.codepoints s))
          ++ List.map (math_sample meta) (Symbols.extract_math_expressions s))%list
  | _ => Raise (type_error env chunk)
  end.

(** [for chunk, meta in text_chunks] *)
Fixpoint chunk_loop (text_chunks : list (pyval * list (string * pyval)))
    (samples : list pyval) : result (list pyval) :=
  match text_chunks with
  | [] => Ok samples
  | (chunk, meta) :: rest =>
      new ← chunk_samples chunk meta;
      chunk_loop rest (samples ++ new)%list
  end.

(** The samples of the result of an extraction. *)
Definition samples_of (extraction : gmap string pyval) : result (list pyval) :=
  chunks ← text_chunks extraction;
  samples ← chunk_loop chunks [];
  images ← iterate (default (PList []) (extraction !! "images"));
  Ok (samples ++ images)%list.

(** The lines written to [output_jsonl]. *)
Definition process_document_for_mistral (input_file output_jsonl : string)
  : result (list string) :=
  extraction ← Extractor.extract_with_images (extractor env) input_file;
  samples ← samples_of extraction;
  _ ← open_write env output_jsonl;
  Ok (List.map (λ sample, dumps env sample +:+ nl) samples).

End WithEnv.
End Mistral.

(* ===================================================================== *)
(** * Notions for the further properties *)
(* ===================================================================== *)

Module Props.
Import PyStr PyNum.

(** The elements of a list in the order of their first occurrence. *)
Fixpoint uniq (l : list string) : list string :=
  match l with
  | [] => []
  | x :: l' => x :: List.filter (λ y, negb (String.eqb y x)) (uniq l')
  end.

(** The surface texts of the entities with a label, in document order. *)
Definition texts_of (label : string) (ents : list (string * string)) : list string :=
  List.map fst (List.filter (λ ent, String.eqb (snd ent) label) ents).



(** An assumption on the classifications the sentiment pipeline returns. *)
Definition sentiment_model (env : Analyzer.Env) (P : Analyzer.classification → Prop)
  : Prop :=
  ∀ f chunk rs r,
    Analyzer.sentiment_pipeline env = Ok f → f chunk = Ok rs → In r rs → P r.

Definition binary_label (r : Analyzer.classification) : Prop :=
  Analyzer.cl_label r = "POSITIVE" ∨ Analyzer.cl_label r = "NEGATIVE".

Definition unit_score (r : Analyzer.classification) : Prop :=
  (0 <= Analyzer.cl_score r <= 1)%Q.

(** The state of the loop after the entities [p]. *)
Definition grouped (p : list (string * string)) (d : list (string * list string))
  : Prop :=
  od_keys d = uniq (List.map snd p)
  ∧ ∀ label, od_get d label
             = if mem label (List.map snd p)
               then Some (uniq (texts_of label p)) else None.






(** The text of a result, when it has one, is some string stripped. *)
Definition text_stripped (r : gmap string pyval) : Prop :=
  ∀ t, r !! "text" = Some (PStr t) → ∃ raw, t = strip raw.



Definition non_empty (s : string) : bool := negb (is_empty s).










(** The text of a table row: its non-empty cells, joined. *)
Definition row_text (row : list string) : string :=
  join " | " (List.filter non_empty row).

(** The value of a hexadecimal digit and of a string of such digits. *)
Definition digit_value (c : ascii) : N :=
  if is_digit c then (N_of_ascii c - 48)%N else (N_of_ascii c - 55)%N.

Fixpoint hex_value_from (acc : N) (s : string) : N :=
  match s with
  | EmptyString => acc
  | String c s' => hex_value_from (16 * acc + digit_value c)%N s'
  end.

Definition hex_value (s : string) : N := hex_value_from 0 s.

(** The characters outside ASCII with their positions. *)
Definition non_ascii (text : UnicodeSymbols.ustr) : list (nat * N) :=
  List.filter (λ ic, (127 <? snd ic)%N) (combine (seq 0 (List.length text)) text).

(** The field [key] of an extraction is absent or a list of strings; its
    text is absent or a string. *)
Definition list_field (r : gmap string pyval) (key : string) : Prop :=
  r !! key = None ∨ ∃ l, r !! key = Some (PList (List.map PStr l)).

Definition text_field (r : gmap string pyval) : Prop :=
  r !! "text" = None ∨ ∃ s, r !! "text" = Some (PStr s).

Definition shaped (r : gmap string pyval) : Prop :=
  list_field r "pages" ∧ list_field r "paragraphs" ∧ text_field r.

(** The strings of a list of values. *)
Definition strings (l : list pyval) : list string :=
  flat_map (λ v, match v with PStr s => [s] | _ => [] end) l.

Definition field_strings (r : gmap string pyval) (key : string) : list string :=
  match r !! key with
  | Some (PList l) => strings l
  | _ => []
  end.

Definition field_text (r : gmap string pyval) : string :=
  match r !! "text" with
  | Some (PStr s) => s
  | _ => EmptyString
  end.

(** The chunks of an export: the pages with their numbers; without a page
    the paragraphs with their numbers; without either the text, if any. *)
Definition numbered (tag : string) (l : list string)
  : list (string * list (string * pyval)) :=
  List.map (λ ix, (snd ix, [(tag, PInt (Z.of_nat (fst ix) + 1))]))
    (combine (seq 0 (List.length l)) l).

Definition export_chunks (pages paragraphs : list string) (text : string)
  : list (string * list (string * pyval)) :=
  match pages, paragraphs with
  | _ :: _, _ => numbered "page" pages
  | [], _ :: _ => numbered "paragraph" paragraphs
  | [], [] => if is_empty text then [] else [(text, [])]
  end.

(** The samples of one chunk: its text, its symbols outside ASCII, its
    mathematical expressions, each with the tag of the chunk. *)
Definition str_chunk_samples (env : Mistral.Env)
    (chunk : string * list (string * pyval)) : list pyval :=
  (Mistral.text_sample (PStr (fst chunk)) (snd chunk)
   :: List.map (Mistral.symbol_sample (snd chunk))
        (UnicodeSymbols.extract_unicode_symbols (Mistral.unicode_name env)
           (UnicodeSymbols.codepoints (fst chunk)))
   ++ List.map (Mistral.math_sample (snd chunk))
        (Symbols.extract_math_expressions (fst chunk)))%list.

(** The export on the machine without any file: no sample is ever written
    there, and no value is ever iterated that cannot be. *)
Definition export_no_files : Mistral.Env :=
  {| Mistral.extractor := Demo.no_files;
     Mistral.unicode_name := λ _, None;
     Mistral.type_error := λ _, mk_exn Exception "object is not iterable";
     Mistral.dumps := λ _, EmptyString;
     Mistral.open_write := λ _, Ok tt |}.

End Props.

(* ===================================================================== *)
(** * Properties *)
(* ===================================================================== *)

(** ** String methods on samples *)

Example strip_example : PyStr.strip "  a b
 " = "a b".
Proof. reflexivity. Qed.
Example split_example : PyStr.split " one  two
three " = ["one"; "two"; "three"].
Proof. reflexivity. Qed.
Example split_on_example : PyStr.split_on "010" "a
b
" = ["a"; "b"; ""].
Proof. reflexivity. Qed.
Example lower_example : PyStr.lower "Hello, World 42" = "hello, world 42".
Proof. reflexivity. Qed.
Example syllables_table : Syllables._count_syllables "table" = 2.
Proof. reflexivity. Qed.
Example syllables_the : Syllables._count_syllables "the" = 1.
Proof. reflexivity. Qed.
Example syllables_readability : Syllables._count_syllables "readability" = 5.
Proof. reflexivity. Qed.
Example syllables_e : Syllables._count_syllables "e" = 1.
Proof. reflexivity. Qed.
Example syllables_mixed : Syllables._count_syllables "Don't" = 1.
Proof. reflexivity. Qed.
Example syllables_spec_table : Syllables.syllables_spec "table" = 2.
Proof. reflexivity. Qed.

(** ** Insertion-ordered dictionaries *)

Section ODictFacts.
Context {K V : Type} `{EqDecision K}.
Implicit Types (d : list (K * V)) (k : K) (v : V).

Lemma od_get_set d k v k' :
  od_get (od_set d k v) k' = if decide (k = k') then Some v else od_get d k'.
Proof.
  induction d as [|[k0 v0] d IH]; cbn [od_set od_get].
  - by destruct (decide (k = k')).
  - destruct (decide (k0 = k)) as [->|Hne]; cbn [od_get].
    + by destruct (decide (k = k')).
    + rewrite IH. destruct (decide (k0 = k')) as [->|Hne']; [|done].
      by destruct (decide (k = k')).
Qed.

Lemma od_get_None d k : od_get d k = None ↔ ¬ In k (od_keys d).
Proof.
  induction d as [|[k0 v0] d IH]; cbn [od_get od_keys List.map In fst].
  - tauto.
  - destruct (decide (k0 = k)) as [->|Hne].
    + split; [done|]. intros Hn. exfalso. apply Hn. by left.
    + unfold od_keys in IH. rewrite IH. tauto.
Qed.

Lemma od_get_Some_in d k v : od_get d k = Some v → In (k, v) d.
Proof.
  induction d as [|[k0 v0] d IH]; cbn [od_get In]; [done|].
  destruct (decide (k0 = k)) as [->|Hne].
  - intros [= ->]. by left.
  - intros Hg. right. by apply IH.
Qed.

Lemma od_get_in_nodup d k v :
  List.NoDup (od_keys d) → In (k, v) d → od_get d k = Some v.
Proof.
  induction d as [|[k0 v0] d IH]; cbn [od_get od_keys List.map In fst]; [done|].
  intros Hnd [Heq|Hin]; apply List.NoDup_cons_iff in Hnd as [Hni Hnd].
  - injection Heq as -> ->. by destruct (decide (k = k)).
  - destruct (decide (k0 = k)) as [->|Hne].
    + exfalso. apply Hni. apply in_map_iff. by exists (k, v).
    + by apply IH.
Qed.

Lemma od_set_present d k v :
  In k (od_keys d) → od_keys (od_set d k v) = od_keys d.
Proof.
  induction d as [|[k0 v0] d IH]; cbn [od_set od_keys List.map In fst]; [done|].
  destruct (decide (k0 = k)) as [->|Hne]; [done|].
  intros [Heq|Hin]; [done|]. cbn [List.map fst]. f_equal. by apply IH.
Qed.

Lemma od_set_absent d k v : ¬ In k (od_keys d) → od_set d k v = (d ++ [(k, v)])%list.
Proof.
  induction d as [|[k0 v0] d IH]; cbn [od_set od_keys List.map In fst app]; [done|].
  intros Hn. destruct (decide (k0 = k)) as [->|Hne]; [tauto|].
  f_equal. apply IH. tauto.
Qed.

Lemma od_set_nodup d k v :
  List.NoDup (od_keys d) → List.NoDup (od_keys (od_set d k v)).
Proof.
  intros Hnd. destruct (in_dec (λ a b, decide (a = b)) k (od_keys d)) as [Hin|Hni].
  - by rewrite od_set_present.
  - rewrite od_set_absent by done. unfold od_keys in *. rewrite map_app.
    cbn [List.map fst]. apply List.NoDup_app; [done| |].
    + apply List.NoDup_cons; [intros []|apply List.NoDup_nil].
    + intros x Hx [<-|[]]. done.
Qed.

End ODictFacts.

Section AccumulateFacts.
Context {K : Type} `{EqDecision K}.
Implicit Types (d : list (K * Q)) (c : K * Q) (k : K).

Lemma od_add_get d c k :
  od_get (od_add d c) k
  = if decide (fst c = k)
    then Some (match od_get d k with Some s => (s + snd c)%Q | None => snd c end)
    else od_get d k.
Proof.
  unfold od_add. destruct (od_get d (fst c)) as [s|] eqn:E; rewrite od_get_set;
    destruct (decide (fst c = k)) as [<-|Hne]; try done; by rewrite E.
Qed.



Lemma total_cons c cs k :
  total k (c :: cs)
  = if bool_decide (fst c = k) then (snd c + total k cs)%Q else total k cs.
Proof. unfold total. cbn [List.filter]. by destruct (bool_decide (fst c = k)). Qed.




(** What the dictionary holds for [k] once the contributions [cs] have been
    accumulated into [d]. *)
Lemma fold_od_add_get cs d k :
  match od_get (fold_left od_add cs d) k with
  | Some s =>
      match od_get d k with
      | Some s0 => (s == s0 + total k cs)%Q
      | None => In k (List.map fst cs) ∧ (s == total k cs)%Q
      end
  | None => od_get d k = None ∧ ¬ In k (List.map fst cs)
  end.
Proof.
  revert d. induction cs as [|c cs IH]; intros d.
  - cbn [fold_left List.map In]. destruct (od_get d k) as [s|]; [|tauto].
    unfold total. cbn. ring.
  - cbn [fold_left List.map In]. specialize (IH (od_add d c)).
    rewrite od_add_get in IH. rewrite total_cons.
    destruct (od_get (fold_left od_add cs (od_add d c)) k) as [s|].
    + destruct (decide (fst c = k)) as [Heq|Hne].
      * rewrite bool_decide_eq_true_2 by done.
        destruct (od_get d k) as [s0|].
        -- rewrite IH. ring.
        -- split; [by left|]. rewrite IH. ring.
      * rewrite bool_decide_eq_false_2 by done.
        destruct (od_get d k) as [s0|]; [done|]. tauto.
    + destruct (decide (fst c = k)) as [Heq|Hne]; [by destruct IH|].
      destruct IH as [Hg Hn]. tauto.
Qed.

Lemma fold_od_add_keys cs k :
  In k (od_keys (fold_left od_add cs [])) ↔ In k (List.map fst cs).
Proof.
  pose proof (fold_od_add_get cs [] k) as Hg. cbn [od_get] in Hg.
  destruct (od_get (fold_left od_add cs []) k) as [s|] eqn:E.
  - split; [tauto|]. intros _. apply od_get_Some_in in E.
    apply in_map_iff. by exists (k, s).
  - apply od_get_None in E. tauto.
Qed.

End AccumulateFacts.

(** ** Sorting *)

Section SortFacts.
Context {A : Type} (key : A → Q).











End SortFacts.

Section SortAscFacts.







End SortAscFacts.

(** ** C8: the syllable estimator *)

Section SyllableFacts.
Import PyStr Syllables.

Lemma is_lower_not_upper c : is_lower c = true → is_upper c = false.
Proof.
  unfold is_lower, is_upper. intros H.
  apply andb_true_iff in H as [H1 _]. apply Nat.leb_le in H1.
  apply andb_false_iff. right. apply Nat.leb_gt. lia.
Qed.

Lemma lower_lowercase w : forall_str is_lower w = true → lower w = w.
Proof.
  induction w as [|c w IH]; simpl; [done|].
  intros H. apply andb_true_iff in H as [Hc Hw].
  unfold lower in *. simpl. rewrite (IH Hw).
  unfold lower_char. by rewrite (is_lower_not_upper _ Hc).
Qed.

Lemma strip_non_letters_lowercase w :
  forall_str is_lower w = true → strip_non_letters w = w.
Proof.
  induction w as [|c w IH]; simpl; [done|].
  intros H. apply andb_true_iff in H as [Hc Hw].
  unfold strip_non_letters in *. simpl.
  assert (is_alpha c = true) as -> by (unfold is_alpha; by rewrite Hc, orb_true_r).
  by rewrite (IH Hw).
Qed.

Lemma filter_map_length {A B} (f : B → bool) (g : A → B) (l : list A) :
  List.length (List.filter f (List.map g l))
  = List.length (List.filter (λ x, f (g x)) l).
Proof. induction l as [|x l IH]; simpl; [done|]. destruct (f (g x)); simpl; by rewrite IH. Qed.

Lemma filter_ext_length {A} (f g : A → bool) (l : list A) :
  (∀ x, f x = g x) →
  List.length (List.filter f l) = List.length (List.filter g l).
Proof. intros E. induction l as [|x l IH]; simpl; [done|]. rewrite E. destruct (g x); simpl; by rewrite IH. Qed.

Lemma vowel_group_loop_count w count prev :
  vowel_group_loop w count prev
  = count + Z.of_nat (List.length (List.filter (starts_group_from prev w)
                                     (seq 0 (String.length w)))).
Proof.
  revert count prev. induction w as [|c w IH]; intros count prev.
  - simpl. lia.
  - cbn [vowel_group_loop String.length]. rewrite IH.
    rewrite <- cons_seq, <- seq_shift. cbn [List.filter].
    assert (List.length (List.filter (starts_group_from prev (String c w))
                           (List.map S (seq 0 (String.length w))))
            = List.length (List.filter (starts_group_from (char_in c vowels) w)
                             (seq 0 (String.length w)))) as Hshift.
    { rewrite filter_map_length. apply filter_ext_length.
      intros i. unfold starts_group_from, vowel_at. by destruct i. }
    assert (starts_group_from prev (String c w) 0
            = char_in c vowels && negb prev) as -> by done.
    destruct (char_in c vowels && negb prev); cbn [List.length];
      rewrite Hshift; lia.
Qed.

Lemma vowel_group_loop_spec w : vowel_group_loop w 0 false = vowel_groups w.
Proof.
  rewrite vowel_group_loop_count. unfold vowel_groups.
  by rewrite Z.add_0_l.
Qed.

Lemma substring_1 i s :
  String.substring i 1 s
  = match String.get i s with Some c => String c EmptyString | None => EmptyString end.
Proof.
  revert i. induction s as [|c s IH]; intros [|i]; simpl; try done.
  all: try (by destruct s). all: apply IH.
Qed.

Lemma substring_2 i s :
  String.substring i 2 s
  = match String.get i s, String.get (S i) s with
    | Some a, Some b => String a (String b EmptyString)
    | Some a, None => String a EmptyString
    | None, _ => EmptyString
    end.
Proof.
  revert i. induction s as [|c s IH]; intros [|i]; simpl; try done.
  all: try (destruct s as [|d s]; simpl; [done|]; by destruct s).
  all: apply IH.
Qed.

Lemma get_none_ge i s : (String.length s <= i)%nat → String.get i s = None.
Proof.
  revert i. induction s as [|c s IH]; intros i H; simpl in *; [by destruct i|].
  destruct i; [lia|]. apply IH. lia.
Qed.

Lemma get_some_lt i s : (i < String.length s)%nat → is_Some (String.get i s).
Proof.
  revert i. induction s as [|c s IH]; intros i H; simpl in *; [lia|].
  destruct i; [by eexists|]. apply IH. lia.
Qed.

Lemma from_end_get w k :
  (1 <= k <= String.length w)%nat →
  from_end w k = String.get (String.length w - k) w.
Proof.
  intros [H1 H2]. unfold from_end.
  apply Nat.leb_le in H1, H2. by rewrite H1, H2.
Qed.

Lemma from_end_none w k : (String.length w < k)%nat → from_end w k = None.
Proof.
  intros H. unfold from_end. apply Nat.leb_gt in H. by rewrite H.
Qed.

Lemma string_eqb_char c d :
  String.eqb (String c EmptyString) (String d EmptyString) = Ascii.eqb c d.
Proof. cbn [String.eqb]. by destruct (Ascii.eqb c d). Qed.

Lemma string_eqb_char2 a b c d :
  String.eqb (String a (String b EmptyString)) (String c (String d EmptyString))
  = Ascii.eqb a c && Ascii.eqb b d.
Proof. cbn [String.eqb]. by destruct (Ascii.eqb a c), (Ascii.eqb b d). Qed.

Lemma endswith_e w : endswith w "e" = ends_in_e w.
Proof.
  unfold endswith, ends_in_e. change (String.length "e") with 1%nat.
  destruct (Nat.leb_spec 1 (String.length w)) as [H|H]; cbn [andb].
  - rewrite from_end_get by lia. rewrite substring_1.
    destruct (String.get (String.length w - 1) w) as [c|]; [|done].
    apply string_eqb_char.
  - by rewrite from_end_none by lia.
Qed.

Lemma endswith_le w :
  endswith w "le" && (2 <? String.length w)%nat
    && negb (match from_end w 3 with Some c => char_in c vowels | None => false end)
  = ends_in_consonant_le w.
Proof.
  unfold endswith, ends_in_consonant_le. change (String.length "le") with 2%nat.
  destruct (Nat.leb_spec 3 (String.length w)) as [H|H]; cbn [andb].
  - assert ((2 <=? String.length w)%nat = true) as -> by (apply Nat.leb_le; lia).
    assert ((2 <? String.length w)%nat = true) as -> by (apply Nat.ltb_lt; lia).
    cbn [andb]. rewrite !from_end_get by lia. rewrite substring_2.
    replace (S (String.length w - 2)) with (String.length w - 1)%nat by lia.
    destruct (get_some_lt (String.length w - 1) w) as [e ->]; [lia|].
    destruct (get_some_lt (String.length w - 2) w) as [l ->]; [lia|].
    destruct (get_some_lt (String.length w - 3) w) as [c ->]; [lia|].
    rewrite string_eqb_char2. unfold is_vowel.
    destruct (Ascii.eqb l "l"), (Ascii.eqb e "e"); done.
  - assert ((2 <? String.length w)%nat = false) as -> by (apply Nat.ltb_ge; lia).
    by rewrite andb_false_r.
Qed.

Lemma lowercase_not_empty w : lowercase_word w → is_empty w = false.
Proof. intros [_ H]. by destruct w. Qed.

Lemma count_syllables_lowercase w :
  lowercase_word w → _count_syllables w = syllables_spec w.
Proof.
  intros Hw. pose proof (lowercase_not_empty w Hw) as Hne. destruct Hw as [Hl _].
  unfold _count_syllables, syllables_spec.
  rewrite (lower_lowercase w Hl), (strip_non_letters_lowercase w Hl), Hne.
  destruct (mem w special_cases); [done|].
  rewrite vowel_group_loop_spec, endswith_le, endswith_e.
  destruct (ends_in_e w), (ends_in_consonant_le w); lia.
Qed.

End SyllableFacts.

Example round_examples :
  (PyNum.py_round (1 # 8) 2 == 12 # 100)%Q ∧ (PyNum.py_round (3 # 8) 2 == 38 # 100)%Q
  ∧ (PyNum.py_round (-(7 # 3)) 2 == -(233 # 100))%Q.
Proof. repeat split; reflexivity. Qed.
Example sorted_desc_stable :
  sorted_desc snd [("a", 1%Q); ("b", 2%Q); ("c", 1%Q); ("d", 2%Q)]
  = [("b", 2%Q); ("d", 2%Q); ("a", 1%Q); ("c", 1%Q)].
Proof. reflexivity. Qed.

(** ** C7: readability *)

Section ReadabilityFacts.
Import PyStr PyNum Analyzer AnalyzerSpec.

Lemma syllable_loop_acc words y c :
  fold_left
    (λ '(syllable_count, complex_words) word,
       let word := lower word in
       let syllables := Syllables._count_syllables word in
       let syllable_count := syllable_count + syllables in
       let complex_words :=
         if 3 <=? syllables then complex_words + 1 else complex_words in
       (syllable_count, complex_words))
    words (y, c)
  = (y + total_syllables words, c + complex_count words).
Proof.
  revert y c. induction words as [|w words IH]; intros y c.
  - unfold total_syllables, complex_count. simpl. f_equal; lia.
  - cbn [fold_left]. rewrite IH.
    unfold total_syllables, complex_count. cbn [List.map fold_right List.filter].
    fold (syllables_of w). destruct (3 <=? syllables_of w); cbn [List.length];
      f_equal; lia.
Qed.

Lemma syllable_loop_spec words :
  syllable_loop words = (total_syllables words, complex_count words).
Proof. unfold syllable_loop. by rewrite syllable_loop_acc. Qed.

Lemma py_div_pos a n : 0 < n → py_div a (inject_Z n) = Ok (a / inject_Z n)%Q.
Proof.
  intros H. unfold py_div.
  destruct (Qeq_bool (inject_Z n) 0) eqn:E; [|done].
  apply Qeq_bool_iff in E. unfold Qeq in E. simpl in E. lia.
Qed.

Lemma calculate_readability_spec env text :
  let sentences := sent_tokenize env text in
  let words := List.filter has_letter (word_tokenize env text) in
  calculate_readability env text
  = Ok (if is_nil words || is_nil sentences then zero_metrics
        else readability_metrics words sentences).
Proof.
  intros sentences words. unfold calculate_readability.
  fold sentences. fold words.
  destruct words as [|w ws] eqn:Ew; [done|].
  destruct sentences as [|s ss] eqn:Es; [done|].
  cbn [is_nil orb]. rewrite syllable_loop_spec.
  set (W := Z.of_nat (List.length (w :: ws))).
  set (S := Z.of_nat (List.length (s :: ss))).
  assert (0 < W) as HW by (unfold W; cbn [List.length]; lia).
  assert (0 < S) as HS by (unfold S; cbn [List.length]; lia).
  assert ((S =? 0) = false) as -> by lia.
  assert ((W =? 0) = false) as -> by lia.
  assert ((0 <? W) = true) as -> by lia.
  assert ((0 <? S) = true) as -> by lia.
  cbn [orb]. rewrite !py_div_pos by done. reflexivity.
Qed.

End ReadabilityFacts.

(** ** C5: sentiment aggregation *)

Section SentimentFacts.
Import PyStr PyNum Analyzer AnalyzerSpec.

Lemma fold_left_Qplus l a : (fold_left Qplus l a == a + fold_right Qplus 0 l)%Q.
Proof.
  revert a. induction l as [|x l IH]; intros a; simpl.
  - ring.
  - rewrite IH. ring.
Qed.

Lemma py_sum_spec l : (py_sum l == fold_right Qplus 0 l)%Q.
Proof. unfold py_sum. rewrite fold_left_Qplus. ring. Qed.

Lemma scores_of_confidence label results :
  (py_sum (scores_of label results) == confidence label results)%Q.
Proof. apply py_sum_spec. Qed.

Lemma count_of_acc label results acc :
  fold_left (λ acc r, if String.eqb (cl_label r) label then acc + 1 else acc)
    results acc
  = acc + votes label results.
Proof.
  revert acc. induction results as [|r results IH]; intros acc.
  - unfold votes. simpl. lia.
  - cbn [fold_left]. rewrite IH. unfold votes, voters. cbn [List.filter].
    destruct (String.eqb (cl_label r) label); cbn [List.length]; lia.
Qed.

Lemma count_of_votes label results : count_of label results = votes label results.
Proof. unfold count_of. by rewrite count_of_acc. Qed.

Lemma py_div_of_nat a n :
  (0 < n)%nat → py_div a (of_nat n) = Ok (a / of_nat n)%Q.
Proof. intros H. unfold of_nat. apply py_div_pos. lia. Qed.

Lemma aggregate_results_nil : aggregate_results [] = Ok neutral.
Proof. reflexivity. Qed.

Lemma aggregate_results_cons r results :
  ∃ d, aggregate_results (r :: results) = Ok d ∧ is_aggregate (r :: results) d.
Proof.
  set (rs := r :: results).
  assert (0 < List.length rs)%nat as Hn by (unfold rs; cbn [List.length]; lia).
  unfold aggregate_results. fold rs.
  change (match rs with [] => ?a | _ :: _ => ?b end) with b.
  rewrite !count_of_votes.
  pose proof (scores_of_confidence "POSITIVE" rs) as HP.
  pose proof (scores_of_confidence "NEGATIVE" rs) as HN.
  assert (Qle_bool (py_sum (scores_of "NEGATIVE" rs)) (py_sum (scores_of "POSITIVE" rs))
          = Qle_bool (confidence "NEGATIVE" rs) (confidence "POSITIVE" rs)) as HQ.
  { apply eq_true_iff_eq. rewrite !Qle_bool_iff.
    exact (Qle_comp _ _ HN _ _ HP). }
  unfold is_aggregate, winner. rewrite <- HQ.
  rewrite !py_div_of_nat by done.
  set (sp := py_sum (scores_of "POSITIVE" rs)) in *.
  set (sn := py_sum (scores_of "NEGATIVE" rs)) in *.
  set (cp := confidence "POSITIVE" rs) in *.
  set (cn := confidence "NEGATIVE" rs) in *.
  set (n := of_nat (List.length rs)).
  set (vp := votes "POSITIVE" rs). set (vn := votes "NEGATIVE" rs).
  destruct (vn <? vp); [|destruct (vp <? vn); [|destruct (Qle_bool sn sp)]];
    (eexists; split; [reflexivity|]).
  - exists (sp / n)%Q, (inject_Z vp / n)%Q, (inject_Z vn / n)%Q.
    repeat split; try reflexivity. apply Qdiv_comp; [exact HP|reflexivity].
  - exists (sn / n)%Q, (inject_Z vp / n)%Q, (inject_Z vn / n)%Q.
    repeat split; try reflexivity. apply Qdiv_comp; [exact HN|reflexivity].
  - exists (sp / n)%Q, (inject_Z vp / n)%Q, (inject_Z vn / n)%Q.
    repeat split; try reflexivity. apply Qdiv_comp; [exact HP|reflexivity].
  - exists (sn / n)%Q, (inject_Z vp / n)%Q, (inject_Z vn / n)%Q.
    repeat split; try reflexivity. apply Qdiv_comp; [exact HN|reflexivity].
Qed.



End SentimentFacts.

(** ** C3, C10: [analyze] *)

Section AnalyzeFacts.
Import PyStr PyNum Analyzer AnalyzerSpec.




Lemma summarize_returns env text max_length min_length :
  returns (summarize env text max_length min_length).
Proof.
  unfold summarize, returns.
  destruct (_ <? min_length); [by eexists|].
  destruct (summarization_pipeline env) as [f|e]; [|by eexists].
  match goal with |- ∃ a, try_except ?c _ = _ => destruct c end; by eexists.
Qed.

Lemma extract_topics_returns env text n : returns (extract_topics env text n).
Proof.
  unfold extract_topics, returns.
  match goal with |- ∃ a, try_except ?c _ = _ => destruct c end; by eexists.
Qed.

Lemma analyze_sentiment_returns env text : returns (analyze_sentiment env text).
Proof.
  unfold analyze_sentiment, returns.
  match goal with |- ∃ a, try_except ?c _ = _ => destruct c end; by eexists.
Qed.

Lemma calculate_readability_returns env text :
  returns (calculate_readability env text).
Proof. unfold returns. rewrite calculate_readability_spec. by eexists. Qed.

(** One optional section of [analyze]. *)
Lemma section_step {A} (b : bool) (key : string) (c : result A) (f : A → pyval)
    (results r : gmap string pyval) :
  (if b then v ← c; Ok (<[ key := f v ]> results) else Ok results) = Ok r →
  dom r = dom results ∪ (if b then {[ key ]} else ∅)
  ∧ ∀ k, k ≠ key → r !! k = results !! k.
Proof.
  destruct b.
  - destruct c as [v|e]; cbn; [|done]. intros [= Hr]; subst r. split.
    + rewrite dom_insert_L. set_solver.
    + intros k Hk. by rewrite lookup_insert_ne.
  - intros [= Hr]; subst r. split; [set_solver|done].
Qed.

Lemma section_returns {A} (b : bool) (key : string) (c : result A) (f : A → pyval)
    (results : gmap string pyval) :
  (b = true → returns c) →
  returns (if b then v ← c; Ok (<[ key := f v ]> results) else Ok results).
Proof.
  destruct b; [|by eexists]. intros H. destruct (H eq_refl) as [v ->]. by eexists.
Qed.

(** [options.get(key, default)] after the [if options is None] block is the
    option of the specification. *)
Lemma option_get_enabled options key dflt :
  In key six_keys →
  dflt = option_default key →
  option_get (match options with None => default_options | Some o => o end)
    key dflt
  = enabled options key.
Proof.
  intros Hk ->. destruct options as [o|].
  - unfold option_get, enabled. by destruct (o !! key).
  - unfold six_keys in Hk. cbn [In] in Hk.
    destruct Hk as [<-|[<-|[<-|[<-|[<-|[<-|[]]]]]]]; vm_compute; reflexivity.
Qed.

Lemma analyze_blank env text options :
  is_blank text = true →
  analyze env text options
  = Ok {[ "error" := PStr "Empty text provided for analysis" ]}.
Proof. intros H. unfold analyze. by rewrite H. Qed.

Lemma analyze_sections env text options r :
  is_blank text = false →
  analyze env text options = Ok r →
  dom r = base_keys ∪ section_keys options
  ∧ r !! "text_length" = Some (PInt (Z.of_nat (String.length text)))
  ∧ r !! "word_count" = Some (PInt (Z.of_nat (List.length (word_tokenize env text))))
  ∧ r !! "sentence_count"
    = Some (PInt (Z.of_nat (List.length (sent_tokenize env text)))).
Proof.
  intros Hb. unfold analyze. rewrite Hb.
  rewrite !(option_get_enabled options) by (done || (unfold six_keys; cbn [In]; tauto)).
  set (r0 := <[ "sentence_count" := _ ]> _).
  intros H.
  destruct (if enabled options "keywords" then _ else _) as [r1|] eqn:E1 in H;
    [|done]. cbn [mbind result_bind] in H.
  destruct (if enabled options "entities" then _ else _) as [r2|] eqn:E2 in H;
    [|done]. cbn [mbind result_bind] in H.
  destruct (if enabled options "summary" then _ else _) as [r3|] eqn:E3 in H;
    [|done]. cbn [mbind result_bind] in H.
  destruct (if enabled options "topics" then _ else _) as [r4|] eqn:E4 in H;
    [|done]. cbn [mbind result_bind] in H.
  destruct (if enabled options "sentiment" then _ else _) as [r5|] eqn:E5 in H;
    [|done]. cbn [mbind result_bind] in H.
  destruct (if enabled options "readability" then _ else _) as [r6|] eqn:E6 in H;
    [|done]. cbn [mbind result_bind] in H.
  injection H as <-.
  apply section_step in E1 as [D1 L1], E2 as [D2 L2], E3 as [D3 L3],
    E4 as [D4 L4], E5 as [D5 L5], E6 as [D6 L6].
  assert (dom r0 = base_keys) as D0.
  { unfold r0, base_keys. rewrite !dom_insert_L, dom_singleton_L. set_solver. }
  split.
  - rewrite D6, D5, D4, D3, D2, D1, D0. unfold section_keys, section_key.
    by rewrite !(assoc_L (∪)).
  - rewrite !L6, !L5, !L4, !L3, !L2, !L1 by done. unfold r0.
    repeat split; by simplify_map_eq.
Qed.

Lemma elem_of_section_key options key k :
  key ∈ section_key options k ↔ key = k ∧ enabled options k = true.
Proof.
  unfold section_key. destruct (enabled options k).
  - rewrite elem_of_singleton. tauto.
  - rewrite elem_of_empty. split; [done|]. by intros [_ ?].
Qed.


Lemma analyze_returns env text options :
  is_blank text = false →
  (enabled options "keywords" = true → returns (extract_keywords env text 10)) →
  (enabled options "entities" = true → returns (extract_entities env text)) →
  returns (analyze env text options).
Proof.
  intros Hb Hk He. unfold analyze. rewrite Hb.
  rewrite !(option_get_enabled options) by (done || (unfold six_keys; cbn [In]; tauto)).
  set (r0 := <[ "sentence_count" := _ ]> _).
  destruct (section_returns (enabled options "keywords") "keywords"
              (extract_keywords env text 10) keywords_val r0 Hk) as [r1 ->].
  cbn [mbind result_bind].
  destruct (section_returns (enabled options "entities") "entities"
              (extract_entities env text) entities_val r1 He) as [r2 ->].
  cbn [mbind result_bind].
  destruct (section_returns (enabled options "summary") "summary"
              (summarize env text 150 40) PStr r2
              (λ _, summarize_returns env text 150 40)) as [r3 ->].
  cbn [mbind result_bind].
  destruct (section_returns (enabled options "topics") "topics"
              (extract_topics env text 3) topics_val r3
              (λ _, extract_topics_returns env text 3)) as [r4 ->].
  cbn [mbind result_bind].
  destruct (section_returns (enabled options "sentiment") "sentiment"
              (analyze_sentiment env text) PDict r4
              (λ _, analyze_sentiment_returns env text)) as [r5 ->].
  cbn [mbind result_bind].
  destruct (section_returns (enabled options "readability") "readability"
              (calculate_readability env text) PDict r5
              (λ _, calculate_readability_returns env text)) as [r6 ->].
  cbn [mbind result_bind]. by eexists.
Qed.


Lemma analyze_entities_raise env text options e :
  is_blank text = false →
  enabled options "keywords" = false →
  enabled options "entities" = true →
  extract_entities env text = Raise e →
  analyze env text options = Raise e.
Proof.
  intros Hb Hk Hn He. unfold analyze. rewrite Hb.
  rewrite !(option_get_enabled options) by (done || (unfold six_keys; cbn [In]; tauto)).
  by rewrite Hk, Hn, He.
Qed.





Lemma section_keys_all_disabled : section_keys (Some all_disabled) = ∅.
Proof.
  unfold section_keys, section_key, enabled, all_disabled.
  repeat (rewrite lookup_insert_eq || rewrite lookup_insert_ne by done
          || rewrite lookup_singleton_eq).
  set_solver.
Qed.

End AnalyzeFacts.

(** ** Paths *)

Example splitext_examples :
  Extractor.splitext_ext "/data/raw/report.final.pdf" = ".pdf"
  ∧ Extractor.splitext_ext "/data/.bashrc" = ""
  ∧ Extractor.splitext_ext "/data.d/notes" = ""
  ∧ Extractor.splitext_ext "a.docx" = ".docx"
  ∧ Extractor.splitext_ext "..txt" = ""
  ∧ Extractor.basename "/data/raw/report.pdf" = "report.pdf".
Proof. repeat split; reflexivity. Qed.

(** ** C9: math expressions *)

Example math_dollar :
  Symbols.extract_math_expressions "see $x^2$ here"
  = [ {| Symbols.content := "$x^2$"; Symbols.start := 4; Symbols.end_ := 9 |} ].
Proof. reflexivity. Qed.
Example math_lazy :
  Symbols.finditer Symbols.dollar_pattern "$a$ and $b$" = [(0, 3); (8, 11)]%nat.
Proof. reflexivity. Qed.
Example math_overlap :
  Symbols.extract_math_expressions "$\(a\)$"
  = [ {| Symbols.content := "$\(a\)$"; Symbols.start := 0; Symbols.end_ := 7 |};
      {| Symbols.content := "\(a\)"; Symbols.start := 1; Symbols.end_ := 6 |} ].
Proof. reflexivity. Qed.
Example math_unclosed : Symbols.extract_math_expressions "cost: $5 \[ x" = [].
Proof. reflexivity. Qed.

Section MathFacts.
Import Symbols.











End MathFacts.

(** ** C6: summaries *)

Section CounterFacts.
Import PyStr PyNum Analyzer AnalyzerSpec.

(** One step of a counter: [d[t] = d[t] + 1], or [1] for a new key. *)
Lemma tally_fold (ts : list string) (d : list (string * Z)) (w : string) :
  od_get
    (fold_left (λ fd token,
                  match od_get fd token with
                  | None => od_set fd token 1
                  | Some n => od_set fd token (n + 1)
                  end) ts d) w
  = let c := Z.of_nat (count_occ string_dec ts w) in
    match od_get d w with
    | Some n => Some (n + c)
    | None => if c =? 0 then None else Some c
    end.
Proof.
  revert d. induction ts as [|t ts IH]; intros d.
  - cbn. destruct (od_get d w); [f_equal; lia|done].
  - cbn [fold_left count_occ]. rewrite IH. cbn zeta.
    destruct (string_dec t w) as [->|Hne].
    + destruct (od_get d w) as [n|] eqn:Ew; rewrite od_get_set;
        (destruct (decide (w = w)); [|done]).
      * f_equal. lia.
      * destruct (Z.eqb_spec (Z.of_nat (S (count_occ string_dec ts w))) 0);
          [lia|f_equal; lia].
    + destruct (od_get d t) as [n|] eqn:Et; rewrite od_get_set;
        (destruct (decide (t = w)); [done|]); done.
Qed.

Lemma fold_left_flat_map {A B C} (f : A → C → A) (g : B → list C) (l : list B) a :
  fold_left (λ acc x, fold_left f (g x) acc) l a = fold_left f (flat_map g l) a.
Proof.
  revert a. induction l as [|x l IH]; intros a; [done|].
  cbn [fold_left flat_map]. by rewrite fold_left_app, IH.
Qed.


Lemma fold_left_filter {A C} (f : A → C → A) (p : C → bool) (l : list C) a :
  fold_left (λ acc x, if p x then f acc x else acc) l a
  = fold_left f (List.filter p l) a.
Proof.
  revert a. induction l as [|x l IH]; intros a; [done|].
  cbn [fold_left List.filter]. destruct (p x); cbn [fold_left]; by rewrite IH.
Qed.


Lemma count_words_get env sentences w :
  od_get (count_words env sentences) w
  = if occurrences env sentences w =? 0 then None
    else Some (occurrences env sentences w).
Proof.
  unfold count_words. rewrite (fold_left_flat_map (count_word env)).
  unfold count_word.
  rewrite (fold_left_filter
             (λ wf word, match od_get wf word with
                         | None => od_set wf word 1
                         | Some n => od_set wf word (n + 1)
                         end) (content_word env)).
  by rewrite tally_fold.
Qed.

End CounterFacts.

Section SummaryFacts.
Import PyStr PyNum Analyzer AnalyzerSpec.
Context (env : Env).


Lemma fold_max_ge l x : x <= fold_left Z.max l x ∧ ∀ y, In y l → y <= fold_left Z.max l x.
Proof.
  revert x. induction l as [|z l IH]; intros x; cbn [fold_left In].
  - split; [lia|tauto].
  - destruct (IH (Z.max x z)) as [H1 H2]. split; [lia|].
    intros y [<-|Hy]; [lia|by apply H2].
Qed.

Lemma fold_max_in l x : fold_left Z.max l x = x ∨ In (fold_left Z.max l x) l.
Proof.
  revert x. induction l as [|z l IH]; intros x; cbn [fold_left In]; [by left|].
  destruct (IH (Z.max x z)) as [H|H]; [|tauto].
  rewrite H. destruct (Z.max_spec x z) as [[_ ->]|[_ ->]]; tauto.
Qed.

Lemma py_max_ge l y : In y l → y <= py_max l.
Proof.
  destruct l as [|x l]; [done|]. cbn [py_max In].
  destruct (fold_max_ge l x) as [H1 H2]. intros [<-|Hy]; [done|by apply H2].
Qed.

Lemma py_max_in l : l ≠ [] → In (py_max l) l.
Proof.
  destruct l as [|x l]; [done|]. intros _. cbn [py_max In].
  destruct (fold_max_in l x) as [->|H]; tauto.
Qed.

Lemma max_occurrences_ge sentences w :
  In w (document_words env sentences) →
  occurrences env sentences w <= max_occurrences env sentences.
Proof.
  unfold max_occurrences. generalize (occurrences env sentences).
  induction (document_words env sentences) as [|x l IH]; intros f; [done|].
  cbn [List.map fold_right In]. intros [<-|Hin]; [lia|].
  specialize (IH f Hin). lia.
Qed.

Lemma max_occurrences_in sentences :
  max_occurrences env sentences = 0
  ∨ ∃ w, In w (document_words env sentences)
         ∧ max_occurrences env sentences = occurrences env sentences w.
Proof.
  unfold max_occurrences. generalize (occurrences env sentences).
  induction (document_words env sentences) as [|x l IH]; intros f; [by left|].
  cbn [List.map fold_right In].
  destruct (Z.max_spec (f x) (fold_right Z.max 0 (List.map f l))) as [[_ ->]|[_ ->]].
  - destruct (IH f) as [H0|(w & Hw & Hm)]; [by left|].
    right. exists w. tauto.
  - right. exists x. tauto.
Qed.

Lemma occurrences_pos sentences w :
  0 < occurrences env sentences w ↔ In w (document_words env sentences).
Proof.
  unfold occurrences. rewrite (count_occ_In string_dec). lia.
Qed.

Lemma count_words_nodup sentences : List.NoDup (od_keys (count_words env sentences)).
Proof.
  unfold count_words. rewrite (fold_left_flat_map (count_word env)).
  generalize (flat_map (λ sentence, word_tokenize env (lower sentence)) sentences).
  intros ts. assert (List.NoDup (od_keys ([] : list (string * Z)))) as H by constructor.
  revert H. generalize ([] : list (string * Z)).
  induction ts as [|t ts IH]; intros d Hd; [done|].
  cbn [fold_left]. apply IH. unfold count_word.
  destruct (_ && _); [|done]. destruct (od_get d t); by apply od_set_nodup.
Qed.

(** The divisor of the normalization is the maximum count, and it is
    positive. *)
Lemma max_frequency_spec sentences :
  count_words env sentences ≠ [] →
  py_max (od_values (count_words env sentences)) = max_occurrences env sentences
  ∧ 0 < max_occurrences env sentences.
Proof.
  intros Hne. set (wf := count_words env sentences) in *.
  assert (∀ w v, In (w, v) wf →
            v = occurrences env sentences w ∧ In w (document_words env sentences))
    as Hval.
  { intros w v Hin. apply od_get_in_nodup in Hin; [|apply count_words_nodup].
    unfold wf in Hin. rewrite count_words_get in Hin.
    destruct (Z.eqb_spec (occurrences env sentences w) 0) as [|Hnz]; [done|].
    injection Hin as <-. split; [done|]. apply occurrences_pos.
    unfold occurrences in *. lia. }
  assert (∀ w, In w (document_words env sentences) →
            In (occurrences env sentences w) (od_values wf)) as Hdoc.
  { intros w Hw. apply occurrences_pos in Hw.
    pose proof (count_words_get env sentences w) as Hg.
    destruct (Z.eqb_spec (occurrences env sentences w) 0) as [|Hnz]; [lia|].
    apply od_get_Some_in in Hg. apply in_map_iff. by exists (w, occurrences env sentences w). }
  assert (od_values wf ≠ []) as Hv by (by destruct wf).
  pose proof (py_max_in _ Hv) as Hin.
  apply in_map_iff in Hin as ([w v] & Hv' & Hin). cbn [snd] in Hv'.
  destruct (Hval _ _ Hin) as [-> Hw].
  pose proof (max_occurrences_ge sentences w Hw) as Hle.
  pose proof (proj2 (occurrences_pos sentences w) Hw) as Hpos.
  split; [|lia].
  destruct (max_occurrences_in sentences) as [H0|(w' & Hw' & Hm)]; [lia|].
  pose proof (py_max_ge _ _ (Hdoc w' Hw')). lia.
Qed.

Lemma max_frequency_pos sentences :
  0 < match count_words env sentences with
      | [] => 1
      | _ => py_max (od_values (count_words env sentences))
      end.
Proof.
  destruct (count_words env sentences) as [|p wf] eqn:E; [lia|].
  rewrite <- E. destruct (max_frequency_spec sentences) as [-> H]; [by rewrite E|done].
Qed.
















End SummaryFacts.

(** ** C4: keywords *)

Section KeywordFacts.
Import PyStr PyNum Analyzer AnalyzerSpec.
Context (env : Env).

Lemma mem_In w l : mem w l = true ↔ In w l.
Proof.
  unfold mem. rewrite existsb_exists. split.
  - intros (x & Hx & He). apply String.eqb_eq in He. by subst.
  - intros H. exists w. split; [done|]. apply String.eqb_refl.
Qed.
















End KeywordFacts.

(** ** Sample texts *)

Example demo_sentences :
  Demo.sent_tokenize Demo.pets_text
  = ["Cats purr.";
     "It is what it is and that is all that there is to it for you and me now.";
     "He was not the same as she was and they were not here with them then or now.";
     "Dogs bark."].
Proof. reflexivity. Qed.
Example demo_words : Demo.word_tokenize "Cats purr, dogs bark." = ["Cats"; "purr"; ","; "dogs"; "bark"; "."].
Proof. reflexivity. Qed.
Example demo_word_count : List.length (PyStr.split Demo.pets_text) = 41%nat.
Proof. reflexivity. Qed.
Example demo_keywords :
  Analyzer.extract_keywords Demo.analyzer_env Demo.cats_text 10
  = Ok [ {| Analyzer.keyword := "cat"; Analyzer.score := 8 # 4 |};
         {| Analyzer.keyword := "chase"; Analyzer.score := 1 # 2 |} ].
Proof. vm_compute. reflexivity. Qed.

(** ** C1, C2: the extraction boundary *)

Section ExtractorFacts.
Import PyStr Extractor ExtractorSpec.
Context (env : Env).

Lemma append_not_empty (a b : string) : a ≠ EmptyString → a +:+ b ≠ EmptyString.
Proof. by destruct a. Qed.

Lemma error_result msg e :
  text_or_error {[ "error" := PStr (msg +:+ e) ]} ∨ msg = EmptyString.
Proof.
  destruct msg as [|c msg]; [by right|]. left. right. split; [done|].
  exists (String c msg +:+ e). split; [|done]. by rewrite lookup_singleton_eq.
Qed.

Ltac error_case :=
  match goal with
  | |- text_or_error {[ "error" := PStr (?msg +:+ ?e) ]} =>
      destruct (error_result msg e) as [?|?]; [assumption|discriminate]
  end.

Ltac text_case :=
  left; split; [eexists; by simplify_map_eq | by simplify_map_eq].

Lemma pypdf2_shape file_path r :
  _extract_from_pdf_with_pypdf2 env file_path = Ok r → text_or_error r.
Proof.
  unfold _extract_from_pdf_with_pypdf2.
  destruct (PdfReader env file_path) as [reader|]; [|done]. cbn [mbind result_bind].
  destruct (pdf_metadata reader) as [metadata|]; [|done]. cbn [mbind result_bind].
  destruct (pdf_pages reader) as [pages|]; [|done]. cbn [mbind result_bind].
  destruct (read_pages pages [] "") as [[ps full_text]|]; [|done].
  cbn [mbind result_bind]. intros [= <-]. text_case.
Qed.

Lemma pdfminer_shape file_path r :
  _extract_from_pdf_with_pdfminer env file_path = Ok r → text_or_error r.
Proof.
  unfold _extract_from_pdf_with_pdfminer.
  destruct (pdfminer_extract_text env file_path) as [full_text|]; [|done].
  cbn [mbind result_bind]. intros [= <-]. text_case.
Qed.

Lemma pdf_shape file_path r : _extract_from_pdf env file_path = Ok r → text_or_error r.
Proof.
  unfold _extract_from_pdf, try_except.
  destruct (_extract_from_pdf_with_pypdf2 env file_path) as [r'|] eqn:E.
  - intros [= <-]. by apply pypdf2_shape in E.
  - apply pdfminer_shape.
Qed.

Lemma docx_shape file_path r : _extract_from_docx env file_path = Ok r → text_or_error r.
Proof.
  unfold _extract_from_docx.
  destruct (docx_Document env file_path) as [doc|]; [|done]. cbn [mbind result_bind].
  destruct (fold_left _ (docx_paragraphs doc) _) as [paragraphs full_text].
  intros [= <-]. text_case.
Qed.

Lemma doc_shape file_path r : _extract_from_doc env file_path = Ok r → text_or_error r.
Proof.
  unfold _extract_from_doc, try_except.
  destruct (textract_process env file_path) as [text|]; cbn [mbind result_bind];
    intros [= <-]; [text_case|error_case].
Qed.

Lemma txt_shape file_path r : _extract_from_txt env file_path = Ok r → text_or_error r.
Proof.
  unfold _extract_from_txt, try_except_cls, try_except.
  destruct (read_utf8 env file_path) as [text|e]; cbn [mbind result_bind].
  - destruct (getsize env file_path) as [size|e]; cbn [mbind result_bind].
    + intros [= <-]. text_case.
    + destruct (decide _); [|done].
      destruct (read_latin1 env file_path) as [text'|e']; cbn [mbind result_bind];
        intros [= <-]; error_case.
  - destruct (decide _); [|done].
    destruct (read_latin1 env file_path) as [text'|e']; cbn [mbind result_bind].
    + destruct (getsize env file_path) as [size|e'']; cbn [mbind result_bind];
        intros [= <-]; [text_case|error_case].
    + intros [= <-]. error_case.
Qed.

Lemma textract_shape file_path r :
  _extract_with_textract env file_path = Ok r → text_or_error r.
Proof.
  unfold _extract_with_textract, try_except.
  destruct (textract_process env file_path) as [text|]; cbn [mbind result_bind].
  - destruct (getsize env file_path) as [size|]; cbn [mbind result_bind];
      intros [= <-]; [text_case|error_case].
  - intros [= <-]. error_case.
Qed.

Lemma textract_returns file_path : returns (_extract_with_textract env file_path).
Proof.
  unfold _extract_with_textract, try_except, returns.
  destruct (textract_process env file_path) as [text|]; cbn [mbind result_bind];
    [destruct (getsize env file_path); cbn [mbind result_bind]|]; by eexists.
Qed.

Lemma handler_shape ext handler file_path r :
  supported_extensions env ext = Some handler →
  handler file_path = Ok r → text_or_error r.
Proof.
  unfold supported_extensions.
  destruct (String.eqb ext ".pdf"); [intros [= <-]; apply pdf_shape|].
  destruct (String.eqb ext ".docx"); [intros [= <-]; apply docx_shape|].
  destruct (String.eqb ext ".doc"); [intros [= <-]; apply doc_shape|].
  destruct (String.eqb ext ".txt"); [intros [= <-]; apply txt_shape|done].
Qed.

Lemma extract_returns file_path : returns (extract env file_path).
Proof.
  unfold extract, returns.
  destruct (path_exists env file_path); cbn [negb]; [|by eexists].
  destruct (supported_extensions env _) as [handler|]; [|apply textract_returns].
  unfold try_except. destruct (handler file_path); by eexists.
Qed.

Lemma extract_shape file_path r : extract env file_path = Ok r → text_or_error r.
Proof.
  unfold extract.
  destruct (path_exists env file_path); cbn [negb].
  - destruct (supported_extensions env _) as [handler|] eqn:Eh; [|apply textract_shape].
    unfold try_except. destruct (handler file_path) as [r'|e] eqn:E.
    + intros [= <-]. by eapply handler_shape.
    + intros [= <-]. error_case.
  - intros [= <-]. error_case.
Qed.

Lemma extract_with_images_stage file_path r :
  extract env file_path = Ok r →
  extract_with_images env file_path
  = match image_stage env file_path with
    | Ok images => Ok (<[ "images" := PList images ]> r)
    | Raise e => Raise e
    end.
Proof.
  intros E. unfold extract_with_images, image_stage. rewrite E.
  cbn [mbind result_bind]. by destruct (if String.eqb _ ".pdf" then _ else _).
Qed.

Lemma image_stage_other file_path :
  splitext_ext (lower file_path) ≠ ".pdf" →
  splitext_ext (lower file_path) ≠ ".docx" →
  image_stage env file_path = Ok [].
Proof.
  intros H1 H2. unfold image_stage.
  apply String.eqb_neq in H1, H2. by rewrite H1, H2.
Qed.

End ExtractorFacts.

(* ===================================================================== *)
(** * The claims of the specification *)
(* ===================================================================== *)

(** ** C8 *)

(** C8.  For every lowercase, letters-only word the syllable estimator is 1
    on the closed set the, me, she, he, be, we; otherwise it is the number of
    vowel groups over a, e, i, o, u, y, minus 1 if the word ends in "e", plus
    1 if the word has three or more characters and ends in "le" after a
    non-vowel, and at least 1. *)
Theorem count_syllables_spec (w : string) :
  Syllables.lowercase_word w →
  (In w Syllables.special_cases → Syllables._count_syllables w = 1)
  ∧ (¬ In w Syllables.special_cases →
       Syllables._count_syllables w
       = Z.max 1 (Syllables.vowel_groups w
                  - (if Syllables.ends_in_e w then 1 else 0)
                  + (if Syllables.ends_in_consonant_le w then 1 else 0)))
  ∧ 1 <= Syllables._count_syllables w.
Proof.
  intros Hw. rewrite (count_syllables_lowercase w Hw). unfold Syllables.syllables_spec.
  destruct (PyStr.mem w Syllables.special_cases) eqn:E.
  - apply mem_In in E. split; [done|]. split; [|lia].
    intros Hn. by destruct Hn.
  - assert (¬ In w Syllables.special_cases) as Hn.
    { intros Hin. apply mem_In in Hin. congruence. }
    split; [intros Hin; by destruct Hn|]. split; [done|lia].
Qed.

Lemma count_syllables_spec_witness :
  Syllables._count_syllables "table"
  = Z.max 1 (Syllables.vowel_groups "table"
             - (if Syllables.ends_in_e "table" then 1 else 0)
             + (if Syllables.ends_in_consonant_le "table" then 1 else 0)).
Proof.
  refine (proj1 (proj2 (count_syllables_spec "table" _)) _).
  - split; [reflexivity|discriminate].
  - vm_compute. intuition discriminate.
Defined.

(** The estimator on the empty word, which the loop over [words] of
    [calculate_readability] never passes: 0. *)
Example count_syllables_empty : Syllables._count_syllables "" = 0.
Proof. reflexivity. Qed.

(** ** C7 *)



Example readability_empty :
  Analyzer.calculate_readability Demo.analyzer_env "" = Ok AnalyzerSpec.zero_metrics.
Proof. reflexivity. Qed.


(** ** C5 *)




(** Two chunks against one: the score of the majority is its summed
    confidence over all three chunks. *)
Example sentiment_majority :
  Analyzer.aggregate_results
    [ {| Analyzer.cl_label := "POSITIVE"; Analyzer.cl_score := 9 # 10 |};
      {| Analyzer.cl_label := "NEGATIVE"; Analyzer.cl_score := 8 # 10 |};
      {| Analyzer.cl_label := "POSITIVE"; Analyzer.cl_score := 6 # 10 |} ]
  = Ok [("label", PStr "POSITIVE"); ("score", PFloat (150 # 300));
        ("positive_ratio", PFloat (2 # 3)); ("negative_ratio", PFloat (1 # 3))].
Proof. vm_compute. reflexivity. Qed.

(** A tie of votes goes to the higher summed confidence. *)
Example sentiment_tie :
  Analyzer.aggregate_results
    [ {| Analyzer.cl_label := "POSITIVE"; Analyzer.cl_score := 6 # 10 |};
      {| Analyzer.cl_label := "NEGATIVE"; Analyzer.cl_score := 8 # 10 |} ]
  = Ok [("label", PStr "NEGATIVE"); ("score", PFloat (8 # 20));
        ("positive_ratio", PFloat (1 # 2)); ("negative_ratio", PFloat (1 # 2))].
Proof. vm_compute. reflexivity. Qed.

Example sentiment_end_to_end :
  Analyzer.analyze_sentiment
    (Demo.with_sentiment
       [("Cats purr. Dogs bark.",
         {| Analyzer.cl_label := "POSITIVE"; Analyzer.cl_score := 3 # 4 |})])
    "Cats purr. Dogs bark."
  = Ok [("label", PStr "POSITIVE"); ("score", PFloat (3 # 4));
        ("positive_ratio", PFloat (1 # 1)); ("negative_ratio", PFloat (0 # 1))].
Proof. vm_compute. reflexivity. Qed.

(** ** C3 *)



Example analyze_all_disabled :
  ∃ r, Analyzer.analyze Demo.analyzer_env Demo.cats_text (Some AnalyzerSpec.all_disabled)
       = Ok r
       ∧ r !! "text_length" = Some (PInt 19)
       ∧ r !! "word_count" = Some (PInt 4)
       ∧ r !! "sentence_count" = Some (PInt 1)
       ∧ r !! "keywords" = None.
Proof.
  destruct (analyze_returns Demo.analyzer_env Demo.cats_text
              (Some AnalyzerSpec.all_disabled) eq_refl) as [r Hr]; [done|done|].
  exists r. split; [done|].
  destruct (analyze_sections Demo.analyzer_env Demo.cats_text
              (Some AnalyzerSpec.all_disabled) r eq_refl Hr) as (Hd & H1 & H2 & H3).
  repeat split; [exact H1|exact H2|exact H3|].
  apply not_elem_of_dom. rewrite Hd, section_keys_all_disabled.
  unfold AnalyzerSpec.base_keys. set_solver.
Qed.

Example analyze_whitespace :
  Analyzer.analyze Demo.analyzer_env "   " None
  = Ok {[ "error" := PStr "Empty text provided for analysis" ]}.
Proof. reflexivity. Qed.

(** ** C10 *)



(** ** C6 *)




(** The order of the selected sentences is that of the document, whatever
    their scores: here the last sentence has the highest score. *)
Example summarize_keeps_order :
  Analyzer._extractive_summarize Demo.analyzer_env
    "Cats purr. It is. Dogs bark. Dogs chase cats and dogs." 3
  = "Cats purr. Dogs bark. Dogs chase cats and dogs.".
Proof. vm_compute. reflexivity. Qed.

(** ** C4 *)




(** On a text of stop words the vocabulary is empty and the vectorizer
    raises. *)
Example extract_keywords_stop_words :
  Analyzer.extract_keywords Demo.analyzer_env "the" 10
  = Raise (mk_exn ValueError
             "empty vocabulary; perhaps the documents only contain stop words").
Proof. reflexivity. Qed.

(** ** C9 *)



(** The lazy repetition runs over line breaks. *)
Example math_multiline :
  Symbols.extract_math_expressions ("a \[x" +:+ PyStr.nl +:+ "y\] b")
  = [ {| Symbols.content := "\[x" +:+ PyStr.nl +:+ "y\]";
         Symbols.start := 2; Symbols.end_ := 9 |} ].
Proof. reflexivity. Qed.

(** ** C2 *)

(** C2, as the code has it.  [extract] returns, for every path and on every
    branch, a result that holds either the key text, with a string that may be
    empty, and no error, or the key error, with a description that is not
    empty, and no text. *)
Theorem extract_text_or_error (env : Extractor.Env) (file_path : string) :
  ∃ r, Extractor.extract env file_path = Ok r ∧ ExtractorSpec.text_or_error r.
Proof.
  destruct (extract_returns env file_path) as [r Hr]. exists r.
  split; [done|]. by apply (extract_shape env file_path).
Qed.

(** C2 as stated fails: the result for an empty text file has an empty text
    and no error. *)
Lemma extract_empty_text_file :
  ∃ r, Extractor.extract (Demo.one_text_file "empty.txt" "") "empty.txt" = Ok r
       ∧ r !! "text" = Some (PStr "")
       ∧ r !! "error" = None
       ∧ ¬ ExtractorSpec.populated r "text"
       ∧ ¬ ExtractorSpec.populated r "error".
Proof.
  eexists. split; [vm_compute; reflexivity|].
  assert (∀ m : gmap string pyval,
            m !! "text" = Some (PStr "") → m !! "error" = None →
            m !! "text" = Some (PStr "") ∧ m !! "error" = None
            ∧ ¬ ExtractorSpec.populated m "text"
            ∧ ¬ ExtractorSpec.populated m "error") as H.
  { intros m Ht He. repeat split; try done.
    - intros (s & Hs & Hne). congruence.
    - intros (s & Hs & Hne). congruence. }
  apply H; reflexivity.
Qed.

(** A PDF without a text layer: every page yields the empty string. *)
Example extract_scanned_pdf :
  Extractor._extract_from_pdf_with_pypdf2
    {| Extractor.path_exists := λ _, true;
       Extractor.getsize := λ _, Ok 1;
       Extractor.read_utf8 := Demo.absent;
       Extractor.read_latin1 := Demo.absent;
       Extractor.PdfReader :=
         λ _, Ok {| Extractor.pdf_metadata := Ok None;
                    Extractor.pdf_pages := Ok [Ok ""; Ok ""] |};
       Extractor.pdfminer_extract_text := Demo.absent;
       Extractor.docx_Document := Demo.absent;
       Extractor.textract_process := Demo.absent;
       Extractor.fitz_open := Demo.absent;
       Extractor.b64encode := λ b, b;
       Extractor.image_to_data := λ _, Demo.unavailable;
       Extractor.phash := λ _, Demo.unavailable |} "scan.pdf"
  = Ok {[ "text" := PStr ""; "metadata" := PDict []; "pages" := PList [];
          "page_count" := PInt 2 ]}.
Proof. reflexivity. Qed.

(** ** C1 *)




(* ===================================================================== *)
(** * Further properties of the code *)
(* ===================================================================== *)

(** ** The syllable estimator on any token *)

Section SyllableAnyFacts.
Import PyStr Syllables.









End SyllableAnyFacts.



(** ** Bounds of the readability metrics *)

Section RoundFacts.
Import PyNum.









End RoundFacts.

Section ReadabilityBounds.
Import PyStr PyNum Analyzer AnalyzerSpec.





Lemma Qle_mult_scale (a b : Q) (k : Z) :
  (a <= b)%Q → 0 < k → (a * inject_Z k <= b * inject_Z k)%Q.
Proof.
  intros H Hk. apply Qmult_le_compat_r; [done|].
  change 0%Q with (inject_Z 0). rewrite <- Zle_Qle. lia.
Qed.

End ReadabilityBounds.




(** ** Ranges of the sentiment aggregate *)

Section SentimentBounds.
Import PyStr PyNum Analyzer AnalyzerSpec.

Lemma classify_chunks_Forall (P : classification → Prop) f chunks acc res :
  (∀ chunk rs r, f chunk = Ok rs → In r rs → P r) →
  Forall P acc →
  classify_chunks f chunks acc = Ok res → Forall P res.
Proof.
  intros Hf. revert acc. induction chunks as [|c chunks IH]; intros acc Hacc Hres.
  - cbn in Hres. by injection Hres as <-.
  - cbn [classify_chunks] in Hres. destruct (is_empty c); [by eapply IH|].
    destruct (f c) as [rs|e] eqn:Efc; [|discriminate Hres].
    destruct rs as [|r rs]; [discriminate Hres|]. cbn in Hres.
    eapply IH; [|exact Hres]. apply Forall_app. split; [done|].
    constructor; [|constructor]. eapply Hf; [exact Efc|by left].
Qed.

Lemma votes_nonneg label results : 0 <= votes label results.
Proof. unfold votes. lia. Qed.

Lemma votes_sum results :
  votes "POSITIVE" results + votes "NEGATIVE" results
  <= Z.of_nat (List.length results).
Proof.
  unfold votes, voters. induction results as [|r rs IH]; [done|].
  cbn [List.filter List.length].
  destruct (String.eqb_spec (cl_label r) "POSITIVE") as [E|E].
  - rewrite E. cbn [String.eqb Ascii.eqb Bool.eqb]. cbn [List.length]. lia.
  - destruct (String.eqb (cl_label r) "NEGATIVE"); cbn [List.length]; lia.
Qed.

Lemma votes_sum_binary results :
  Forall Props.binary_label results →
  votes "POSITIVE" results + votes "NEGATIVE" results
  = Z.of_nat (List.length results).
Proof.
  unfold votes, voters. induction 1 as [|r rs Hr _ IH]; [done|].
  cbn [List.filter List.length].
  destruct Hr as [-> | ->]; cbn [String.eqb Ascii.eqb Bool.eqb]; cbn [List.length]; lia.
Qed.

Lemma confidence_bounds label results :
  Forall Props.unit_score results →
  (0 <= confidence label results <= inject_Z (votes label results))%Q.
Proof.
  unfold confidence, votes, voters. induction 1 as [|r rs Hr _ IH].
  - split; apply Qle_refl.
  - cbn [List.filter]. destruct (String.eqb (cl_label r) label); [|exact IH].
    cbn [List.map fold_right List.length]. rewrite Nat2Z.inj_succ, <- Z.add_1_r.
    rewrite inject_Z_plus. change (inject_Z 1) with 1%Q.
    unfold Props.unit_score in Hr. lra.
Qed.

Lemma winner_binary results : winner results = "POSITIVE" ∨ winner results = "NEGATIVE".
Proof.
  unfold winner.
  destruct (_ <? _); [by left|]. destruct (_ <? _); [by right|].
  destruct (Qle_bool _ _); [by left|by right].
Qed.

Lemma votes_le label results : votes label results <= Z.of_nat (List.length results).
Proof.
  unfold votes, voters.
  pose proof (List.filter_length_le (λ r, String.eqb (cl_label r) label) results). lia.
Qed.

Lemma Qdiv_le_1 (a : Q) (n : Z) :
  0 < n → (a <= inject_Z n)%Q → (a / inject_Z n <= 1)%Q.
Proof.
  intros Hn Ha. apply Qle_shift_div_r.
  - change 0%Q with (inject_Z 0). by rewrite <- Zlt_Qlt.
  - by rewrite Qmult_1_l.
Qed.

Lemma Qdiv_nonneg (a : Q) (n : Z) : 0 < n → (0 <= a)%Q → (0 <= a / inject_Z n)%Q.
Proof.
  intros Hn Ha. apply Qle_shift_div_l.
  - change 0%Q with (inject_Z 0). by rewrite <- Zlt_Qlt.
  - by rewrite Qmult_0_l.
Qed.

Lemma aggregate_ranges results d :
  results ≠ [] → is_aggregate results d →
  (∃ label, od_get d "label" = Some (PStr label)
            ∧ (label = "POSITIVE" ∨ label = "NEGATIVE" ∨ label = "NEUTRAL"))
  ∧ (∃ s, od_get d "score" = Some (PFloat s)
          ∧ (Forall Props.unit_score results → (0 <= s <= 1)%Q))
  ∧ (∀ p n, od_get d "positive_ratio" = Some (PFloat p) →
            od_get d "negative_ratio" = Some (PFloat n) →
            (0 <= p)%Q ∧ (0 <= n)%Q ∧ (p + n <= 1)%Q
            ∧ (Forall Props.binary_label results → (p + n == 1)%Q)).
Proof.
  intros Hne (score & pr & nr & -> & Hs & Hp & Hn).
  assert (0 < Z.of_nat (List.length results)) as Hlen
    by (destruct results; [done|cbn [List.length]; lia]).
  unfold of_nat in Hs, Hp, Hn.
  set (N := Z.of_nat (List.length results)) in *.
  refine (conj _ (conj _ _)).
  - exists (winner results). split; [reflexivity|].
    destruct (winner_binary results) as [->| ->]; tauto.
  - exists score. split; [reflexivity|]. intros Hu.
    pose proof (confidence_bounds (winner results) results Hu) as [H0 H1].
    pose proof (votes_le (winner results) results) as Hv. fold N in Hv.
    rewrite Hs. split; [by apply Qdiv_nonneg|]. apply Qdiv_le_1; [done|].
    eapply Qle_trans; [exact H1|]. by rewrite <- Zle_Qle.
  - intros p n [= <-] [= <-].
    pose proof (votes_nonneg "POSITIVE" results) as HP0.
    pose proof (votes_nonneg "NEGATIVE" results) as HN0.
    pose proof (votes_sum results) as Hsum. fold N in Hsum.
    assert (pr + nr == inject_Z (votes "POSITIVE" results + votes "NEGATIVE" results)
                       / inject_Z N)%Q as Hpn.
    { rewrite Hp, Hn, inject_Z_plus. unfold Qdiv. ring. }
    refine (conj _ (conj _ (conj _ _))).
    + rewrite Hp. apply Qdiv_nonneg; [done|].
      change 0%Q with (inject_Z 0). by rewrite <- Zle_Qle.
    + rewrite Hn. apply Qdiv_nonneg; [done|].
      change 0%Q with (inject_Z 0). by rewrite <- Zle_Qle.
    + rewrite Hpn. apply Qdiv_le_1; [done|]. by rewrite <- Zle_Qle.
    + intros Hb. rewrite Hpn, (votes_sum_binary results Hb). fold N.
      apply Qmult_inv_r. intros H. unfold Qeq in H. cbn in H. lia.
Qed.

End SentimentBounds.

(** X3.  [analyze_sentiment] always returns a dict whose label is POSITIVE,
    NEGATIVE or NEUTRAL and whose score is a float.  positive_ratio and
    negative_ratio, when present, are not negative and sum to at most 1, and to
    exactly 1 when the model only answers POSITIVE or NEGATIVE; the score lies
    between 0 and 1 when the confidences of the model do. *)
Theorem analyze_sentiment_ranges (env : Analyzer.Env) (text : string) :
  ∃ d, Analyzer.analyze_sentiment env text = Ok d
  ∧ (∃ label, od_get d "label" = Some (PStr label)
              ∧ (label = "POSITIVE" ∨ label = "NEGATIVE" ∨ label = "NEUTRAL"))
  ∧ (∃ s, od_get d "score" = Some (PFloat s)
          ∧ (Props.sentiment_model env Props.unit_score → (0 <= s <= 1)%Q))
  ∧ (∀ p n, od_get d "positive_ratio" = Some (PFloat p) →
            od_get d "negative_ratio" = Some (PFloat n) →
            (0 <= p)%Q ∧ (0 <= n)%Q ∧ (p + n <= 1)%Q
            ∧ (Props.sentiment_model env Props.binary_label → (p + n == 1)%Q)).
Proof.
  assert (∀ e : exn,
            let d := [("label", PStr "NEUTRAL"); ("score", PFloat (1 # 2));
                      ("error", PStr (str_exn e))] in
            (∃ label, od_get d "label" = Some (PStr label)
              ∧ (label = "POSITIVE" ∨ label = "NEGATIVE" ∨ label = "NEUTRAL"))
            ∧ (∃ s, od_get d "score" = Some (PFloat s)
                  ∧ (Props.sentiment_model env Props.unit_score → (0 <= s <= 1)%Q))
            ∧ (∀ p n, od_get d "positive_ratio" = Some (PFloat p) →
                  od_get d "negative_ratio" = Some (PFloat n) →
                  (0 <= p)%Q ∧ (0 <= n)%Q ∧ (p + n <= 1)%Q
                  ∧ (Props.sentiment_model env Props.binary_label → (p + n == 1)%Q)))
    as Herr.
  { intros e d. refine (conj _ (conj _ _)).
    - exists "NEUTRAL". split; [reflexivity|tauto].
    - exists (1 # 2)%Q. split; [reflexivity|]. intros _. split; by vm_compute.
    - intros p n H. vm_compute in H. discriminate H. }
  unfold Analyzer.analyze_sentiment.
  destruct (Analyzer.sentiment_pipeline env) as [f|e] eqn:Ef;
    [|eexists; split; [reflexivity|apply Herr]].
  cbn.
  destruct (Analyzer.classify_chunks f _ []) as [results|e] eqn:Ec;
    [|eexists; split; [reflexivity|apply Herr]].
  cbn.
  destruct results as [|r results].
  { eexists. split; [reflexivity|]. refine (conj _ (conj _ _)).
    - exists "NEUTRAL". split; [reflexivity|tauto].
    - exists (1 # 2)%Q. split; [reflexivity|]. intros _. split; by vm_compute.
    - intros p n H. vm_compute in H. discriminate H. }
  destruct (aggregate_results_cons r results) as (d & Hd & Hagg).
  rewrite Hd. exists d. split; [reflexivity|].
  destruct (aggregate_ranges (r :: results) d ltac:(done) Hagg) as (Hl & (s & Hs & Hu) & Hr).
  refine (conj Hl (conj _ _)).
  - exists s. split; [exact Hs|]. intros Hm. apply Hu.
    eapply classify_chunks_Forall; [|constructor|exact Ec].
    intros chunk rs c Hc Hin. by eapply Hm.
  - intros p n Hp Hn. destruct (Hr p n Hp Hn) as (H0 & H1 & H2 & Hb).
    refine (conj H0 (conj H1 (conj H2 _))). intros Hm. apply Hb.
    eapply classify_chunks_Forall; [|constructor|exact Ec].
    intros chunk rs c Hc Hin. by eapply Hm.
Qed.

Lemma analyze_sentiment_ranges_witness :
  ∃ d, Analyzer.analyze_sentiment
         (Demo.with_sentiment
            [("Cats purr.", {| Analyzer.cl_label := "POSITIVE";
                               Analyzer.cl_score := 9 # 10 |})])
         "Cats purr." = Ok d
       ∧ ∃ s, od_get d "score" = Some (PFloat s) ∧ (0 <= s <= 1)%Q.
Proof.
  destruct (analyze_sentiment_ranges
              (Demo.with_sentiment
                 [("Cats purr.", {| Analyzer.cl_label := "POSITIVE";
                                    Analyzer.cl_score := 9 # 10 |})])
              "Cats purr.") as (d & Hd & _ & (s & Hs & Hu) & _).
  exists d. split; [exact Hd|]. exists s. split; [exact Hs|]. apply Hu.
  intros f chunk rs r [= <-] Hf Hin. cbn [od_get] in Hf.
  destruct (decide _) in Hf; [|discriminate Hf]. injection Hf as <-.
  destruct Hin as [<-|[]]. split; by vm_compute.
Defined.

(** ** Entities Props.grouped by label *)

Section EntityFacts.
Import PyStr Analyzer.

Lemma mem_app w l1 l2 : mem w (l1 ++ l2)%list = mem w l1 || mem w l2.
Proof. unfold mem. apply existsb_app. Qed.

Lemma mem_false_In w l : mem w l = false ↔ ¬ In w l.
Proof. rewrite <- mem_In. by destruct (mem w l). Qed.

Lemma filter_ne_mem x a l :
  mem x (List.filter (λ y, negb (String.eqb y a)) l)
  = negb (String.eqb x a) && mem x l.
Proof.
  apply eq_true_iff_eq. rewrite andb_true_iff, !mem_In, List.filter_In. tauto.
Qed.

Lemma mem_uniq x l : mem x (Props.uniq l) = mem x l.
Proof.
  induction l as [|a l IH]; [done|]. cbn [Props.uniq mem existsb].
  fold (mem x l). fold (mem x (List.filter (λ y, negb (String.eqb y a)) (Props.uniq l))).
  rewrite filter_ne_mem, IH. by destruct (String.eqb x a), (mem x l).
Qed.

Lemma uniq_snoc l x :
  Props.uniq (l ++ [x])%list
  = if mem x l then Props.uniq l else (Props.uniq l ++ [x])%list.
Proof.
  induction l as [|a l IH]; [done|].
  cbn [app Props.uniq mem existsb]. fold (mem x l). rewrite IH.
  destruct (String.eqb_spec x a) as [->|Hxa]; cbn [orb].
  - destruct (mem a l); [done|]. rewrite List.filter_app. cbn [List.filter].
    rewrite String.eqb_refl. cbn [negb]. by rewrite app_nil_r.
  - destruct (mem x l); [done|]. rewrite List.filter_app. cbn [List.filter].
    destruct (String.eqb_spec x a); [done|]. done.
Qed.

Lemma texts_of_snoc label p t lab :
  Props.texts_of label (p ++ [(t, lab)])%list
  = if String.eqb lab label then (Props.texts_of label p ++ [t])%list
    else Props.texts_of label p.
Proof.
  unfold Props.texts_of. rewrite List.filter_app, List.map_app. cbn [List.filter snd].
  destruct (String.eqb lab label); cbn [List.map fst]; by rewrite ?app_nil_r.
Qed.

Lemma texts_of_absent label p :
  mem label (List.map snd p) = false → Props.texts_of label p = [].
Proof.
  unfold Props.texts_of. induction p as [|[t l] p IH]; [done|].
  cbn [List.map snd mem existsb List.filter]. fold (mem label (List.map snd p)).
  rewrite String.eqb_sym. destruct (String.eqb l label); [done|]. exact IH.
Qed.

Lemma add_entity_grouped p d t lab :
  Props.grouped p d → Props.grouped (p ++ [(t, lab)])%list (add_entity d (t, lab)).
Proof.
  intros [Hk Hg]. unfold Props.grouped, add_entity, od_mem.
  pose proof (Hg lab) as Hlab.
  assert (∀ label, mem label (List.map snd (p ++ [(t, lab)])%list)
                   = mem label (List.map snd p) || String.eqb label lab) as Hmem.
  { intros label. rewrite List.map_app, mem_app. cbn [List.map snd mem existsb].
    by rewrite orb_false_r. }
  destruct (mem lab (List.map snd p)) eqn:Em.
  - cbv zeta. rewrite Hlab. cbv iota. rewrite Hlab, mem_uniq.
    assert (In lab (od_keys d)) as Hin.
    { rewrite Hk. apply mem_In. by rewrite mem_uniq. }
    split.
    + rewrite List.map_app. cbn [List.map snd]. rewrite uniq_snoc, Em.
      destruct (mem t _); [done|]. by rewrite od_set_present.
    + intros label. rewrite Hmem, texts_of_snoc.
      destruct (String.eqb_spec lab label) as [<-|Hne].
      * rewrite Em. cbn [orb]. rewrite uniq_snoc.
        destruct (mem t (Props.texts_of lab p)); [exact Hlab|].
        rewrite od_get_set. by destruct (decide (lab = lab)).
      * assert (String.eqb label lab = false) as -> by (apply String.eqb_neq; congruence).
        rewrite orb_false_r. destruct (mem t _); [apply Hg|].
        rewrite od_get_set. destruct (decide (lab = label)); [done|]. apply Hg.
  - cbv zeta. rewrite Hlab. cbv iota. rewrite od_get_set. destruct (decide (lab = lab)); [|done].
    cbn [mem existsb app].
    assert (¬ In lab (od_keys d)) as Hni by (by apply od_get_None).
    rewrite (od_set_absent d lab []) by done.
    assert (od_set (d ++ [(lab, [])])%list lab [t] = (d ++ [(lab, [t])])%list) as ->.
    { clear -Hni. induction d as [|[k v] d IH]; cbn [app od_set].
      - by destruct (decide (lab = lab)).
      - cbn [od_keys List.map fst In] in Hni.
        destruct (decide (k = lab)); [tauto|]. f_equal. apply IH.
        unfold od_keys. tauto. }
    split.
    + unfold od_keys. rewrite !List.map_app. cbn [List.map snd fst].
      rewrite uniq_snoc, Em. f_equal. exact Hk.
    + intros label. rewrite Hmem, texts_of_snoc.
      rewrite <- (od_set_absent d lab [t]) by done. rewrite od_get_set.
      destruct (String.eqb_spec lab label) as [<-|Hne].
      * destruct (decide (lab = lab)); [|done]. rewrite Em. cbn [orb].
        rewrite String.eqb_refl. by rewrite texts_of_absent.
      * destruct (decide (lab = label)); [done|].
        assert (String.eqb label lab = false) as -> by (apply String.eqb_neq; congruence).
        rewrite orb_false_r. apply Hg.
Qed.

Lemma fold_add_entity_grouped ents p d :
  Props.grouped p d → Props.grouped (p ++ ents)%list (fold_left add_entity ents d).
Proof.
  revert p d. induction ents as [|[t lab] ents IH]; intros p d H.
  - by rewrite app_nil_r.
  - cbn [fold_left]. replace (p ++ (t, lab) :: ents)%list with ((p ++ [(t, lab)]) ++ ents)%list
      by (by rewrite <- app_assoc).
    apply IH. by apply add_entity_grouped.
Qed.

End EntityFacts.

(** X4.  [extract_entities] groups the entity texts by label: the labels are
    the keys, in the order of their first entity; under each label stand the
    texts of its entities in the order of their first occurrence, each text
    once; a label without an entity is no key.  An error of the spaCy model is
    not caught. *)
Theorem extract_entities_grouped (env : Analyzer.Env) (text : string) :
  match Analyzer.spacy_ents env text with
  | Ok ents =>
      ∃ d, Analyzer.extract_entities env text = Ok d
           ∧ od_keys d = Props.uniq (List.map snd ents)
           ∧ ∀ label,
               od_get d label
               = if PyStr.mem label (List.map snd ents)
                 then Some (Props.uniq (Props.texts_of label ents)) else None
  | Raise e => Analyzer.extract_entities env text = Raise e
  end.
Proof.
  unfold Analyzer.extract_entities.
  destruct (Analyzer.spacy_ents env text) as [ents|e]; [|done].
  eexists. split; [reflexivity|].
  by apply (fold_add_entity_grouped ents [] []).
Qed.

(** ** Whitespace splitting *)

Section SplitFacts.
Import PyStr.











End SplitFacts.

(** ** Chunks of the sentiment analysis *)

Section ChunkFacts.
Import PyStr Analyzer Props.







End ChunkFacts.



(** ** Topics *)

Section TopicFacts.
Import PyStr Analyzer.




End TopicFacts.



(** ** The text given to the models *)



(** ** The text of an extraction *)

Section StripFacts.
Import PyStr.

Lemma rstrip_idem s : rstrip (rstrip s) = rstrip s.
Proof.
  induction s as [|c s IH]; [done|]. cbn [rstrip].
  destruct (is_space c && is_empty (rstrip s)) eqn:E; [done|].
  cbn [rstrip]. by rewrite IH, E.
Qed.

Lemma lstrip_rstrip_lstrip s : lstrip (rstrip (lstrip s)) = rstrip (lstrip s).
Proof.
  induction s as [|c s IH]; [done|]. cbn [lstrip].
  destruct (is_space c) eqn:E; [done|]. cbn [rstrip]. rewrite E. cbn [andb lstrip].
  by rewrite E.
Qed.

Lemma strip_idem s : strip (strip s) = strip s.
Proof. unfold strip. by rewrite lstrip_rstrip_lstrip, rstrip_idem. Qed.





End StripFacts.

Section ExtractTextFacts.
Import PyStr Extractor.
Context (env : Env).

Ltac text_of_result :=
  intros [= <-] t Ht; simplify_map_eq; by eexists.

Lemma pypdf2_text file_path r :
  _extract_from_pdf_with_pypdf2 env file_path = Ok r → Props.text_stripped r.
Proof.
  unfold _extract_from_pdf_with_pypdf2.
  destruct (PdfReader env file_path) as [reader|]; [|done]. cbn [mbind result_bind].
  destruct (pdf_metadata reader) as [metadata|]; [|done]. cbn [mbind result_bind].
  destruct (pdf_pages reader) as [pages|]; [|done]. cbn [mbind result_bind].
  destruct (read_pages pages [] "") as [[ps full_text]|]; [|done].
  cbn [mbind result_bind]. text_of_result.
Qed.

Lemma pdfminer_text file_path r :
  _extract_from_pdf_with_pdfminer env file_path = Ok r → Props.text_stripped r.
Proof.
  unfold _extract_from_pdf_with_pdfminer.
  destruct (pdfminer_extract_text env file_path) as [full_text|]; [|done].
  cbn [mbind result_bind]. text_of_result.
Qed.

Lemma pdf_text file_path r : _extract_from_pdf env file_path = Ok r → Props.text_stripped r.
Proof.
  unfold _extract_from_pdf, try_except.
  destruct (_extract_from_pdf_with_pypdf2 env file_path) as [r'|] eqn:E.
  - intros [= <-]. by apply pypdf2_text in E.
  - apply pdfminer_text.
Qed.

Lemma docx_text file_path r : _extract_from_docx env file_path = Ok r → Props.text_stripped r.
Proof.
  unfold _extract_from_docx.
  destruct (docx_Document env file_path) as [doc|]; [|done]. cbn [mbind result_bind].
  destruct (fold_left _ (docx_paragraphs doc) _) as [paragraphs full_text].
  text_of_result.
Qed.

Lemma doc_text file_path r : _extract_from_doc env file_path = Ok r → Props.text_stripped r.
Proof.
  unfold _extract_from_doc, try_except.
  destruct (textract_process env file_path) as [text|]; cbn [mbind result_bind];
    text_of_result.
Qed.

Lemma txt_text file_path r : _extract_from_txt env file_path = Ok r → Props.text_stripped r.
Proof.
  unfold _extract_from_txt, try_except_cls, try_except.
  destruct (read_utf8 env file_path) as [text|e]; cbn [mbind result_bind].
  - destruct (getsize env file_path) as [size|e]; cbn [mbind result_bind].
    + text_of_result.
    + destruct (decide _); [|done].
      destruct (read_latin1 env file_path) as [text'|e']; cbn [mbind result_bind];
        text_of_result.
  - destruct (decide _); [|done].
    destruct (read_latin1 env file_path) as [text'|e']; cbn [mbind result_bind].
    + destruct (getsize env file_path) as [size|e'']; cbn [mbind result_bind];
        text_of_result.
    + text_of_result.
Qed.

Lemma textract_text file_path r :
  _extract_with_textract env file_path = Ok r → Props.text_stripped r.
Proof.
  unfold _extract_with_textract, try_except.
  destruct (textract_process env file_path) as [text|]; cbn [mbind result_bind].
  - destruct (getsize env file_path) as [size|]; cbn [mbind result_bind];
      text_of_result.
  - text_of_result.
Qed.

Lemma extract_text file_path r : extract env file_path = Ok r → Props.text_stripped r.
Proof.
  unfold extract.
  destruct (path_exists env file_path); cbn [negb]; [|text_of_result].
  destruct (supported_extensions env _) as [handler|] eqn:Eh; [|apply textract_text].
  unfold try_except. destruct (handler file_path) as [r'|e] eqn:E; [|text_of_result].
  intros [= <-]. revert Eh E. unfold supported_extensions.
  destruct (String.eqb _ ".pdf"); [intros [= <-]; apply pdf_text|].
  destruct (String.eqb _ ".docx"); [intros [= <-]; apply docx_text|].
  destruct (String.eqb _ ".doc"); [intros [= <-]; apply doc_text|].
  destruct (String.eqb _ ".txt"); [intros [= <-]; apply txt_text|done].
Qed.

End ExtractTextFacts.



(** ** The pages of a PDF *)

Section PdfFacts.
Import PyStr Extractor.
Context (env : Env).






Lemma forall_space_app a b :
  forall_str is_space (a +:+ b) = forall_str is_space a && forall_str is_space b.
Proof.
  induction a as [|x a IH]; [done|].
  change (String x a +:+ b) with (String x (a +:+ b)). cbn [forall_str].
  by rewrite IH, andb_assoc.
Qed.



End PdfFacts.



(** ** The lines of a text file *)

Section TxtFacts.
Import PyStr Extractor.






End TxtFacts.



(** ** The images of a document *)

Section ImageFacts.
Import PyStr Extractor.
Context (env : Env).







End ImageFacts.

Section PositionFacts.



End PositionFacts.





(** ** The paragraphs of a DOCX *)

Section DocxFacts.
Import PyStr Extractor.



End DocxFacts.



(** ** The sections of an analysis *)

Section SectionValues.
Import PyStr Analyzer AnalyzerSpec.



End SectionValues.



(** ** The symbols outside ASCII *)

Section UnicodeFacts.
Import PyStr UnicodeSymbols.
Local Open Scope N_scope.

Lemma digit_value_hex_digit d : d < 16 → Props.digit_value (hex_digit d) = d.
Proof.
  intros H.
  assert (d = 0 ∨ d = 1 ∨ d = 2 ∨ d = 3 ∨ d = 4 ∨ d = 5 ∨ d = 6 ∨ d = 7 ∨ d = 8
          ∨ d = 9 ∨ d = 10 ∨ d = 11 ∨ d = 12 ∨ d = 13 ∨ d = 14 ∨ d = 15) as Hd by lia.
  repeat (destruct Hd as [->|Hd]; [reflexivity|]). by subst.
Qed.

Lemma hex_digits_value fuel n acc :
  n < 16 ^ N.of_nat fuel →
  ∃ k, ∀ a, Props.hex_value_from a (hex_digits fuel n acc)
            = Props.hex_value_from (a * 16 ^ k + n) acc.
Proof.
  revert n acc. induction fuel as [|fuel IH]; intros n acc Hn.
  - exists 0. intros a. cbn [hex_digits]. f_equal. cbn in Hn. lia.
  - cbn [hex_digits]. cbv zeta.
    assert (n mod 16 < 16) as Hm by (apply N.mod_lt; lia).
    pose proof (N.div_mod n 16 ltac:(lia)) as Hdm.
    destruct (N.eqb_spec (n / 16) 0) as [E|E].
    + exists 1. intros a. cbn [Props.hex_value_from].
      rewrite digit_value_hex_digit by done. f_equal. lia.
    + destruct (IH (n / 16) (String (hex_digit (n mod 16)) acc)) as [k Hk].
      { apply N.Div0.div_lt_upper_bound.
        rewrite Nat2N.inj_succ, N.pow_succ_r' in Hn. lia. }
      exists (k + 1). intros a. rewrite Hk. cbn [Props.hex_value_from].
      rewrite digit_value_hex_digit by done. f_equal.
      rewrite N.pow_add_r. lia.
Qed.

Lemma hex_value_hex n : Props.hex_value (hex n) = n.
Proof.
  unfold Props.hex_value, hex.
  destruct (hex_digits_value (S (N.to_nat (N.log2 n))) n EmptyString) as [k Hk].
  - rewrite Nat2N.inj_succ, N2Nat.id.
    destruct (N.eq_dec n 0) as [->|Hn]; [done|].
    apply N.lt_le_trans with (2 ^ N.succ (N.log2 n)).
    + apply N.log2_spec. lia.
    + apply N.pow_le_mono_l. lia.
  - rewrite Hk. cbn. lia.
Qed.

Lemma hex_value_zeros k s :
  Props.hex_value_from 0 (zeros k +:+ s) = Props.hex_value_from 0 s.
Proof. induction k as [|k IH]; [done|]. exact IH. Qed.

Lemma hex04_value n : Props.hex_value (hex04 n) = n.
Proof.
  unfold hex04, Props.hex_value. cbv zeta.
  rewrite hex_value_zeros. apply hex_value_hex.
Qed.

Lemma length_append (a b : string) :
  String.length (a +:+ b) = (String.length a + String.length b)%nat.
Proof.
  induction a as [|x a IH]; [done|].
  change (String x a +:+ b) with (String x (a +:+ b)). cbn [String.length].
  by rewrite IH.
Qed.

Lemma length_zeros k : String.length (zeros k) = k.
Proof. induction k as [|k IH]; [done|]. cbn. by rewrite IH. Qed.

Lemma hex04_length n : (4 <= String.length (hex04 n))%nat.
Proof. unfold hex04. cbv zeta. rewrite length_append, length_zeros. lia. Qed.

Lemma in_enumerate_from {A} (start : nat) (l : list A) i x :
  In (i, x) (combine (seq start (List.length l)) l) →
  (start <= i)%nat ∧ nth_error l (i - start) = Some x.
Proof.
  revert start. induction l as [|y l IH]; intros start; [done|].
  cbn [List.length seq combine In]. intros [[= <- <-]|H].
  - split; [lia|]. by rewrite Nat.sub_diag.
  - apply IH in H as [Hle Hn]. split; [lia|].
    replace (i - start)%nat with (S (i - S start)) by lia. exact Hn.
Qed.

Context (name : N → option string).

(** The sample of the character [char] at [idx]. *)
Lemma symbols_from_spec idx text symbols :
  symbols_from name idx text symbols
  = (symbols
     ++ List.map (λ ic, {| content := snd ic;
                           unicode := "U+" +:+ hex04 (snd ic);
                           desc := default "UNKNOWN" (name (snd ic));
                           position := fst ic |})
          (List.filter (λ ic, 127 <? snd ic)
             (combine (seq idx (List.length text)) text)))%list.
Proof.
  revert idx symbols. induction text as [|c text IH]; intros idx symbols.
  - cbn. by rewrite app_nil_r.
  - cbn [symbols_from List.length seq combine List.filter snd].
    destruct (127 <? c); [|apply IH].
    rewrite IH. cbn [List.map fst snd]. rewrite <- app_assoc. cbn [app].
    by destruct (name c).
Qed.

End UnicodeFacts.

(** X15.  [extract_unicode_symbols] returns one sample for every character
    outside ASCII, in the order of the text, with the position of the
    character in the text; a text of ASCII characters gives no sample.  The
    unicode tag of a sample is U+ and at least four hexadecimal digits whose
    value is the code point of the character, so that different characters
    have different tags; the description is the Unicode name of the
    character, and UNKNOWN for a character without a name. *)
Theorem extract_unicode_symbols_spec (name : N → option string)
    (text : UnicodeSymbols.ustr) :
  List.map (λ s, (UnicodeSymbols.position s, UnicodeSymbols.content s))
    (UnicodeSymbols.extract_unicode_symbols name text)
  = Props.non_ascii text
  ∧ (∀ s, In s (UnicodeSymbols.extract_unicode_symbols name text) →
       nth_error text (UnicodeSymbols.position s) = Some (UnicodeSymbols.content s)
       ∧ (127 < UnicodeSymbols.content s)%N
       ∧ UnicodeSymbols.unicode s = "U+" +:+ UnicodeSymbols.hex04 (UnicodeSymbols.content s)
       ∧ Props.hex_value (UnicodeSymbols.hex04 (UnicodeSymbols.content s))
         = UnicodeSymbols.content s
       ∧ (4 <= String.length (UnicodeSymbols.hex04 (UnicodeSymbols.content s)))%nat
       ∧ UnicodeSymbols.desc s
         = default "UNKNOWN" (name (UnicodeSymbols.content s)))
  ∧ (Forall (λ c, (c <= 127)%N) text →
     UnicodeSymbols.extract_unicode_symbols name text = []).
Proof.
  unfold UnicodeSymbols.extract_unicode_symbols. rewrite symbols_from_spec.
  cbn [app]. fold (Props.non_ascii text).
  refine (conj _ (conj _ _)).
  - rewrite List.map_map. cbn [UnicodeSymbols.position UnicodeSymbols.content].
    rewrite <- (List.map_id (Props.non_ascii text)) at 2.
    apply List.map_ext. by intros [i c].
  - intros s Hs. apply List.in_map_iff in Hs as ([i c] & <- & Hin).
    cbn [UnicodeSymbols.position UnicodeSymbols.content UnicodeSymbols.unicode
           UnicodeSymbols.desc fst snd].
    apply List.filter_In in Hin as [Hin Hc]. cbn [snd] in Hc.
    refine (conj _ (conj _ (conj eq_refl (conj (hex04_value c)
                                            (conj (hex04_length c) eq_refl))))).
    + apply in_enumerate_from in Hin as [_ Hn]. by rewrite Nat.sub_0_r in Hn.
    + by apply N.ltb_lt.
  - intros Hall. unfold Props.non_ascii.
    assert (List.filter (λ ic : nat * N, (127 <? snd ic)%N)
              (combine (seq 0 (List.length text)) text) = []) as ->; [|done].
    generalize 0%nat as start. induction Hall as [|c text Hc _ IH]; intros start; [done|].
    cbn [List.length seq combine List.filter snd].
    assert ((127 <? c)%N = false) as -> by (apply N.ltb_ge; lia). apply IH.
Qed.

Lemma extract_unicode_symbols_spec_witness :
  UnicodeSymbols.extract_unicode_symbols (λ _, None) [97; 98]%N = [].
Proof.
  apply (proj2 (proj2 (extract_unicode_symbols_spec (λ _, None) [97; 98]%N))).
  repeat constructor; vm_compute; discriminate.
Defined.

(** A sum sign, a letter with an accent and a character of five digits. *)
Example unicode_symbols_sample :
  UnicodeSymbols.extract_unicode_symbols
    (λ c, if (c =? 8721)%N then Some "N-ARY SUMMATION"
          else if (c =? 233)%N then Some "LATIN SMALL LETTER E WITH ACUTE"
          else None)
    [120; 8721; 233; 128512]%N
  = [ {| UnicodeSymbols.content := 8721%N; UnicodeSymbols.unicode := "U+2211";
         UnicodeSymbols.desc := "N-ARY SUMMATION"; UnicodeSymbols.position := 1 |};
      {| UnicodeSymbols.content := 233%N; UnicodeSymbols.unicode := "U+00E9";
         UnicodeSymbols.desc := "LATIN SMALL LETTER E WITH ACUTE";
         UnicodeSymbols.position := 2 |};
      {| UnicodeSymbols.content := 128512%N; UnicodeSymbols.unicode := "U+1F600";
         UnicodeSymbols.desc := "UNKNOWN"; UnicodeSymbols.position := 3 |} ].
Proof. vm_compute. reflexivity. Qed.

(** ** The file types of an upload *)

Section AllowedFacts.
Import PyStr App.

Lemma append_nil_l (s : string) : EmptyString +:+ s = s.
Proof. reflexivity. Qed.

Lemma append_cons (c : ascii) (a b : string) : String c a +:+ b = String c (a +:+ b).
Proof. reflexivity. Qed.

Lemma char_in_append c a b : char_in c (a +:+ b) = char_in c a || char_in c b.
Proof.
  unfold char_in. induction a as [|x a IH]; [done|].
  rewrite append_cons. cbn [exists_str]. by rewrite IH, orb_assoc.
Qed.

Lemma rsplit_dot_none s : rsplit_dot s = None ↔ char_in "." s = false.
Proof.
  unfold char_in. induction s as [|c s IH]; [done|]. cbn [rsplit_dot exists_str].
  destruct (rsplit_dot s) as [[a b]|].
  - split; [done|]. intros H. apply orb_false_iff in H as [_ H].
    apply IH in H. discriminate H.
  - rewrite (Ascii.eqb_sym "." c). destruct (Ascii.eqb c "."); [done|].
    cbn [orb]. split; [intros _; by apply IH|done].
Qed.

Lemma rsplit_dot_some s a b :
  rsplit_dot s = Some (a, b) ↔ s = a +:+ String "." b ∧ char_in "." b = false.
Proof.
  revert a. induction s as [|c s IH]; intros a.
  - split; [done|]. intros [H _]. by destruct a.
  - cbn [rsplit_dot]. destruct (rsplit_dot s) as [[a' b']|] eqn:E.
    + split.
      * intros [= <- <-]. destruct (proj1 (IH a') eq_refl) as [-> Hb]. by split.
      * intros [Hs Hb]. destruct a as [|x a].
        -- rewrite append_nil_l in Hs. injection Hs as -> ->.
           apply rsplit_dot_none in Hb. congruence.
        -- rewrite append_cons in Hs. injection Hs as -> Hs. f_equal.
           assert (Some (a', b') = Some (a, b)) as [= -> ->]; [|done].
           apply IH. by split.
    + pose proof (proj1 (rsplit_dot_none s) E) as Hs.
      assert (∀ x a0, String c s ≠ String x a0 +:+ String "." b) as Hno.
      { intros x a0 Heq. rewrite append_cons in Heq. injection Heq as -> Heq.
        rewrite Heq, char_in_append in Hs. cbn in Hs. by rewrite orb_true_r in Hs. }
      destruct (Ascii.eqb_spec c ".") as [->|Hc].
      * split.
        -- intros [= <- <-]. by split.
        -- intros [Heq Hb]. destruct a as [|x a]; [|by apply Hno in Heq].
           rewrite append_nil_l in Heq. by injection Heq as ->.
      * split; [done|]. intros [Heq Hb]. destruct a as [|x a]; [|by apply Hno in Heq].
        rewrite append_nil_l in Heq. by injection Heq as ->.
Qed.

Lemma allowed_file_iff filename :
  allowed_file filename = true
  ↔ ∃ stem ext, filename = stem +:+ "." +:+ ext
                ∧ char_in "." ext = false
                ∧ In (lower ext) ALLOWED_EXTENSIONS.
Proof.
  unfold allowed_file. split.
  - intros H. apply andb_true_iff in H as [_ H].
    destruct (rsplit_dot filename) as [[stem ext]|] eqn:E; [|done].
    apply rsplit_dot_some in E as [-> Hext]. exists stem, ext.
    split; [done|]. split; [done|]. by apply mem_In.
  - intros (stem & ext & -> & Hext & Hin).
    assert (rsplit_dot (stem +:+ "." +:+ ext) = Some (stem, ext)) as ->
      by (by apply rsplit_dot_some).
    apply andb_true_iff. split; [|by apply mem_In].
    rewrite char_in_append. apply orb_true_iff. by right.
Qed.

Lemma dot_ext_inj (ext e : string) : "." +:+ ext = String "." e → ext = e.
Proof. rewrite append_cons, append_nil_l. by intros [= ->]. Qed.

Lemma supported_extensions_none env ext :
  Extractor.supported_extensions env ("." +:+ ext) = None
  ↔ ext ≠ "pdf" ∧ ext ≠ "docx" ∧ ext ≠ "doc" ∧ ext ≠ "txt".
Proof.
  unfold Extractor.supported_extensions.
  destruct (String.eqb_spec ("." +:+ ext) ".pdf") as [E|E1];
    [apply dot_ext_inj in E; split; [done|tauto]|].
  destruct (String.eqb_spec ("." +:+ ext) ".docx") as [E|E2];
    [apply dot_ext_inj in E; split; [done|tauto]|].
  destruct (String.eqb_spec ("." +:+ ext) ".doc") as [E|E3];
    [apply dot_ext_inj in E; split; [done|tauto]|].
  destruct (String.eqb_spec ("." +:+ ext) ".txt") as [E|E4];
    [apply dot_ext_inj in E; split; [done|tauto]|].
  split; [|done]. intros _. repeat split; intros ->; by (apply E1 || apply E2 || apply E3 || apply E4).
Qed.

End AllowedFacts.

(** X16.  [allowed_file] accepts a file name exactly when what follows its last
    dot is, in any mix of upper and lower case, one of pdf, docx, doc, txt and
    rtf; a name without a dot, or ending in a dot, is refused.  Every
    extension that [extract] has a handler for is allowed, and rtf is the one
    allowed extension without a handler. *)
Theorem allowed_file_spec (filename : string) :
  (App.allowed_file filename = true
   ↔ ∃ stem ext, filename = stem +:+ "." +:+ ext
                 ∧ PyStr.char_in "." ext = false
                 ∧ In (PyStr.lower ext) App.ALLOWED_EXTENSIONS)
  ∧ (PyStr.char_in "." filename = false → App.allowed_file filename = false)
  ∧ App.allowed_file (filename +:+ ".") = false
  ∧ ∀ (env : Extractor.Env) ext,
      (Extractor.supported_extensions env ("." +:+ ext) ≠ None
       → In ext App.ALLOWED_EXTENSIONS)
      ∧ (In ext App.ALLOWED_EXTENSIONS →
         (Extractor.supported_extensions env ("." +:+ ext) = None ↔ ext = "rtf")).
Proof.
  refine (conj (allowed_file_iff filename) (conj _ (conj _ _))).
  - intros H. unfold App.allowed_file. by rewrite H.
  - unfold App.allowed_file.
    assert (App.rsplit_dot (filename +:+ ".") = Some (filename, EmptyString)) as ->
      by (by apply rsplit_dot_some).
    apply andb_false_r.
  - intros env ext. rewrite supported_extensions_none. split.
    + intros H. unfold App.ALLOWED_EXTENSIONS. cbn [In].
      destruct (string_dec ext "pdf"); [by auto|].
      destruct (string_dec ext "docx"); [by auto|].
      destruct (string_dec ext "doc"); [by auto 6|].
      destruct (string_dec ext "txt"); [by auto 6|].
      exfalso. by apply H.
    + intros [<-|[<-|[<-|[<-|[<-|[]]]]]]; split; try done; by intros (? & ? & ? & ?).
Qed.

Lemma allowed_file_spec_witness : App.allowed_file "notes" = false.
Proof. apply (proj1 (proj2 (allowed_file_spec "notes"))). reflexivity. Defined.

Example allowed_file_samples :
  List.map App.allowed_file
    ["report.PDF"; "archive.tar.gz"; "notes"; "notes."; ".txt"; "a.b/c.txt"; "x.rtf"]
  = [true; false; false; false; true; true; true].
Proof. reflexivity. Qed.

(** ** The samples of an export *)

Section ShapeFacts.
Import PyStr Extractor.
Context (env : Env).

Ltac shape_of_result :=
  intros [= <-]; unfold Props.shaped, Props.list_field, Props.text_field;
  refine (conj _ (conj _ _));
  first [ by (left; simplify_map_eq) | right; eexists; by simplify_map_eq ].

Lemma pdf_shaped file_path r : _extract_from_pdf env file_path = Ok r → Props.shaped r.
Proof.
  unfold _extract_from_pdf, try_except, _extract_from_pdf_with_pypdf2,
    _extract_from_pdf_with_pdfminer.
  destruct (PdfReader env file_path) as [reader|]; cbn [mbind result_bind].
  - destruct (pdf_metadata reader) as [metadata|]; cbn [mbind result_bind].
    + destruct (pdf_pages reader) as [pages|]; cbn [mbind result_bind].
      * destruct (read_pages pages [] "") as [[ps full_text]|]; cbn [mbind result_bind].
        -- shape_of_result.
        -- destruct (pdfminer_extract_text env file_path); cbn [mbind result_bind];
             [shape_of_result|done].
      * destruct (pdfminer_extract_text env file_path); cbn [mbind result_bind];
          [shape_of_result|done].
    + destruct (pdfminer_extract_text env file_path); cbn [mbind result_bind];
        [shape_of_result|done].
  - destruct (pdfminer_extract_text env file_path); cbn [mbind result_bind];
      [shape_of_result|done].
Qed.

Lemma docx_shaped file_path r : _extract_from_docx env file_path = Ok r → Props.shaped r.
Proof.
  unfold _extract_from_docx.
  destruct (docx_Document env file_path) as [doc|]; [|done]. cbn [mbind result_bind].
  destruct (fold_left _ (docx_paragraphs doc) _) as [paragraphs full_text].
  shape_of_result.
Qed.

Lemma doc_shaped file_path r : _extract_from_doc env file_path = Ok r → Props.shaped r.
Proof.
  unfold _extract_from_doc, try_except.
  destruct (textract_process env file_path) as [text|]; cbn [mbind result_bind];
    shape_of_result.
Qed.

Lemma txt_shaped file_path r : _extract_from_txt env file_path = Ok r → Props.shaped r.
Proof.
  unfold _extract_from_txt, try_except_cls, try_except.
  destruct (read_utf8 env file_path) as [text|e]; cbn [mbind result_bind].
  - destruct (getsize env file_path) as [size|e]; cbn [mbind result_bind].
    + shape_of_result.
    + destruct (decide _); [|done].
      destruct (read_latin1 env file_path) as [text'|e']; cbn [mbind result_bind];
        shape_of_result.
  - destruct (decide _); [|done].
    destruct (read_latin1 env file_path) as [text'|e']; cbn [mbind result_bind].
    + destruct (getsize env file_path) as [size|e'']; cbn [mbind result_bind];
        shape_of_result.
    + shape_of_result.
Qed.

Lemma textract_shaped file_path r :
  _extract_with_textract env file_path = Ok r → Props.shaped r.
Proof.
  unfold _extract_with_textract, try_except.
  destruct (textract_process env file_path) as [text|]; cbn [mbind result_bind].
  - destruct (getsize env file_path) as [size|]; cbn [mbind result_bind];
      shape_of_result.
  - shape_of_result.
Qed.

Lemma extract_shaped file_path r : extract env file_path = Ok r → Props.shaped r.
Proof.
  unfold extract.
  destruct (path_exists env file_path); cbn [negb]; [|shape_of_result].
  destruct (supported_extensions env _) as [handler|] eqn:Eh; [|apply textract_shaped].
  unfold try_except. destruct (handler file_path) as [r'|e] eqn:E; [|shape_of_result].
  intros [= <-]. revert Eh E. unfold supported_extensions.
  destruct (String.eqb _ ".pdf"); [intros [= <-]; apply pdf_shaped|].
  destruct (String.eqb _ ".docx"); [intros [= <-]; apply docx_shaped|].
  destruct (String.eqb _ ".doc"); [intros [= <-]; apply doc_shaped|].
  destruct (String.eqb _ ".txt"); [intros [= <-]; apply txt_shaped|done].
Qed.

End ShapeFacts.

Section ExportFacts.
Import PyStr Mistral.
Context (env : Env).

Lemma strings_map l : Props.strings (List.map PStr l) = l.
Proof.
  unfold Props.strings. induction l as [|s l IH]; [done|].
  cbn [List.map flat_map app]. by rewrite IH.
Qed.

Lemma combine_map_r {A B C} (g : B → C) (ns : list A) (l : list B) :
  combine ns (List.map g l) = List.map (λ p, (fst p, g (snd p))) (combine ns l).
Proof.
  revert ns. induction l as [|x l IH]; intros [|n ns]; cbn; try done. by rewrite IH.
Qed.

Lemma tagged_numbered tag l :
  tagged tag (List.map PStr l)
  = List.map (λ c, (PStr (fst c), snd c)) (Props.numbered tag l).
Proof.
  unfold tagged, Props.numbered.
  rewrite length_map, combine_map_r, !List.map_map. reflexivity.
Qed.

Lemma chunk_loop_spec chunks samples :
  chunk_loop env (List.map (λ c, (PStr (fst c), snd c)) chunks) samples
  = Ok (samples ++ flat_map (Props.str_chunk_samples env) chunks)%list.
Proof.
  revert samples. induction chunks as [|[s meta] chunks IH]; intros samples.
  - cbn. by rewrite app_nil_r.
  - cbn [List.map chunk_loop fst snd chunk_samples mbind result_bind flat_map].
    rewrite IH. by rewrite <- app_assoc.
Qed.

Lemma present_list r key :
  Props.list_field r key →
  match Props.field_strings r key with
  | [] => present r key = None
  | l => present r key = Some (PList (List.map PStr l))
  end.
Proof.
  unfold Props.field_strings, present. intros [->| [l ->]]; [done|].
  cbv iota. rewrite strings_map. by destruct l.
Qed.

Lemma present_text r :
  Props.text_field r →
  present r "text"
  = if is_empty (Props.field_text r) then None else Some (PStr (Props.field_text r)).
Proof.
  unfold Props.field_text, present. intros [->| [s ->]]; [done|]. by destruct s.
Qed.

Lemma text_chunks_spec r :
  Props.shaped r →
  text_chunks env r
  = Ok (List.map (λ c, (PStr (fst c), snd c))
          (Props.export_chunks (Props.field_strings r "pages")
             (Props.field_strings r "paragraphs") (Props.field_text r))).
Proof.
  intros (Hp & Hq & Ht). unfold text_chunks, Props.export_chunks.
  pose proof (present_list r "pages" Hp) as Hpages.
  pose proof (present_list r "paragraphs" Hq) as Hparas.
  rewrite (present_text r Ht).
  destruct (Props.field_strings r "pages") as [|p ps].
  - rewrite Hpages. destruct (Props.field_strings r "paragraphs") as [|q qs].
    + rewrite Hparas. by destruct (is_empty (Props.field_text r)).
    + rewrite Hparas. cbn [iterate mbind result_bind]. by rewrite tagged_numbered.
  - rewrite Hpages. cbn [iterate mbind result_bind]. by rewrite tagged_numbered.
Qed.

End ExportFacts.

(** X17.  [process_document_for_mistral] never fails on the type of what the
    extraction returns.  It takes the pages of the result as chunks, numbered
    from 1; without a page its paragraphs, numbered from 1; without either its
    text, if that is not empty.  For each chunk it writes the text of the
    chunk, then its symbols outside ASCII, then its mathematical expressions,
    each with the number of the chunk, and after all chunks the images, one
    line for each sample.  What the extraction raises it raises, before the
    output file is opened; and for a file that does not exist and is neither
    PDF nor DOCX it writes an empty file and returns. *)
Theorem export_samples (env : Mistral.Env) (input_file output_jsonl : string) :
  (∀ r, Extractor.extract_with_images (Mistral.extractor env) input_file = Ok r →
     ∃ images samples,
       r !! "images" = Some (PList images)
       ∧ samples
         = (flat_map (Props.str_chunk_samples env)
              (Props.export_chunks (Props.field_strings r "pages")
                 (Props.field_strings r "paragraphs") (Props.field_text r))
            ++ images)%list
       ∧ Mistral.samples_of env r = Ok samples
       ∧ Mistral.process_document_for_mistral env input_file output_jsonl
         = (_ ← Mistral.open_write env output_jsonl;
            Ok (List.map (λ sample, Mistral.dumps env sample +:+ PyStr.nl) samples)))
  ∧ (∀ e, Extractor.extract_with_images (Mistral.extractor env) input_file = Raise e →
          Mistral.process_document_for_mistral env input_file output_jsonl = Raise e)
  ∧ (Extractor.path_exists (Mistral.extractor env) input_file = false →
     Extractor.splitext_ext (PyStr.lower input_file) ≠ ".pdf" →
     Extractor.splitext_ext (PyStr.lower input_file) ≠ ".docx" →
     Mistral.process_document_for_mistral env input_file output_jsonl
     = (_ ← Mistral.open_write env output_jsonl; Ok [])).
Proof.
  assert (∀ r, Extractor.extract_with_images (Mistral.extractor env) input_file = Ok r →
            ∃ images,
              r !! "images" = Some (PList images)
              ∧ Mistral.samples_of env r
                = Ok (flat_map (Props.str_chunk_samples env)
                        (Props.export_chunks (Props.field_strings r "pages")
                           (Props.field_strings r "paragraphs") (Props.field_text r))
                      ++ images)%list) as Hsamples.
  { intros r Hr.
    destruct (extract_returns (Mistral.extractor env) input_file) as [base Hb].
    rewrite (extract_with_images_stage _ input_file base Hb) in Hr.
    destruct (ExtractorSpec.image_stage _ input_file) as [images|e]; [|done].
    injection Hr as <-. exists images. split; [by rewrite lookup_insert_eq|].
    assert (Props.shaped (<[ "images" := PList images ]> base)) as Hshape.
    { destruct (extract_shaped _ input_file base Hb) as (Hp & Hq & Ht).
      unfold Props.shaped, Props.list_field, Props.text_field.
      by rewrite !lookup_insert_ne. }
    unfold Mistral.samples_of. rewrite (text_chunks_spec env _ Hshape).
    cbn [mbind result_bind]. rewrite chunk_loop_spec. cbn [mbind result_bind app].
    by rewrite lookup_insert_eq. }
  refine (conj _ (conj _ _)).
  - intros r Hr. destruct (Hsamples r Hr) as (images & Hi & Hs).
    eexists images, _. split; [exact Hi|]. split; [reflexivity|]. split; [exact Hs|].
    unfold Mistral.process_document_for_mistral. rewrite Hr. cbn [mbind result_bind].
    rewrite Hs. reflexivity.
  - intros e He. unfold Mistral.process_document_for_mistral. by rewrite He.
  - intros Hne Hpdf Hdocx.
    assert (Extractor.extract (Mistral.extractor env) input_file
            = Ok {[ "error" := PStr ("File not found: " +:+ input_file) ]}) as Hb
      by (unfold Extractor.extract; by rewrite Hne).
    pose proof (extract_with_images_stage _ input_file _ Hb) as Hr.
    rewrite image_stage_other in Hr by done.
    unfold Mistral.process_document_for_mistral. rewrite Hr. cbn [mbind result_bind].
    destruct (Hsamples _ Hr) as (images & Hi & Hs). rewrite Hs.
    rewrite lookup_insert_eq in Hi. injection Hi as <-.
    reflexivity.
Qed.

Lemma export_samples_witness :
  Mistral.process_document_for_mistral Props.export_no_files "notes.txt" "out.jsonl"
  = Ok [].
Proof.
  apply (proj2 (proj2 (export_samples Props.export_no_files "notes.txt" "out.jsonl")));
    [reflexivity|vm_compute; discriminate..].
Defined.

(** One page with a formula: the text of the page, then the formula, both
    with the number of the page. *)
Example export_page_sample :
  Mistral.samples_of Props.export_no_files
    {[ "pages" := PList [PStr "a $x$"]; "images" := PList [] ]}
  = Ok [PDict [("type", PStr "text"); ("content", PStr "a $x$");
               ("meta", PDict [("page", PInt 1)])];
        PDict [("type", PStr "math"); ("content", PStr "$x$");
               ("meta", PDict [("start", PInt 2); ("end", PInt 5); ("page", PInt 1)])]].
Proof. vm_compute. reflexivity. Qed.

(** ** The errors of an extraction *)

Section ErrorFacts.
Import PyStr Extractor.
Context (env : Env).

Ltac no_error := intros [= <-] msg Hm; by simplify_map_eq.

Lemma pdf_no_error file_path r :
  _extract_from_pdf env file_path = Ok r → ∀ msg, r !! "error" ≠ Some (PStr msg).
Proof.
  intros Hr msg Hm. destruct (pdf_shape env file_path r Hr) as [[_ He]|[Ht _]].
  - congruence.
  - revert Hr Ht. unfold _extract_from_pdf, try_except, _extract_from_pdf_with_pypdf2,
      _extract_from_pdf_with_pdfminer.
    destruct (PdfReader env file_path) as [reader|]; cbn [mbind result_bind].
    + destruct (pdf_metadata reader) as [metadata|]; cbn [mbind result_bind].
      * destruct (pdf_pages reader) as [pages|]; cbn [mbind result_bind].
        -- destruct (read_pages pages [] "") as [[ps full_text]|]; cbn [mbind result_bind].
           ++ intros [= <-] Ht. by simplify_map_eq.
           ++ destruct (pdfminer_extract_text env file_path); cbn [mbind result_bind];
                [intros [= <-] Ht; by simplify_map_eq|done].
        -- destruct (pdfminer_extract_text env file_path); cbn [mbind result_bind];
             [intros [= <-] Ht; by simplify_map_eq|done].
      * destruct (pdfminer_extract_text env file_path); cbn [mbind result_bind];
          [intros [= <-] Ht; by simplify_map_eq|done].
    + destruct (pdfminer_extract_text env file_path); cbn [mbind result_bind];
        [intros [= <-] Ht; by simplify_map_eq|done].
Qed.

Lemma docx_no_error file_path r :
  _extract_from_docx env file_path = Ok r → ∀ msg, r !! "error" ≠ Some (PStr msg).
Proof.
  unfold _extract_from_docx.
  destruct (docx_Document env file_path) as [doc|]; [|done]. cbn [mbind result_bind].
  destruct (fold_left _ (docx_paragraphs doc) _) as [paragraphs full_text].
  no_error.
Qed.

Lemma doc_error file_path r msg :
  _extract_from_doc env file_path = Ok r → r !! "error" = Some (PStr msg) →
  ∃ e, textract_process env file_path = Raise e
       ∧ msg = "DOC extraction failed: " +:+ str_exn e.
Proof.
  unfold _extract_from_doc, try_except.
  destruct (textract_process env file_path) as [text|e]; cbn [mbind result_bind];
    intros [= <-] Hm; simplify_map_eq. by exists e.
Qed.

Lemma txt_error file_path r msg :
  _extract_from_txt env file_path = Ok r → r !! "error" = Some (PStr msg) →
  ∃ e, msg = "Text extraction failed: " +:+ str_exn e
       ∧ (read_latin1 env file_path = Raise e ∨ getsize env file_path = Raise e).
Proof.
  unfold _extract_from_txt, try_except_cls, try_except.
  destruct (read_utf8 env file_path) as [text|e]; cbn [mbind result_bind].
  - destruct (getsize env file_path) as [size|e] eqn:Eg; cbn [mbind result_bind].
    + intros [= <-] Hm. by simplify_map_eq.
    + destruct (decide _); [|done].
      destruct (read_latin1 env file_path) as [text'|e'] eqn:El; cbn [mbind result_bind];
        intros [= <-] Hm; simplify_map_eq; eexists; split; eauto.
  - destruct (decide _); [|done].
    destruct (read_latin1 env file_path) as [text'|e'] eqn:El; cbn [mbind result_bind].
    + destruct (getsize env file_path) as [size|e''] eqn:Eg; cbn [mbind result_bind];
        intros [= <-] Hm; simplify_map_eq. eexists; split; eauto.
    + intros [= <-] Hm. simplify_map_eq. eexists; split; eauto.
Qed.

Lemma textract_error file_path r msg :
  _extract_with_textract env file_path = Ok r → r !! "error" = Some (PStr msg) →
  ∃ e, msg = "Unsupported file type extraction failed: " +:+ str_exn e
       ∧ (textract_process env file_path = Raise e ∨ getsize env file_path = Raise e).
Proof.
  unfold _extract_with_textract, try_except.
  destruct (textract_process env file_path) as [text|e] eqn:Et; cbn [mbind result_bind].
  - destruct (getsize env file_path) as [size|e] eqn:Eg; cbn [mbind result_bind];
      intros [= <-] Hm; simplify_map_eq. eexists; split; eauto.
  - intros [= <-] Hm. simplify_map_eq. eexists; split; eauto.
Qed.

End ErrorFacts.

(** X18.  The error of a result of [extract] tells where the extraction
    failed.  It is "File not found: " and the path when the path does not
    exist.  For a path that exists it is "Unsupported file type extraction
    failed: ", "DOC extraction failed: " or "Text extraction failed: " with
    the message of the exception when textract fails on a file of another
    type, or on a .doc file, or when the latin-1 reading of a .txt file fails;
    or it is "Extraction failed: " with the message of the exception that
    the handler of the extension raised.  The handlers of PDF and DOCX files
    return no error of their own. *)
Theorem extract_error_cases (env : Extractor.Env) (file_path : string)
    (r : gmap string pyval) (msg : string) :
  Extractor.extract env file_path = Ok r →
  r !! "error" = Some (PStr msg) →
  (Extractor.path_exists env file_path = false
   ∧ msg = "File not found: " +:+ file_path)
  ∨ (Extractor.path_exists env file_path = true
     ∧ ∃ e,
         (Extractor.supported_extensions env
            (Extractor.splitext_ext (PyStr.lower file_path)) = None
          ∧ msg = "Unsupported file type extraction failed: " +:+ str_exn e
          ∧ (Extractor.textract_process env file_path = Raise e
             ∨ Extractor.getsize env file_path = Raise e))
         ∨ (Extractor.splitext_ext (PyStr.lower file_path) = ".doc"
            ∧ msg = "DOC extraction failed: " +:+ str_exn e
            ∧ Extractor.textract_process env file_path = Raise e)
         ∨ (Extractor.splitext_ext (PyStr.lower file_path) = ".txt"
            ∧ msg = "Text extraction failed: " +:+ str_exn e
            ∧ (Extractor.read_latin1 env file_path = Raise e
               ∨ Extractor.getsize env file_path = Raise e))
         ∨ (∃ handler,
              Extractor.supported_extensions env
                (Extractor.splitext_ext (PyStr.lower file_path)) = Some handler
              ∧ handler file_path = Raise e
              ∧ msg = "Extraction failed: " +:+ str_exn e)).
Proof.
  unfold Extractor.extract.
  destruct (Extractor.path_exists env file_path); cbn [negb].
  2: { intros [= <-] Hm. simplify_map_eq. by left. }
  intros Hr Hm. right. split; [done|].
  destruct (Extractor.supported_extensions env _) as [handler|] eqn:Eh.
  - unfold try_except in Hr. destruct (handler file_path) as [r'|e] eqn:E.
    + injection Hr as <-. revert Eh E. unfold Extractor.supported_extensions.
      destruct (String.eqb_spec (Extractor.splitext_ext (PyStr.lower file_path)) ".pdf")
        as [_|_]; [intros [= <-] E; by destruct (pdf_no_error env _ _ E msg)|].
      destruct (String.eqb_spec (Extractor.splitext_ext (PyStr.lower file_path)) ".docx")
        as [_|_]; [intros [= <-] E; by destruct (docx_no_error env _ _ E msg)|].
      destruct (String.eqb_spec (Extractor.splitext_ext (PyStr.lower file_path)) ".doc")
        as [Hext|_].
      { intros [= <-] E. destruct (doc_error env _ _ _ E Hm) as (e & He & ->).
        exists e. right. left. by rewrite Hext. }
      destruct (String.eqb_spec (Extractor.splitext_ext (PyStr.lower file_path)) ".txt")
        as [Hext|_]; [|done].
      intros [= <-] E. destruct (txt_error env _ _ _ E Hm) as (e & -> & He).
      exists e. right. right. left. by rewrite Hext.
    + injection Hr as <-. simplify_map_eq. exists e. right. right. right.
      by exists handler.
  - destruct (textract_error env _ _ _ Hr Hm) as (e & -> & He). exists e. by left.
Qed.

Lemma extract_error_cases_witness :
  Extractor.path_exists Demo.no_files "notes.txt" = false
  ∧ "File not found: notes.txt" = "File not found: " +:+ "notes.txt"
  ∨ Extractor.path_exists Demo.no_files "notes.txt" = true
    ∧ ∃ e,
        (Extractor.supported_extensions Demo.no_files
           (Extractor.splitext_ext (PyStr.lower "notes.txt")) = None
         ∧ "File not found: notes.txt"
           = "Unsupported file type extraction failed: " +:+ str_exn e
         ∧ (Extractor.textract_process Demo.no_files "notes.txt" = Raise e
            ∨ Extractor.getsize Demo.no_files "notes.txt" = Raise e))
        ∨ (Extractor.splitext_ext (PyStr.lower "notes.txt") = ".doc"
           ∧ "File not found: notes.txt" = "DOC extraction failed: " +:+ str_exn e
           ∧ Extractor.textract_process Demo.no_files "notes.txt" = Raise e)
        ∨ (Extractor.splitext_ext (PyStr.lower "notes.txt") = ".txt"
           ∧ "File not found: notes.txt" = "Text extraction failed: " +:+ str_exn e
           ∧ (Extractor.read_latin1 Demo.no_files "notes.txt" = Raise e
              ∨ Extractor.getsize Demo.no_files "notes.txt" = Raise e))
        ∨ (∃ handler,
             Extractor.supported_extensions Demo.no_files
               (Extractor.splitext_ext (PyStr.lower "notes.txt")) = Some handler
             ∧ handler "notes.txt" = Raise e
             ∧ "File not found: notes.txt" = "Extraction failed: " +:+ str_exn e).
Proof.
  apply (extract_error_cases Demo.no_files "notes.txt"
           {[ "error" := PStr "File not found: notes.txt" ]}); reflexivity.
Defined.

(** ** Extraction followed by analysis *)

(** X19.  The two steps of processing a document fit: a result of [extract]
    without an error has a text, so that taking its text never fails.  As the
    text is stripped, [analyze] answers it with the error "Empty text provided
    for analysis" exactly when the text is empty, a document without any text;
    for every other text a result of [analyze] has no error and counts the
    characters of that text. *)
Theorem extract_then_analyze (env : Extractor.Env) (aenv : Analyzer.Env)
    (file_path : string) (options : option (gmap string bool))
    (r : gmap string pyval) :
  Extractor.extract env file_path = Ok r →
  r !! "error" = None →
  ∃ text,
    r !! "text" = Some (PStr text)
    ∧ (text = EmptyString →
       Analyzer.analyze aenv text options
       = Ok {[ "error" := PStr "Empty text provided for analysis" ]})
    ∧ (text ≠ EmptyString →
       ∀ analysis, Analyzer.analyze aenv text options = Ok analysis →
         analysis !! "error" = None
         ∧ analysis !! "text_length" = Some (PInt (Z.of_nat (String.length text)))).
Proof.
  intros Hr He.
  destruct (extract_shape env file_path r Hr) as [[[text Ht] _]|[_ (s & Hs & _)]];
    [|congruence].
  exists text. split; [done|]. split.
  - intros ->. by apply analyze_blank.
  - intros Hne analysis Ha.
    destruct (extract_text env file_path r Hr text Ht) as [raw ->].
    assert (Analyzer.is_blank (PyStr.strip raw) = false) as Hb.
    { unfold Analyzer.is_blank. rewrite strip_idem. by destruct (PyStr.strip raw). }
    destruct (analyze_sections aenv _ options analysis Hb Ha) as (Hd & Hl & _).
    split; [|done]. apply not_elem_of_dom. rewrite Hd.
    unfold AnalyzerSpec.base_keys, AnalyzerSpec.section_keys.
    rewrite !elem_of_union, !elem_of_section_key, !elem_of_singleton.
    intros H. repeat (destruct H as [H|H]); try discriminate H; by destruct H.
Qed.

Lemma extract_then_analyze_witness :
  ∃ r text,
    Extractor.extract (Demo.one_text_file "empty.txt" "") "empty.txt" = Ok r
    ∧ r !! "text" = Some (PStr text)
    ∧ Analyzer.analyze Demo.analyzer_env text None
      = Ok {[ "error" := PStr "Empty text provided for analysis" ]}.
Proof.
  assert (Extractor.extract (Demo.one_text_file "empty.txt" "") "empty.txt"
          = Ok {[ "text" := PStr "";
                  "metadata" := PDict [("filename", PStr "empty.txt"); ("size", PInt 0)];
                  "lines" := PList [PStr ""] ]}) as Hr
    by (vm_compute; reflexivity).
  destruct (extract_then_analyze _ Demo.analyzer_env _ None _ Hr eq_refl)
    as (text & Ht & Hempty & _).
  eexists _, text. split; [exact Hr|]. split; [exact Ht|].
  apply Hempty. rewrite lookup_insert_eq in Ht. by injection Ht as <-.
Defined.
